(** * The RDP transport of libcsp (src/transport/csp_rdp.c)

    A shallow embedding of the reliable datagram protocol of the Cubesat
    Space Protocol library: packet headers, the retransmission and
    reassembly queues, the connection state machine, the timeout engine,
    the send path and the active open, followed by the properties
    established about them. *)

From Stdlib Require Import ZArith List Bool Lia Permutation.
Import ListNotations.
Open Scope Z_scope.

(** ** Machine integers and byte order *)

(** Values stored in a [uint16_t] / [uint32_t] object. *)
Definition u16 (x : Z) : Z := x mod 65536.
Definition u32 (x : Z) : Z := x mod 4294967296.

(** [htons] / [ntohs] on a little-endian host, the build
    ([_CSP_LITTLE_ENDIAN_]) that is embedded here: the two bytes of a
    16-bit value are exchanged. *)
Definition htons (x : Z) : Z := (x mod 256) * 256 + (x / 256) mod 256.
Definition ntohs (x : Z) : Z := htons x.

(** [ntohl] on a little-endian host. *)
Definition ntohl (x : Z) : Z :=
  (x mod 256) * 16777216 + ((x / 256) mod 256) * 65536
  + ((x / 65536) mod 256) * 256 + (x / 16777216) mod 256.

(** ** Packets *)

(** [rdp_header_t], bit-field variant ([CSP_RDP_COMP] off): four one-bit
    flags, the four reserved bits [res] that share their byte, and two
    16-bit numbers. *)
Record rdp_header_t := {
  syn : bool;
  ack : bool;
  eak : bool;
  rst : bool;
  res : Z;
  seq_nr : Z;
  ack_nr : Z
}.

(** The packed header is one flag byte and two 16-bit fields. *)
Definition sizeof_rdp_header_t : Z := 5.

(** A packet buffer.  [csp_packet_t] and [rdp_packet_t] are two views of
    the same buffer: the latter names the last four padding bytes
    [timestamp].  [data16] lists the data area as 16-bit words, the
    payload first; where the list goes on beyond the payload it gives what
    the buffer holds after the packet, and a word that is not listed reads
    as 0.  [header] is the RDP header that [csp_rdp_header_ref] finds in
    the bytes that end at offset [length] (or, once
    [csp_rdp_header_remove] has run, just after it); these bytes lie over
    the data area and are not repeated in [data16]. *)
Record csp_packet_t := {
  timestamp : Z;
  length : Z;
  data16 : list Z;
  header : rdp_header_t
}.

Definition set_timestamp (v : Z) (p : csp_packet_t) : csp_packet_t :=
  {| timestamp := v; length := length p; data16 := data16 p; header := header p |}.
Definition set_length (v : Z) (p : csp_packet_t) : csp_packet_t :=
  {| timestamp := timestamp p; length := v; data16 := data16 p; header := header p |}.
Definition set_data16 (v : list Z) (p : csp_packet_t) : csp_packet_t :=
  {| timestamp := timestamp p; length := length p; data16 := v; header := header p |}.
Definition set_header (v : rdp_header_t) (p : csp_packet_t) : csp_packet_t :=
  {| timestamp := timestamp p; length := length p; data16 := data16 p; header := v |}.

Definition set_seq_nr (v : Z) (h : rdp_header_t) : rdp_header_t :=
  {| syn := syn h; ack := ack h; eak := eak h; rst := rst h; res := res h;
     seq_nr := v; ack_nr := ack_nr h |}.
Definition set_ack_nr (v : Z) (h : rdp_header_t) : rdp_header_t :=
  {| syn := syn h; ack := ack h; eak := eak h; rst := rst h; res := res h;
     seq_nr := seq_nr h; ack_nr := v |}.

Definition zero_header : rdp_header_t :=
  {| syn := false; ack := false; eak := false; rst := false; res := 0;
     seq_nr := 0; ack_nr := 0 |}.

(** [p->data16[i]]; words beyond the list read as 0. *)
Definition data16_get (p : csp_packet_t) (i : nat) : Z := nth i (data16 p) 0.

(** [p->data16[i] = v]. *)
Definition data16_put (i : nat) (v : Z) (l : list Z) : list Z :=
  firstn i (l ++ repeat 0 (i - List.length l)) ++ v :: skipn (S i) l.

(** [p->data32[i]], the same bytes read as 32-bit words. *)
Definition data32_get (p : csp_packet_t) (i : nat) : Z :=
  data16_get p (2 * i) + 65536 * data16_get p (2 * i + 1).

(** The header as it lies in memory on a little-endian host
    ([_CSP_LITTLE_ENDIAN_]): the flag byte, with [rst] in its lowest bit
    and the reserved bits on top, then the two numbers, low byte first. *)
Definition flags_byte (h : rdp_header_t) : Z :=
  Z.b2z (rst h) + 2 * Z.b2z (eak h) + 4 * Z.b2z (ack h) + 8 * Z.b2z (syn h)
  + 16 * (res h mod 16).

Definition header_bytes (h : rdp_header_t) : list Z :=
  [flags_byte h; seq_nr h mod 256; (seq_nr h / 256) mod 256;
   ack_nr h mod 256; (ack_nr h / 256) mod 256].

(** [p->data[k]], a byte of the data area. *)
Definition data8_get (p : csp_packet_t) (k : nat) : Z :=
  let w := data16_get p (k / 2) in
  if Nat.even k then w mod 256 else (w / 256) mod 256.

(** [p->data[k]] of a packet that carries its RDP header: the header
    takes the [sizeof (rdp_header_t)] bytes that end at offset
    [length]. *)
Definition rx_data8 (p : csp_packet_t) (k : nat) : Z :=
  let at_header := length p - sizeof_rdp_header_t in
  if (at_header <=? Z.of_nat k) && (Z.of_nat k <? length p)
  then nth (Z.to_nat (Z.of_nat k - at_header)) (header_bytes (header p)) 0
  else data8_get p k.

(** [p->data32[i]] of such a packet.  A word inside the payload is the
    payload's; a word that reaches beyond it takes the bytes of the header
    and of what follows the packet in its buffer. *)
Definition rx_data32 (p : csp_packet_t) (i : nat) : Z :=
  rx_data8 p (4 * i) + 256 * rx_data8 p (4 * i + 1)
  + 65536 * rx_data8 p (4 * i + 2) + 16777216 * rx_data8 p (4 * i + 3).

(** ** Queues *)

(** Modelled from the spec: the queue primitives of arch/csp_queue.h
    ([queue_create], [queue_enqueue], [queue_dequeue], [queue_size]), which
    are not among the sources: a FIFO of bounded depth. *)
Record csp_queue (A : Type) := {
  items : list A;
  capacity : nat
}.
Arguments items {A} _.
Arguments capacity {A} _.

(** Modelled from the spec: the result codes of the queue calls
    (arch/csp_queue.h).  Success is the non-zero one: for a duplicate
    [csp_rdp_rx_queue_add] returns the literal 0, which its caller compares
    with [CSP_QUEUE_OK]. *)
Definition CSP_QUEUE_OK : Z := 1.
Definition CSP_QUEUE_FULL : Z := 0.

Definition csp_queue_size {A} (q : csp_queue A) : Z := Z.of_nat (List.length (items q)).

Definition csp_queue_enqueue {A} (q : csp_queue A) (x : A) : csp_queue A * Z :=
  if (List.length (items q) <? capacity q)%nat
  then ({| items := items q ++ [x]; capacity := capacity q |}, CSP_QUEUE_OK)
  else (q, CSP_QUEUE_FULL).

Definition csp_queue_dequeue {A} (q : csp_queue A) : option (A * csp_queue A) :=
  match items q with
  | [] => None
  | x :: rest => Some (x, {| items := rest; capacity := capacity q |})
  end.

(** ** Connections *)

Inductive csp_rdp_states :=
| RDP_CLOSED
| RDP_LISTEN
| RDP_SYN_SENT
| RDP_SYN_RCVD
| RDP_OPEN
| RDP_CLOSE_WAIT.

Definition state_eqb (a b : csp_rdp_states) : bool :=
  match a, b with
  | RDP_CLOSED, RDP_CLOSED | RDP_LISTEN, RDP_LISTEN | RDP_SYN_SENT, RDP_SYN_SENT
  | RDP_SYN_RCVD, RDP_SYN_RCVD | RDP_OPEN, RDP_OPEN | RDP_CLOSE_WAIT, RDP_CLOSE_WAIT => true
  | _, _ => false
  end.

(** Modelled from the spec: the connection record [csp_rdp_t] of
    csp_conn.h, which is not among the sources.  The six sequence
    variables are 16-bit like the header fields they exchange values with,
    the negotiated parameters and the time stamps are 32-bit; [tx_wait] is
    a binary semaphore (true: signalled). *)
Record csp_rdp_t := {
  state : csp_rdp_states;
  snd_nxt : Z;
  snd_una : Z;
  snd_iss : Z;
  rcv_cur : Z;
  rcv_irs : Z;
  rcv_lsa : Z;
  window_size : Z;
  conn_timeout : Z;
  packet_timeout : Z;
  delayed_acks : Z;
  ack_timeout : Z;
  ack_delay_count : Z;
  ack_timestamp : Z;
  tx_wait : bool;
  tx_queue : csp_queue csp_packet_t;
  rx_queue : csp_queue csp_packet_t
}.

Definition rdp_set_state (v : csp_rdp_states) (r : csp_rdp_t) : csp_rdp_t :=
  {| state := v; snd_nxt := snd_nxt r; snd_una := snd_una r; snd_iss := snd_iss r; rcv_cur := rcv_cur r; rcv_irs := rcv_irs r; rcv_lsa := rcv_lsa r; window_size := window_size r; conn_timeout := conn_timeout r; packet_timeout := packet_timeout r; delayed_acks := delayed_acks r; ack_timeout := ack_timeout r; ack_delay_count := ack_delay_count r; ack_timestamp := ack_timestamp r; tx_wait := tx_wait r; tx_queue := tx_queue r; rx_queue := rx_queue r |}.

Definition rdp_set_snd_nxt (v : Z) (r : csp_rdp_t) : csp_rdp_t :=
  {| state := state r; snd_nxt := v; snd_una := snd_una r; snd_iss := snd_iss r; rcv_cur := rcv_cur r; rcv_irs := rcv_irs r; rcv_lsa := rcv_lsa r; window_size := window_size r; conn_timeout := conn_timeout r; packet_timeout := packet_timeout r; delayed_acks := delayed_acks r; ack_timeout := ack_timeout r; ack_delay_count := ack_delay_count r; ack_timestamp := ack_timestamp r; tx_wait := tx_wait r; tx_queue := tx_queue r; rx_queue := rx_queue r |}.

Definition rdp_set_snd_una (v : Z) (r : csp_rdp_t) : csp_rdp_t :=
  {| state := state r; snd_nxt := snd_nxt r; snd_una := v; snd_iss := snd_iss r; rcv_cur := rcv_cur r; rcv_irs := rcv_irs r; rcv_lsa := rcv_lsa r; window_size := window_size r; conn_timeout := conn_timeout r; packet_timeout := packet_timeout r; delayed_acks := delayed_acks r; ack_timeout := ack_timeout r; ack_delay_count := ack_delay_count r; ack_timestamp := ack_timestamp r; tx_wait := tx_wait r; tx_queue := tx_queue r; rx_queue := rx_queue r |}.

Definition rdp_set_snd_iss (v : Z) (r : csp_rdp_t) : csp_rdp_t :=
  {| state := state r; snd_nxt := snd_nxt r; snd_una := snd_una r; snd_iss := v; rcv_cur := rcv_cur r; rcv_irs := rcv_irs r; rcv_lsa := rcv_lsa r; window_size := window_size r; conn_timeout := conn_timeout r; packet_timeout := packet_timeout r; delayed_acks := delayed_acks r; ack_timeout := ack_timeout r; ack_delay_count := ack_delay_count r; ack_timestamp := ack_timestamp r; tx_wait := tx_wait r; tx_queue := tx_queue r; rx_queue := rx_queue r |}.

Definition rdp_set_rcv_cur (v : Z) (r : csp_rdp_t) : csp_rdp_t :=
  {| state := state r; snd_nxt := snd_nxt r; snd_una := snd_una r; snd_iss := snd_iss r; rcv_cur := v; rcv_irs := rcv_irs r; rcv_lsa := rcv_lsa r; window_size := window_size r; conn_timeout := conn_timeout r; packet_timeout := packet_timeout r; delayed_acks := delayed_acks r; ack_timeout := ack_timeout r; ack_delay_count := ack_delay_count r; ack_timestamp := ack_timestamp r; tx_wait := tx_wait r; tx_queue := tx_queue r; rx_queue := rx_queue r |}.

Definition rdp_set_rcv_irs (v : Z) (r : csp_rdp_t) : csp_rdp_t :=
  {| state := state r; snd_nxt := snd_nxt r; snd_una := snd_una r; snd_iss := snd_iss r; rcv_cur := rcv_cur r; rcv_irs := v; rcv_lsa := rcv_lsa r; window_size := window_size r; conn_timeout := conn_timeout r; packet_timeout := packet_timeout r; delayed_acks := delayed_acks r; ack_timeout := ack_timeout r; ack_delay_count := ack_delay_count r; ack_timestamp := ack_timestamp r; tx_wait := tx_wait r; tx_queue := tx_queue r; rx_queue := rx_queue r |}.

Definition rdp_set_rcv_lsa (v : Z) (r : csp_rdp_t) : csp_rdp_t :=
  {| state := state r; snd_nxt := snd_nxt r; snd_una := snd_una r; snd_iss := snd_iss r; rcv_cur := rcv_cur r; rcv_irs := rcv_irs r; rcv_lsa := v; window_size := window_size r; conn_timeout := conn_timeout r; packet_timeout := packet_timeout r; delayed_acks := delayed_acks r; ack_timeout := ack_timeout r; ack_delay_count := ack_delay_count r; ack_timestamp := ack_timestamp r; tx_wait := tx_wait r; tx_queue := tx_queue r; rx_queue := rx_queue r |}.

Definition rdp_set_window_size (v : Z) (r : csp_rdp_t) : csp_rdp_t :=
  {| state := state r; snd_nxt := snd_nxt r; snd_una := snd_una r; snd_iss := snd_iss r; rcv_cur := rcv_cur r; rcv_irs := rcv_irs r; rcv_lsa := rcv_lsa r; window_size := v; conn_timeout := conn_timeout r; packet_timeout := packet_timeout r; delayed_acks := delayed_acks r; ack_timeout := ack_timeout r; ack_delay_count := ack_delay_count r; ack_timestamp := ack_timestamp r; tx_wait := tx_wait r; tx_queue := tx_queue r; rx_queue := rx_queue r |}.

Definition rdp_set_conn_timeout (v : Z) (r : csp_rdp_t) : csp_rdp_t :=
  {| state := state r; snd_nxt := snd_nxt r; snd_una := snd_una r; snd_iss := snd_iss r; rcv_cur := rcv_cur r; rcv_irs := rcv_irs r; rcv_lsa := rcv_lsa r; window_size := window_size r; conn_timeout := v; packet_timeout := packet_timeout r; delayed_acks := delayed_acks r; ack_timeout := ack_timeout r; ack_delay_count := ack_delay_count r; ack_timestamp := ack_timestamp r; tx_wait := tx_wait r; tx_queue := tx_queue r; rx_queue := rx_queue r |}.

Definition rdp_set_packet_timeout (v : Z) (r : csp_rdp_t) : csp_rdp_t :=
  {| state := state r; snd_nxt := snd_nxt r; snd_una := snd_una r; snd_iss := snd_iss r; rcv_cur := rcv_cur r; rcv_irs := rcv_irs r; rcv_lsa := rcv_lsa r; window_size := window_size r; conn_timeout := conn_timeout r; packet_timeout := v; delayed_acks := delayed_acks r; ack_timeout := ack_timeout r; ack_delay_count := ack_delay_count r; ack_timestamp := ack_timestamp r; tx_wait := tx_wait r; tx_queue := tx_queue r; rx_queue := rx_queue r |}.

Definition rdp_set_delayed_acks (v : Z) (r : csp_rdp_t) : csp_rdp_t :=
  {| state := state r; snd_nxt := snd_nxt r; snd_una := snd_una r; snd_iss := snd_iss r; rcv_cur := rcv_cur r; rcv_irs := rcv_irs r; rcv_lsa := rcv_lsa r; window_size := window_size r; conn_timeout := conn_timeout r; packet_timeout := packet_timeout r; delayed_acks := v; ack_timeout := ack_timeout r; ack_delay_count := ack_delay_count r; ack_timestamp := ack_timestamp r; tx_wait := tx_wait r; tx_queue := tx_queue r; rx_queue := rx_queue r |}.

Definition rdp_set_ack_timeout (v : Z) (r : csp_rdp_t) : csp_rdp_t :=
  {| state := state r; snd_nxt := snd_nxt r; snd_una := snd_una r; snd_iss := snd_iss r; rcv_cur := rcv_cur r; rcv_irs := rcv_irs r; rcv_lsa := rcv_lsa r; window_size := window_size r; conn_timeout := conn_timeout r; packet_timeout := packet_timeout r; delayed_acks := delayed_acks r; ack_timeout := v; ack_delay_count := ack_delay_count r; ack_timestamp := ack_timestamp r; tx_wait := tx_wait r; tx_queue := tx_queue r; rx_queue := rx_queue r |}.

Definition rdp_set_ack_delay_count (v : Z) (r : csp_rdp_t) : csp_rdp_t :=
  {| state := state r; snd_nxt := snd_nxt r; snd_una := snd_una r; snd_iss := snd_iss r; rcv_cur := rcv_cur r; rcv_irs := rcv_irs r; rcv_lsa := rcv_lsa r; window_size := window_size r; conn_timeout := conn_timeout r; packet_timeout := packet_timeout r; delayed_acks := delayed_acks r; ack_timeout := ack_timeout r; ack_delay_count := v; ack_timestamp := ack_timestamp r; tx_wait := tx_wait r; tx_queue := tx_queue r; rx_queue := rx_queue r |}.

Definition rdp_set_ack_timestamp (v : Z) (r : csp_rdp_t) : csp_rdp_t :=
  {| state := state r; snd_nxt := snd_nxt r; snd_una := snd_una r; snd_iss := snd_iss r; rcv_cur := rcv_cur r; rcv_irs := rcv_irs r; rcv_lsa := rcv_lsa r; window_size := window_size r; conn_timeout := conn_timeout r; packet_timeout := packet_timeout r; delayed_acks := delayed_acks r; ack_timeout := ack_timeout r; ack_delay_count := ack_delay_count r; ack_timestamp := v; tx_wait := tx_wait r; tx_queue := tx_queue r; rx_queue := rx_queue r |}.

Definition rdp_set_tx_wait (v : bool) (r : csp_rdp_t) : csp_rdp_t :=
  {| state := state r; snd_nxt := snd_nxt r; snd_una := snd_una r; snd_iss := snd_iss r; rcv_cur := rcv_cur r; rcv_irs := rcv_irs r; rcv_lsa := rcv_lsa r; window_size := window_size r; conn_timeout := conn_timeout r; packet_timeout := packet_timeout r; delayed_acks := delayed_acks r; ack_timeout := ack_timeout r; ack_delay_count := ack_delay_count r; ack_timestamp := ack_timestamp r; tx_wait := v; tx_queue := tx_queue r; rx_queue := rx_queue r |}.

Definition rdp_set_tx_queue (v : csp_queue csp_packet_t) (r : csp_rdp_t) : csp_rdp_t :=
  {| state := state r; snd_nxt := snd_nxt r; snd_una := snd_una r; snd_iss := snd_iss r; rcv_cur := rcv_cur r; rcv_irs := rcv_irs r; rcv_lsa := rcv_lsa r; window_size := window_size r; conn_timeout := conn_timeout r; packet_timeout := packet_timeout r; delayed_acks := delayed_acks r; ack_timeout := ack_timeout r; ack_delay_count := ack_delay_count r; ack_timestamp := ack_timestamp r; tx_wait := tx_wait r; tx_queue := v; rx_queue := rx_queue r |}.

Definition rdp_set_rx_queue (v : csp_queue csp_packet_t) (r : csp_rdp_t) : csp_rdp_t :=
  {| state := state r; snd_nxt := snd_nxt r; snd_una := snd_una r; snd_iss := snd_iss r; rcv_cur := rcv_cur r; rcv_irs := rcv_irs r; rcv_lsa := rcv_lsa r; window_size := window_size r; conn_timeout := conn_timeout r; packet_timeout := packet_timeout r; delayed_acks := delayed_acks r; ack_timeout := ack_timeout r; ack_delay_count := ack_delay_count r; ack_timestamp := ack_timestamp r; tx_wait := tx_wait r; tx_queue := tx_queue r; rx_queue := v |}.

(** [conn->rx_socket]: NULL, the marker [(void * ) 1] (the handle has been
    passed to user space), or a listening socket whose accept queue holds
    [pending] connections out of [backlog]. *)
Inductive csp_socket :=
| Sock_null
| Sock_passed
| Sock_listening (pending backlog : nat).

(** Modelled from the spec: the part of [csp_conn_t] (csp_conn.h, not among
    the sources) that the RDP code touches.  [conn_rx_queue] is
    [conn->rx_queue], the application receive queue, where [None] is the
    NULL sentinel. *)
Record csp_conn_t := {
  rdp : csp_rdp_t;
  rx_socket : csp_socket;
  conn_rx_queue : csp_queue (option csp_packet_t);
  open_timestamp : Z
}.

Definition set_rdp (v : csp_rdp_t) (c : csp_conn_t) : csp_conn_t :=
  {| rdp := v; rx_socket := rx_socket c; conn_rx_queue := conn_rx_queue c;
     open_timestamp := open_timestamp c |}.
Definition set_rx_socket (v : csp_socket) (c : csp_conn_t) : csp_conn_t :=
  {| rdp := rdp c; rx_socket := v; conn_rx_queue := conn_rx_queue c;
     open_timestamp := open_timestamp c |}.
Definition set_conn_rx_queue (v : csp_queue (option csp_packet_t)) (c : csp_conn_t) : csp_conn_t :=
  {| rdp := rdp c; rx_socket := rx_socket c; conn_rx_queue := v;
     open_timestamp := open_timestamp c |}.

(** ** The machine: a connection and its collaborators *)

(** What the RDP code does to the outside. *)
Inductive event :=
| Sent (p : csp_packet_t)     (* csp_send_direct took the packet *)
| Freed (p : csp_packet_t)    (* csp_buffer_free *)
| Conn_closed.                (* csp_close released the connection *)

(** Modelled from the spec: the collaborators of section 1 that are not
    among the sources.  [rdp_lock] is the global binary semaphore (true:
    taken), [pool] the number of free buffers ([alloc_packet] /
    [free_packet]), [clock] the value of [csp_get_ms ()], which does not
    advance during one call, [if_up] whether [csp_send_direct] succeeds,
    [delay_acks] the build option [CSP_DELAY_ACKS], and [trace] the events
    so far, oldest first. *)
Record machine := {
  conn : csp_conn_t;
  rdp_lock : bool;
  pool : nat;
  clock : Z;
  if_up : bool;
  delay_acks : bool;
  trace : list event
}.

Definition set_conn (v : csp_conn_t) (m : machine) : machine :=
  {| conn := v; rdp_lock := rdp_lock m; pool := pool m; clock := clock m;
     if_up := if_up m; delay_acks := delay_acks m; trace := trace m |}.
Definition set_rdp_lock (v : bool) (m : machine) : machine :=
  {| conn := conn m; rdp_lock := v; pool := pool m; clock := clock m;
     if_up := if_up m; delay_acks := delay_acks m; trace := trace m |}.
Definition set_pool (v : nat) (m : machine) : machine :=
  {| conn := conn m; rdp_lock := rdp_lock m; pool := v; clock := clock m;
     if_up := if_up m; delay_acks := delay_acks m; trace := trace m |}.
Definition set_trace (v : list event) (m : machine) : machine :=
  {| conn := conn m; rdp_lock := rdp_lock m; pool := pool m; clock := clock m;
     if_up := if_up m; delay_acks := delay_acks m; trace := v |}.

(** A computation on the machine; [None] is a dereference of a NULL
    pointer. *)
Definition M (A : Type) : Type := machine -> option (A * machine).

Definition ret {A} (a : A) : M A := fun m => Some (a, m).
Definition bind {A B} (x : M A) (f : A -> M B) : M B :=
  fun m => match x m with
           | Some (a, m') => f a m'
           | None => None
           end.
Definition fault {A} : M A := fun _ => None.

Declare Scope rdp_scope.
Delimit Scope rdp_scope with rdp.
Notation "x <- c ;; k" := (bind c (fun x => k))
  (at level 61, c at next level, right associativity) : rdp_scope.
Notation "c ;; k" := (bind c (fun _ => k))
  (at level 61, right associativity) : rdp_scope.
Open Scope rdp_scope.

(** Reading and writing [conn->rdp]. *)
Definition rdp_get : M csp_rdp_t := fun m => Some (rdp (conn m), m).
Definition rdp_upd (f : csp_rdp_t -> csp_rdp_t) : M unit :=
  fun m => Some (tt, set_conn (set_rdp (f (rdp (conn m))) (conn m)) m).
Definition conn_get : M csp_conn_t := fun m => Some (conn m, m).
Definition conn_upd (f : csp_conn_t -> csp_conn_t) : M unit :=
  fun m => Some (tt, set_conn (f (conn m)) m).
Definition emit (e : event) : M unit :=
  fun m => Some (tt, set_trace (trace m ++ [e]) m).

(** Modelled from the spec: [now_ms], the clock. *)
Definition csp_get_ms : M Z := fun m => Some (clock m, m).

Definition blank_packet : csp_packet_t :=
  {| timestamp := 0; length := 0; data16 := []; header := zero_header |}.

(** Modelled from the spec: [alloc_packet] and [free_packet], the buffer
    pool.  [csp_buffer_get] returns a buffer of the pool, or NULL when it
    is empty; [csp_buffer_free] gives one back. *)
Definition csp_buffer_get (size : Z) : M (option csp_packet_t) :=
  fun m => match pool m with
           | O => Some (None, m)
           | S n => Some (Some blank_packet, set_pool n m)
           end.

Definition csp_buffer_free (p : csp_packet_t) : M unit :=
  fun m => Some (tt, set_trace (trace m ++ [Freed p]) (set_pool (S (pool m)) m)).

(** Modelled from the spec: [send_datagram], here
    [csp_send_direct (conn->idout, packet, 0)]: true when the interface
    took the packet. *)
Definition csp_send_direct (p : csp_packet_t) : M bool :=
  fun m => if if_up m then Some (true, set_trace (trace m ++ [Sent p]) m)
           else Some (false, m).

(** [csp_bin_sem_post (&conn->rdp.tx_wait)]. *)
Definition tx_wait_post : M unit := rdp_upd (rdp_set_tx_wait true).

(** Queue calls on [conn->rdp.tx_queue] and [conn->rdp.rx_queue]; the
    [_isr] variants behave alike. *)
Definition tx_queue_enqueue (p : csp_packet_t) : M Z :=
  r <- rdp_get ;;
  let (q, res) := csp_queue_enqueue (tx_queue r) p in
  rdp_upd (rdp_set_tx_queue q) ;; ret res.

Definition tx_queue_dequeue : M (option csp_packet_t) :=
  r <- rdp_get ;;
  match csp_queue_dequeue (tx_queue r) with
  | None => ret None
  | Some (p, q) => rdp_upd (rdp_set_tx_queue q) ;; ret (Some p)
  end.

Definition rx_queue_enqueue (p : csp_packet_t) : M Z :=
  r <- rdp_get ;;
  let (q, res) := csp_queue_enqueue (rx_queue r) p in
  rdp_upd (rdp_set_rx_queue q) ;; ret res.

Definition rx_queue_dequeue : M (option csp_packet_t) :=
  r <- rdp_get ;;
  match csp_queue_dequeue (rx_queue r) with
  | None => ret None
  | Some (p, q) => rdp_upd (rdp_set_rx_queue q) ;; ret (Some p)
  end.

(** [csp_queue_enqueue (conn->rx_queue, &x, 0)]. *)
Definition conn_rx_enqueue (x : option csp_packet_t) : M Z :=
  c <- conn_get ;;
  let (q, res) := csp_queue_enqueue (conn_rx_queue c) x in
  conn_upd (set_conn_rx_queue q) ;; ret res.

(** ** Locking *)

(** [csp_rdp_wait (1000, conn)]: takes the global lock; when it is still
    taken after the time-out the call reports a dead-lock. *)
Definition csp_rdp_wait : M bool :=
  fun m => if rdp_lock m then Some (false, m) else Some (true, set_rdp_lock true m).

Definition csp_rdp_release : M unit :=
  fun m => Some (tt, set_rdp_lock false m).

Definition cfg_delay_acks : M bool := fun m => Some (delay_acks m, m).

(** ** RDP headers *)

Definition csp_rdp_header_add (packet : csp_packet_t) : csp_packet_t :=
  set_header zero_header (set_length (u16 (length packet + sizeof_rdp_header_t)) packet).

Definition csp_rdp_header_remove (packet : csp_packet_t) : csp_packet_t :=
  set_length (u16 (length packet - sizeof_rdp_header_t)) packet.

Definition csp_rdp_header_ref (packet : csp_packet_t) : rdp_header_t := header packet.

(** [memcpy (&dst->length, &src->length, src->length + 6)]: everything but
    the padding, hence not the time stamp. *)
Definition copy_packet (dst src : csp_packet_t) : csp_packet_t :=
  set_timestamp (timestamp dst) src.

(** ** Control messages *)

Definition csp_rdp_send_cmp (packet : option csp_packet_t) (ack syn rst eak : bool)
    (seq_nr ack_nr : Z) (copy_yes_no : bool) : M Z :=
  packet <- match packet with
            | None =>
                b <- csp_buffer_get 20 ;;
                match b with
                | None => fault          (* packet->length = 0 on NULL *)
                | Some b => ret (set_length 0 b)
                end
            | Some p => ret p
            end ;;
  let packet :=
    set_header {| syn := syn; ack := ack; eak := eak; rst := rst; res := 0;
                  seq_nr := htons (u16 seq_nr); ack_nr := htons (u16 ack_nr) |}
               (csp_rdp_header_add packet) in
  go <- (if copy_yes_no then
           b <- csp_buffer_get (length packet + 10) ;;
           match b with
           | None => ret false
           | Some b =>
               now <- csp_get_ms ;;
               let rdp_packet := set_timestamp now (copy_packet b packet) in
               res <- tx_queue_enqueue rdp_packet ;;
               (if negb (res =? CSP_QUEUE_OK) then csp_buffer_free rdp_packet else ret tt) ;;
               ret true
           end
         else ret true) ;;
  if negb go then ret 0 else
  sent <- csp_send_direct packet ;;
  if negb sent then csp_buffer_free packet ;; ret 0 else
  da <- cfg_delay_acks ;;
  (if da && ack then
     now <- csp_get_ms ;;
     rdp_upd (fun r => rdp_set_ack_timestamp now (rdp_set_rcv_lsa (u16 ack_nr) r))
   else ret tt) ;;
  ret 1.

(** ** Extended acknowledgements *)

Fixpoint send_eack_loop (count : nat) (packet_eack : csp_packet_t) : M csp_packet_t :=
  match count with
  | O => ret packet_eack
  | S count' =>
      d <- rx_queue_dequeue ;;
      match d with
      | None => ret packet_eack
      | Some packet =>
          let header := csp_rdp_header_ref packet in
          let packet_eack :=
            set_length (u16 (length packet_eack + 2))
              (set_data16 (data16_put (Z.to_nat (length packet_eack / 2))
                                      (htons (seq_nr header)) (data16 packet_eack))
                          packet_eack) in
          rx_queue_enqueue packet ;;
          send_eack_loop count' packet_eack
      end
  end.

Definition csp_rdp_send_eack : M Z :=
  b <- csp_buffer_get 100 ;;
  match b with
  | None => ret 0
  | Some b =>
      r <- rdp_get ;;
      packet_eack <- send_eack_loop (List.length (items (rx_queue r))) (set_length 0 b) ;;
      r <- rdp_get ;;
      csp_rdp_send_cmp (Some packet_eack) true false false true (snd_nxt r) (rcv_cur r) false
  end.

(** ** Reception *)

(** Returns the result and the packet, whose length the call changes in
    place. *)
Definition csp_rdp_receive_data (packet : csp_packet_t) : M (Z * csp_packet_t) :=
  c <- conn_get ;;
  queued <- match rx_socket c with
            | Sock_listening pending backlog =>
                if (pending <? backlog)%nat
                then conn_upd (set_rx_socket Sock_passed) ;; ret true
                else ret false
            | _ => ret true
            end ;;
  if negb queued then ret (0, packet) else
  let packet := csp_rdp_header_remove packet in
  res <- conn_rx_enqueue (Some packet) ;;
  if negb (res =? CSP_QUEUE_OK) then ret (0, packet) else ret (1, packet).

(** One pass of the [for] loop of [csp_rdp_rx_queue_flush]; true when a
    segment matched and the function jumps back to its label. *)
Fixpoint rx_queue_flush_pass (count : nat) : M bool :=
  match count with
  | O => ret false
  | S count' =>
      d <- rx_queue_dequeue ;;
      match d with
      | None => ret false
      | Some packet =>
          let header := csp_rdp_header_ref packet in
          r <- rdp_get ;;
          if seq_nr header =? rcv_cur r + 1 then
            csp_rdp_receive_data packet ;;
            rdp_upd (rdp_set_rcv_cur (u16 (rcv_cur r + 1))) ;;
            ret true
          else
            rx_queue_enqueue packet ;;
            rx_queue_flush_pass count'
      end
  end.

(** The passes, at most [fuel] of them; every pass but the last removes a
    segment, so the queue size bounds their number
    ([rx_queue_flush_fuel]). *)
Fixpoint rx_queue_flush_from (fuel : nat) : M unit :=
  match fuel with
  | O => ret tt
  | S fuel' =>
      r <- rdp_get ;;
      again <- rx_queue_flush_pass (List.length (items (rx_queue r))) ;;
      if again then rx_queue_flush_from fuel' else ret tt
  end.

Definition csp_rdp_rx_queue_flush : M unit :=
  r <- rdp_get ;;
  rx_queue_flush_from (List.length (items (rx_queue r))).

Fixpoint rx_queue_exists_loop (count : nat) (seq_nr' : Z) : M Z :=
  match count with
  | O => ret 0
  | S count' =>
      d <- rx_queue_dequeue ;;
      match d with
      | None => ret 0
      | Some packet =>
          rx_queue_enqueue packet ;;
          if seq_nr (csp_rdp_header_ref packet) =? seq_nr' then ret 1
          else rx_queue_exists_loop count' seq_nr'
      end
  end.

Definition csp_rdp_rx_queue_exists (seq_nr' : Z) : M Z :=
  r <- rdp_get ;;
  rx_queue_exists_loop (List.length (items (rx_queue r))) seq_nr'.

Definition csp_rdp_rx_queue_add (packet : csp_packet_t) (seq_nr' : Z) : M Z :=
  e <- csp_rdp_rx_queue_exists seq_nr' ;;
  if negb (e =? 0) then ret 0 else rx_queue_enqueue packet.

(** ** Flushing the retransmission queue on an EACK *)

(** The number of 16-bit words the inner loop of [csp_rdp_flush_eack]
    reads; the caller only passes packets longer than a header. *)
Definition eack_count (eack_packet : csp_packet_t) : nat :=
  Z.to_nat ((length eack_packet - sizeof_rdp_header_t) / 2).

(** The inner loop: [fst] is [match], [snd] the entry. *)
Definition flush_eack_look (eack_packet : csp_packet_t) (now timeout : Z)
    (acc : bool * csp_packet_t) (j : nat) : bool * csp_packet_t :=
  let (found, packet) := acc in
  let header := csp_rdp_header_ref packet in
  let found := if ntohs (data16_get eack_packet j) =? ntohs (seq_nr header)
               then true else found in
  let packet := if ntohs (data16_get eack_packet j) >? ntohs (seq_nr header)
                then set_timestamp (u32 (now - timeout)) packet else packet in
  (found, packet).

Fixpoint flush_eack_loop (count : nat) (eack_packet : csp_packet_t) : M unit :=
  match count with
  | O => ret tt
  | S count' =>
      d <- tx_queue_dequeue ;;
      match d with
      | None => ret tt
      | Some packet =>
          now <- csp_get_ms ;;
          r <- rdp_get ;;
          let (found, packet) :=
            fold_left (flush_eack_look eack_packet now (packet_timeout r))
                      (seq 0 (eack_count eack_packet)) (false, packet) in
          (if negb found then tx_queue_enqueue packet ;; ret tt
           else csp_buffer_free packet) ;;
          flush_eack_loop count' eack_packet
      end
  end.

Definition csp_rdp_flush_eack (eack_packet : csp_packet_t) : M unit :=
  r <- rdp_get ;;
  flush_eack_loop (List.length (items (tx_queue r))) eack_packet.

(** ** Closing *)

Definition csp_rdp_close : M Z :=
  ok <- csp_rdp_wait ;;
  if negb ok then ret 0 else
  r <- rdp_get ;;
  if negb (state_eqb (state r) RDP_CLOSE_WAIT) then
    csp_rdp_send_cmp None true false true false (snd_nxt r) (rcv_cur r) false ;;
    rdp_upd (rdp_set_state RDP_CLOSE_WAIT) ;;
    csp_rdp_release ;;
    ret 1
  else
    rdp_upd (rdp_set_state RDP_CLOSED) ;;
    csp_rdp_release ;;
    ret 0.

(** Modelled from the spec: [csp_close] of csp_conn.c, which is not among
    the sources: close-from-user runs [csp_rdp_close], and the connection
    is released once that reports that no reset is pending. *)
Definition csp_close : M unit :=
  pending <- csp_rdp_close ;;
  if pending =? 1 then ret tt else emit Conn_closed.

(** ** The timeout engine *)

(** The loop over the retransmission queue in [csp_rdp_check_timeouts]. *)
Fixpoint tx_queue_sweep (count : nat) (time_now : Z) : M unit :=
  match count with
  | O => ret tt
  | S count' =>
      d <- tx_queue_dequeue ;;
      match d with
      | None => ret tt
      | Some packet =>
          let header := csp_rdp_header_ref packet in
          r <- rdp_get ;;
          if ntohs (seq_nr header) <? snd_una r then
            csp_buffer_free packet ;;
            tx_queue_sweep count' time_now
          else
            packet <-
              (if u32 (timestamp packet + packet_timeout r) <? time_now then
                 let packet := set_header (set_ack_nr (htons (rcv_cur r)) header) packet in
                 now <- csp_get_ms ;;
                 let packet := set_timestamp now packet in
                 b <- csp_buffer_get (length packet + 10) ;;
                 match b with
                 | None => fault        (* memcpy to NULL *)
                 | Some b =>
                     let new_packet := copy_packet b packet in
                     sent <- csp_send_direct new_packet ;;
                     (if negb sent then csp_buffer_free new_packet else ret tt) ;;
                     ret packet
                 end
               else ret packet) ;;
            tx_queue_enqueue packet ;;
            tx_queue_sweep count' time_now
      end
  end.

Definition is_listening (s : csp_socket) : bool :=
  match s with
  | Sock_listening _ _ => true
  | _ => false
  end.

Definition csp_rdp_check_timeouts : M unit :=
  time_now <- csp_get_ms ;;
  c <- conn_get ;;
  if is_listening (rx_socket c)
     && (u32 (open_timestamp c + conn_timeout (rdp c)) <? time_now)
  then csp_close else
  if state_eqb (state (rdp c)) RDP_CLOSE_WAIT
     && (u32 (open_timestamp c + conn_timeout (rdp c)) <? time_now)
  then csp_close else
  ok <- csp_rdp_wait ;;
  if negb ok then ret tt else
  tx_queue_sweep (List.length (items (tx_queue (rdp c)))) time_now ;;
  da <- cfg_delay_acks ;;
  (if da then
     r <- rdp_get ;;
     if rcv_lsa r <? rcv_cur r then
       now <- csp_get_ms ;;
       let diff := u32 (now - ack_timestamp r) in
       if diff >? ack_timeout r then
         csp_rdp_send_cmp None true false false false (snd_nxt r) (rcv_cur r) false ;;
         ret tt
       else ret tt
     else ret tt
   else ret tt) ;;
  r <- rdp_get ;;
  (if state_eqb (state r) RDP_OPEN
      && (u32 (csp_queue_size (tx_queue r)) <? u32 (window_size r - 1))
      && (u32 (snd_nxt r) <? u32 (snd_una r + u32 (window_size r * 2)))
   then tx_wait_post else ret tt) ;;
  csp_rdp_release.

(** ** Packet reception: the state machine *)

(** The three exit labels of [csp_rdp_new_packet]. *)
Definition accepted_open : M unit := csp_rdp_release.

Definition discard_open (packet : csp_packet_t) : M unit :=
  csp_buffer_free packet ;;
  accepted_open.

Definition discard_close (packet : csp_packet_t) : M unit :=
  c <- conn_get ;;
  (match rx_socket c with
   | Sock_passed => conn_rx_enqueue None ;; ret tt
   | _ => ret tt
   end) ;;
  discard_open packet.

(** The sequence-number and acknowledgement-number tests of the states
    SYN_RCVD, OPEN and CLOSE_WAIT.  A 16-bit operand is promoted to [int];
    where the other operand is the 32-bit unsigned [window_size] the
    arithmetic is unsigned. *)
Definition seq_nr_unacceptable (r : csp_rdp_t) (rx_header : rdp_header_t) : bool :=
  (seq_nr rx_header <=? rcv_cur r)
  || (u32 (seq_nr rx_header) >? u32 (rcv_cur r + u32 (window_size r * 2))).

Definition ack_nr_too_high (r : csp_rdp_t) (rx_header : rdp_header_t) : bool :=
  ack_nr rx_header >=? snd_nxt r.

Definition ack_nr_too_low (r : csp_rdp_t) (rx_header : rdp_header_t) : bool :=
  u32 (ack_nr rx_header) <? u32 (snd_una r - 1 - u32 (window_size r * 2)).

(** A RESET was received. *)
Definition rdp_reset_received (packet : csp_packet_t) : M unit :=
  let rx_header := csp_rdp_header_ref packet in
  (if ack rx_header
   then rdp_upd (rdp_set_snd_una (u16 (ack_nr rx_header + 1)))
   else ret tt) ;;
  r <- rdp_get ;;
  if state_eqb (state r) RDP_CLOSE_WAIT then
    csp_buffer_free packet ;;
    csp_rdp_release ;;
    csp_close
  else if seq_nr rx_header =? rcv_cur r + 1 then
    csp_rdp_send_cmp None true false true false (snd_nxt r) (rcv_cur r) false ;;
    rdp_upd (rdp_set_state RDP_CLOSE_WAIT) ;;
    discard_close packet
  else
    discard_open packet.

Definition rdp_listen (packet : csp_packet_t) : M unit :=
  let rx_header := csp_rdp_header_ref packet in
  r <- rdp_get ;;
  if ack rx_header then
    csp_rdp_send_cmp None false false true false (snd_nxt r) (rcv_cur r) false ;;
    discard_close packet
  else if syn rx_header then
    da <- cfg_delay_acks ;;
    rdp_upd (fun r =>
      rdp_set_ack_delay_count (ntohl (rx_data32 packet 5))
     (rdp_set_ack_timeout (ntohl (rx_data32 packet 4))
     (rdp_set_delayed_acks (ntohl (rx_data32 packet 3))
     (rdp_set_packet_timeout (ntohl (rx_data32 packet 2))
     (rdp_set_conn_timeout (ntohl (rx_data32 packet 1))
     (rdp_set_window_size (ntohl (rx_data32 packet 0))
     (rdp_set_state RDP_SYN_RCVD
     ((if da then rdp_set_rcv_lsa (seq_nr rx_header) else fun r => r)
     (rdp_set_rcv_irs (seq_nr rx_header)
     (rdp_set_rcv_cur (seq_nr rx_header) r)))))))))) ;;
    r <- rdp_get ;;
    csp_rdp_send_cmp None true true false false (snd_iss r) (rcv_irs r) true ;;
    discard_open packet
  else
    discard_close packet.

Definition rdp_syn_sent (packet : csp_packet_t) : M unit :=
  let rx_header := csp_rdp_header_ref packet in
  if syn rx_header && ack rx_header then
    rdp_upd (fun r =>
      rdp_set_state RDP_OPEN
     (rdp_set_snd_una (u16 (ack_nr rx_header + 1))
     (rdp_set_rcv_irs (seq_nr rx_header)
     (rdp_set_rcv_cur (seq_nr rx_header) r)))) ;;
    da <- cfg_delay_acks ;;
    (if da then rdp_upd (rdp_set_rcv_lsa (u16 (seq_nr rx_header - 1)))
     else
       r <- rdp_get ;;
       csp_rdp_send_cmp None true false false false (snd_nxt r) (rcv_cur r) false ;;
       ret tt) ;;
    tx_wait_post ;;
    discard_open packet
  else if ack rx_header then
    r <- rdp_get ;;
    csp_rdp_send_cmp None false false true false (snd_nxt r) (rcv_cur r) false ;;
    tx_wait_post ;;
    discard_open packet
  else
    discard_close packet.

(** The data part of the states SYN_RCVD and OPEN, after the tests on the
    flags and the two numbers. *)
Definition rdp_open_data (packet : csp_packet_t) : M unit :=
  let rx_header := csp_rdp_header_ref packet in
  if eak rx_header then
    (if length packet >? sizeof_rdp_header_t then csp_rdp_flush_eack packet else ret tt) ;;
    discard_open packet
  else if length packet <=? sizeof_rdp_header_t then
    discard_open packet
  else
    r <- rdp_get ;;
    if negb (rcv_cur r + 1 =? seq_nr rx_header) then
      res <- csp_rdp_rx_queue_add packet (seq_nr rx_header) ;;
      if negb (res =? CSP_QUEUE_OK) then discard_open packet
      else csp_rdp_send_eack ;; accepted_open
    else
      let seq_nr' := seq_nr rx_header in
      res <- csp_rdp_receive_data packet ;;
      if fst res =? 0 then discard_open (snd res) else
      rdp_upd (rdp_set_rcv_cur seq_nr') ;;
      da <- cfg_delay_acks ;;
      r <- rdp_get ;;
      (if da then
         if u32 (rcv_cur r) >? u32 (rcv_lsa r + ack_delay_count r) then
           csp_rdp_send_cmp None true false false false (snd_nxt r) (rcv_cur r) false ;;
           ret tt
         else ret tt
       else
         csp_rdp_send_cmp None true false false false (snd_nxt r) (rcv_cur r) false ;;
         ret tt) ;;
      csp_rdp_rx_queue_flush ;;
      accepted_open.

(** The acknowledgement part of the states SYN_RCVD and OPEN, once the
    sequence number was accepted. *)
Definition rdp_open_ack (packet : csp_packet_t) : M unit :=
  let rx_header := csp_rdp_header_ref packet in
  r <- rdp_get ;;
  if ack_nr_too_high r rx_header then discard_close packet else
  if ack_nr_too_low r rx_header then discard_close packet else
  if state_eqb (state r) RDP_SYN_RCVD && negb (ack_nr rx_header =? snd_iss r)
  then discard_close packet else
  (if state_eqb (state r) RDP_SYN_RCVD
   then rdp_upd (rdp_set_state RDP_OPEN) else ret tt) ;;
  rdp_upd (rdp_set_snd_una (u16 (ack_nr rx_header + 1))) ;;
  rdp_open_data packet.

(** What follows an unacceptable sequence number. *)
Definition rdp_open_seq_unacceptable (packet : csp_packet_t) : M unit :=
  r <- rdp_get ;;
  (if state_eqb (state r) RDP_SYN_RCVD
   then csp_rdp_send_cmp None true true false false (snd_iss r) (rcv_irs r) true ;; ret tt
   else ret tt) ;;
  r <- rdp_get ;;
  (if state_eqb (state r) RDP_OPEN
   then csp_rdp_send_eack ;; ret tt
   else ret tt) ;;
  discard_open packet.

Definition rdp_open (packet : csp_packet_t) : M unit :=
  let rx_header := csp_rdp_header_ref packet in
  if syn rx_header || negb (ack rx_header) then discard_close packet else
  r <- rdp_get ;;
  if seq_nr_unacceptable r rx_header
  then rdp_open_seq_unacceptable packet
  else rdp_open_ack packet.

Definition rdp_close_wait (packet : csp_packet_t) : M unit :=
  let rx_header := csp_rdp_header_ref packet in
  r <- rdp_get ;;
  if ack_nr_too_high r rx_header then discard_open packet else
  if ack_nr_too_low r rx_header then discard_open packet else
  rdp_upd (rdp_set_snd_una (u16 (ack_nr rx_header + 1))) ;;
  r <- rdp_get ;;
  csp_rdp_send_cmp None true false true false (snd_nxt r) (rcv_cur r) false ;;
  discard_open packet.

(** The header of an inbound packet, converted to host byte order in
    place. *)
Definition rx_host_order (packet : csp_packet_t) : csp_packet_t :=
  set_header (set_seq_nr (ntohs (seq_nr (header packet)))
               (set_ack_nr (ntohs (ack_nr (header packet))) (header packet)))
             packet.

Definition csp_rdp_new_packet (packet : csp_packet_t) : M unit :=
  ok <- csp_rdp_wait ;;
  if negb ok then csp_buffer_free packet else
  let packet := rx_host_order packet in
  let rx_header := csp_rdp_header_ref packet in
  r <- rdp_get ;;
  (if state_eqb (state r) RDP_CLOSED then
     rdp_upd (fun r =>
       rdp_set_state RDP_LISTEN
      (rdp_set_snd_una 2000
      (rdp_set_snd_nxt (2000 + 1)
      (rdp_set_snd_iss 2000 r))))
   else ret tt) ;;
  if rst rx_header then rdp_reset_received packet else
  r <- rdp_get ;;
  match state r with
  | RDP_LISTEN => rdp_listen packet
  | RDP_SYN_SENT => rdp_syn_sent packet
  | RDP_SYN_RCVD | RDP_OPEN => rdp_open packet
  | RDP_CLOSE_WAIT => rdp_close_wait packet
  | RDP_CLOSED => discard_close packet
  end.

(** ** Sending *)

(** [csp_bin_sem_wait (&conn->rdp.tx_wait, 0)]: takes the signal if there is
    one and returns at once. *)
Definition tx_wait_poll : M unit := rdp_upd (rdp_set_tx_wait false).

(** [csp_bin_sem_wait (&conn->rdp.tx_wait, timeout)]: the caller sleeps
    without the lock while the other tasks run ([others]); it has the
    signal if one of them posted it. *)
Definition tx_wait_sleep (others : machine -> machine) : M bool :=
  fun m => let m' := others m in
           if tx_wait (rdp (conn m'))
           then Some (true, set_conn (set_rdp (rdp_set_tx_wait false (rdp (conn m'))) (conn m')) m')
           else Some (false, m').

(** Returns the result and the caller's packet, to which the header is
    added in place. *)
Definition csp_rdp_send (others : machine -> machine) (packet : csp_packet_t)
    (timeout : Z) : M (Z * csp_packet_t) :=
  ok <- csp_rdp_wait ;;
  if negb ok then ret (0, packet) else
  r <- rdp_get ;;
  if negb (state_eqb (state r) RDP_OPEN) then
    csp_rdp_release ;;
    ret (0, packet)
  else
  go <- (if u32 (snd_nxt r - snd_una r + 1) >=? window_size r then
           csp_rdp_release ;;
           tx_wait_poll ;;
           woken <- tx_wait_sleep others ;;
           if negb woken then ret false else csp_rdp_wait
         else ret true) ;;
  if negb go then ret (0, packet) else
  r <- rdp_get ;;
  let packet :=
    let p := csp_rdp_header_add packet in
    set_header {| syn := false; ack := true; eak := false; rst := false; res := 0;
                  seq_nr := htons (snd_nxt r); ack_nr := htons (rcv_cur r) |} p in
  rdp_upd (rdp_set_snd_nxt (u16 (snd_nxt r + 1))) ;;
  b <- csp_buffer_get (length packet + 10) ;;
  match b with
  | None => ret (0, packet)
  | Some b =>
      now <- csp_get_ms ;;
      let rdp_packet := set_timestamp now (copy_packet b packet) in
      res <- tx_queue_enqueue rdp_packet ;;
      if negb (res =? CSP_QUEUE_OK) then
        csp_buffer_free rdp_packet ;;
        csp_rdp_release ;;
        ret (0, packet)
      else
        csp_rdp_release ;;
        ret (1, packet)
  end.

(** ** The connection options *)

(** [htonl] on a little-endian host. *)
Definition htonl (x : Z) : Z := ntohl x.

(** [p->data32[i] = v], through the 16-bit view of the same bytes. *)
Definition data32_put (i : nat) (v : Z) (l : list Z) : list Z :=
  data16_put (2 * i + 1) ((v / 65536) mod 65536) (data16_put (2 * i) (v mod 65536) l).

(** The six file-scope variables that hold the options of new outgoing
    connections. *)
Record rdp_options := {
  csp_rdp_window_size : Z;
  csp_rdp_conn_timeout : Z;
  csp_rdp_packet_timeout : Z;
  csp_rdp_delayed_acks : Z;
  csp_rdp_ack_timeout : Z;
  csp_rdp_ack_delay_count : Z
}.

(** Their initial values. *)
Definition initial_options : rdp_options :=
  {| csp_rdp_window_size := 10;
     csp_rdp_conn_timeout := 10000;
     csp_rdp_packet_timeout := 1000;
     csp_rdp_delayed_acks := 1;
     csp_rdp_ack_timeout := 1000 / 2;
     csp_rdp_ack_delay_count := 10 / 2 |}.

(** [csp_rdp_set_opt] overwrites all six. *)
Definition csp_rdp_set_opt (window_size conn_timeout_ms packet_timeout_ms delayed_acks
    ack_timeout ack_delay_count : Z) (_ : rdp_options) : rdp_options :=
  {| csp_rdp_window_size := window_size;
     csp_rdp_conn_timeout := conn_timeout_ms;
     csp_rdp_packet_timeout := packet_timeout_ms;
     csp_rdp_delayed_acks := delayed_acks;
     csp_rdp_ack_timeout := ack_timeout;
     csp_rdp_ack_delay_count := ack_delay_count |}.

(** ** The SYN packet *)

Definition csp_rdp_send_syn (o : rdp_options) : M Z :=
  b <- csp_buffer_get 100 ;;
  match b with
  | None => ret 0
  | Some packet =>
      let packet :=
        set_length 24
          (set_data16
             (data32_put 5 (htonl (csp_rdp_ack_delay_count o))
             (data32_put 4 (htonl (csp_rdp_ack_timeout o))
             (data32_put 3 (htonl (csp_rdp_delayed_acks o))
             (data32_put 2 (htonl (csp_rdp_packet_timeout o))
             (data32_put 1 (htonl (csp_rdp_conn_timeout o))
             (data32_put 0 (htonl (csp_rdp_window_size o)) (data16 packet)))))))
             packet) in
      r <- rdp_get ;;
      csp_rdp_send_cmp (Some packet) false true false false (snd_iss r) 0 true
  end.

(** ** Emptying both queues *)

Fixpoint flush_all_tx (count : nat) : M unit :=
  match count with
  | O => ret tt
  | S count' =>
      d <- tx_queue_dequeue ;;
      match d with
      | None => ret tt
      | Some packet => csp_buffer_free packet ;; flush_all_tx count'
      end
  end.

Fixpoint flush_all_rx (count : nat) : M unit :=
  match count with
  | O => ret tt
  | S count' =>
      d <- rx_queue_dequeue ;;
      match d with
      | None => ret tt
      | Some packet => csp_buffer_free packet ;; flush_all_rx count'
      end
  end.

Definition csp_rdp_flush_all : M unit :=
  r <- rdp_get ;;
  flush_all_tx (List.length (items (tx_queue r))) ;;
  r <- rdp_get ;;
  flush_all_rx (List.length (items (rx_queue r))).

(** ** The active open *)

(** The label [error] of [csp_rdp_connect_active]. *)
Definition connect_error : M Z :=
  rdp_upd (rdp_set_state RDP_CLOSE_WAIT) ;;
  csp_rdp_release ;;
  ret 0.

(** One pass from the label [retry]: [others] is what the other tasks do
    while the caller sleeps on [tx_wait], [half_open] what follows when
    the caller is woken in SYN_SENT. *)
Definition connect_try (o : rdp_options) (others : machine -> machine)
    (half_open : M Z) : M Z :=
  r <- rdp_get ;;
  if state_eqb (state r) RDP_OPEN then
    csp_rdp_release ;;
    ret 0
  else
  rdp_upd (fun r => rdp_set_snd_una 1000
                      (rdp_set_snd_nxt (1000 + 1) (rdp_set_snd_iss 1000 r))) ;;
  rdp_upd (rdp_set_state RDP_SYN_SENT) ;;
  sent <- csp_rdp_send_syn o ;;
  if sent =? 0 then connect_error else
  csp_rdp_release ;;
  tx_wait_poll ;;
  result <- tx_wait_sleep others ;;
  ok <- csp_rdp_wait ;;
  if negb ok then ret 0 else
  if result then
    r <- rdp_get ;;
    if state_eqb (state r) RDP_OPEN then
      csp_rdp_release ;;
      ret 1
    else if state_eqb (state r) RDP_SYN_SENT then half_open
    else connect_error
  else connect_error.

(** [retry] starts at 1: a caller woken in SYN_SENT flushes the queues
    and tries once more ([others1], [others2]: the other tasks during the
    first and the second sleep). *)
Definition csp_rdp_connect_active (o : rdp_options) (others1 others2 : machine -> machine)
    (timeout : Z) : M Z :=
  ok <- csp_rdp_wait ;;
  if negb ok then ret 0 else
  now <- csp_get_ms ;;
  rdp_upd (fun r =>
    rdp_set_ack_timestamp now
   (rdp_set_ack_delay_count (csp_rdp_ack_delay_count o)
   (rdp_set_ack_timeout (csp_rdp_ack_timeout o)
   (rdp_set_delayed_acks (csp_rdp_delayed_acks o)
   (rdp_set_packet_timeout (csp_rdp_packet_timeout o)
   (rdp_set_conn_timeout (csp_rdp_conn_timeout o)
   (rdp_set_window_size (csp_rdp_window_size o) r))))))) ;;
  connect_try o others1
    (csp_rdp_flush_all ;; connect_try o others2 connect_error).

(** ** Vocabulary of the properties *)

(** [rkeeps g c]: whenever [c] returns, the observation [g] of [conn->rdp]
    is what it was. *)
Definition rkeeps {X A} (g : csp_rdp_t -> X) (c : M A) : Prop :=
  forall m a m', c m = Some (a, m') -> g (rdp (conn m')) = g (rdp (conn m)).

(** A computation that does not write [conn->rdp] keeps every observation
    of it. *)
Definition rdp_untouched {A} (c : M A) : Prop :=
  forall m a m', c m = Some (a, m') -> rdp (conn m') = rdp (conn m).

(** The two send-side sequence variables. *)
Definition snd_vars (r : csp_rdp_t) : Z * Z := (snd_nxt r, snd_una r).

(** The fields of [conn->rdp] hold values of their C types. *)
Definition rdp_in_range (r : csp_rdp_t) : Prop :=
  0 <= snd_nxt r < 65536 /\ 0 <= snd_una r < 65536 /\
  0 <= snd_iss r < 65536 /\ 0 <= rcv_cur r < 65536 /\
  0 <= rcv_irs r < 65536 /\ 0 <= rcv_lsa r < 65536 /\
  0 <= window_size r < 4294967296 /\ 0 <= packet_timeout r < 4294967296.

(** [p] with the RDP header that [csp_rdp_send_cmp] appends. *)
Definition rdp_framed (p : csp_packet_t) (ack syn rst eak : bool) (seq_nr ack_nr : Z)
    : csp_packet_t :=
  set_header {| syn := syn; ack := ack; eak := eak; rst := rst; res := 0;
                seq_nr := htons (u16 seq_nr); ack_nr := htons (u16 ack_nr) |}
             (csp_rdp_header_add p).

(** A control message built in a fresh buffer. *)
Definition control_packet (ack syn rst eak : bool) (seq_nr ack_nr : Z) : csp_packet_t :=
  rdp_framed (set_length 0 blank_packet) ack syn rst eak seq_nr ack_nr.

(** The delayed-acknowledgement bookkeeping at the end of
    [csp_rdp_send_cmp]. *)
Definition ack_noted (ack : bool) (ack_nr : Z) (m : machine) : machine :=
  if delay_acks m && ack
  then set_conn (set_rdp (rdp_set_ack_timestamp (clock m)
                            (rdp_set_rcv_lsa (u16 ack_nr) (rdp (conn m)))) (conn m)) m
  else m.

(** A connection with the default options in state [st], everything sent
    so far acknowledged, and the machine around it. *)
Definition sample_rdp (st : csp_rdp_states) : csp_rdp_t :=
  {| state := st; snd_nxt := 1010; snd_una := 1010; snd_iss := 1000;
     rcv_cur := 2010; rcv_irs := 2000; rcv_lsa := 2010;
     window_size := 10; conn_timeout := 10000; packet_timeout := 1000;
     delayed_acks := 1; ack_timeout := 500; ack_delay_count := 5;
     ack_timestamp := 0; tx_wait := false;
     tx_queue := {| items := []; capacity := 10 |};
     rx_queue := {| items := []; capacity := 20 |} |}.

Definition sample_machine (st : csp_rdp_states) : machine :=
  {| conn := {| rdp := sample_rdp st; rx_socket := Sock_passed;
                conn_rx_queue := {| items := []; capacity := 10 |};
                open_timestamp := 0 |};
     rdp_lock := false; pool := 8; clock := 5000; if_up := true;
     delay_acks := true; trace := [] |}.

(** A packet as it arrives from the network: numbers in network byte
    order, [words] the payload. *)
Definition wire_packet (syn ack eak rst : bool) (seq_nr ack_nr : Z) (words : list Z)
    : csp_packet_t :=
  {| timestamp := 0;
     length := 2 * Z.of_nat (List.length words) + sizeof_rdp_header_t;
     data16 := map htons words;
     header := {| syn := syn; ack := ack; eak := eak; rst := rst; res := 0;
                  seq_nr := htons seq_nr; ack_nr := htons ack_nr |} |}.

(** The passive-open initialisation that [csp_rdp_new_packet] applies to a
    CLOSED connection before it looks at the packet. *)
Definition listen_init (r : csp_rdp_t) : csp_rdp_t :=
  if state_eqb (state r) RDP_CLOSED
  then rdp_set_state RDP_LISTEN
         (rdp_set_snd_una 2000 (rdp_set_snd_nxt (2000 + 1) (rdp_set_snd_iss 2000 r)))
  else r.

(** The entry pushed on the application receive queue at the label
    [discard_close]. *)
Definition close_notified (c : csp_conn_t) : csp_conn_t :=
  match rx_socket c with
  | Sock_passed => set_conn_rx_queue (fst (csp_queue_enqueue (conn_rx_queue c) None)) c
  | _ => c
  end.

(** The buffer in which [csp_rdp_send_eack] has listed the sequence
    numbers [acc]. *)
Definition eack_buffer (acc : list Z) : csp_packet_t :=
  {| timestamp := 0; length := 2 * Z.of_nat (List.length acc); data16 := acc;
     header := zero_header |}.

(** The sequence numbers of the segments in the reassembly queue, as the
    payload of an EACK. *)
Definition eack_words (items : list csp_packet_t) : list Z :=
  map (fun p => htons (seq_nr (header p))) items.

(** [m] with the entries [l] on the reassembly queue, and on the
    retransmission queue. *)
Definition with_rx_items (l : list csp_packet_t) (m : machine) : machine :=
  set_conn (set_rdp (rdp_set_rx_queue
                       {| items := l; capacity := capacity (rx_queue (rdp (conn m))) |}
                       (rdp (conn m))) (conn m)) m.

Definition with_tx_items (l : list csp_packet_t) (m : machine) : machine :=
  set_conn (set_rdp (rdp_set_tx_queue
                       {| items := l; capacity := capacity (tx_queue (rdp (conn m))) |}
                       (rdp (conn m))) (conn m)) m.

(** The EACK: the header over the list of sequence numbers held. *)
Definition eack_packet (r : csp_rdp_t) : csp_packet_t :=
  rdp_framed (eack_buffer (eack_words (items (rx_queue r))))
             true false false true (snd_nxt r) (rcv_cur r).

(** [una_step a m m']: from [m] to [m'] [snd_nxt] is kept and [snd_una]
    is kept or set to [a + 1]. *)
Definition una_step (a : Z) (m m' : machine) : Prop :=
  snd_nxt (rdp (conn m')) = snd_nxt (rdp (conn m)) /\
  (snd_una (rdp (conn m')) = snd_una (rdp (conn m)) \/
   snd_una (rdp (conn m')) = u16 (a + 1)).

(** What the sweep does with one entry [e] of the retransmission queue,
    for the connection's [snd_una], [packet_timeout] and [rcv_cur] at time
    [now]: the entries put back on the queue, and the events. *)
Definition sweep_acked (una : Z) (e : csp_packet_t) : bool :=
  ntohs (seq_nr (header e)) <? una.

Definition sweep_timed_out (timeout now : Z) (e : csp_packet_t) : bool :=
  u32 (timestamp e + timeout) <? now.

Definition sweep_resent (cur now : Z) (e : csp_packet_t) : csp_packet_t :=
  set_timestamp now (set_header (set_ack_nr (htons cur) (header e)) e).

Definition sweep_keep (una timeout cur now : Z) (e : csp_packet_t) : list csp_packet_t :=
  if sweep_acked una e then []
  else if sweep_timed_out timeout now e then [sweep_resent cur now e]
  else [e].

Definition sweep_events (una timeout cur now : Z) (e : csp_packet_t) : list event :=
  if sweep_acked una e then [Freed e]
  else if sweep_timed_out timeout now e
       then [Sent (copy_packet blank_packet (sweep_resent cur now e))]
  else [].

(** The sequence numbers that an EACK lists, in host byte order. *)
Definition eack_seq_nrs (eack_packet : csp_packet_t) : list Z :=
  map (fun j => ntohs (data16_get eack_packet j)) (seq 0 (eack_count eack_packet)).

(** An entry of the retransmission queue is listed by the EACK; some
    listed number is greater than its own. *)
Definition eack_lists (acked : list Z) (e : csp_packet_t) : bool :=
  existsb (fun w => w =? ntohs (seq_nr (header e))) acked.

Definition eack_passes (acked : list Z) (e : csp_packet_t) : bool :=
  existsb (fun w => w >? ntohs (seq_nr (header e))) acked.

Definition eack_forced (acked : list Z) (stamp : Z) (e : csp_packet_t) : csp_packet_t :=
  if eack_passes acked e then set_timestamp stamp e else e.

Definition eack_keep (acked : list Z) (stamp : Z) (e : csp_packet_t) : list csp_packet_t :=
  if eack_lists acked e then [] else [eack_forced acked stamp e].

Definition eack_events (acked : list Z) (stamp : Z) (e : csp_packet_t) : list event :=
  if eack_lists acked e then [Freed (eack_forced acked stamp e)] else [].

(** The size of the reassembly queue. *)
Definition rx_len (m : machine) : nat := List.length (items (rx_queue (rdp (conn m)))).

(** Modelled from the spec: the application takes the oldest entry off
    the application receive queue ([csp_read], which is not among the
    sources). *)
Definition app_read (m : machine) : machine :=
  match csp_queue_dequeue (conn_rx_queue (conn m)) with
  | None => m
  | Some (_, q) => set_conn (set_conn_rx_queue q (conn m)) m
  end.

(** The sequence numbers of the segments waiting on the application
    receive queue. *)
Definition delivered (m : machine) : list (option Z) :=
  map (option_map (fun p => seq_nr (header p))) (items (conn_rx_queue (conn m))).

(** A data segment of one payload word, acknowledging 1009. *)
Definition segment (seq_nr : Z) : csp_packet_t :=
  wire_packet false true false false seq_nr 1009 [7].

(** An OPEN connection whose application receive queue has one slot. *)
Definition slow_reader : machine :=
  set_conn (set_conn_rx_queue {| items := []; capacity := 1 |}
              (conn (sample_machine RDP_OPEN)))
           (sample_machine RDP_OPEN).

(** The packet of an application, before [csp_rdp_send] adds the header. *)
Definition user_packet : csp_packet_t :=
  {| timestamp := 0; length := 2; data16 := [htons 7]; header := zero_header |}.

(** An OPEN connection whose retransmission queue is full. *)
Definition full_tx_queue : machine :=
  set_conn (set_rdp (rdp_set_tx_queue
                       {| items := [rdp_framed user_packet true false false false 1009 2010];
                          capacity := 1 |}
                       (sample_rdp RDP_OPEN))
                    (conn (sample_machine RDP_OPEN)))
           (sample_machine RDP_OPEN).

(** An OPEN connection on which everything up to 1014 was acknowledged. *)
Definition caught_up : machine :=
  set_conn (set_rdp (rdp_set_snd_una 1015 (rdp_set_snd_nxt 1015 (sample_rdp RDP_OPEN)))
                    (conn (sample_machine RDP_OPEN)))
           (sample_machine RDP_OPEN).

(** An OPEN connection with a full send window (segments 1001 to 1010 in
    flight), of which the peer has selectively acknowledged all but the
    first. *)
Definition window_full : machine :=
  set_conn (set_rdp (rdp_set_tx_queue
                       {| items := [set_timestamp 4900
                                      (rdp_framed user_packet true false false false 1001 2010)];
                          capacity := 10 |}
                       (rdp_set_snd_una 1001 (rdp_set_snd_nxt 1011 (sample_rdp RDP_OPEN))))
                    (conn (sample_machine RDP_OPEN)))
           (sample_machine RDP_OPEN).

(** The timeout engine, run by the router task while a sender sleeps. *)
Definition tick (m : machine) : machine :=
  match csp_rdp_check_timeouts m with
  | Some (_, m') => m'
  | None => m
  end.

(** An OPEN connection with one unacknowledged segment that was sent
    exactly [packet_timeout] ago. *)
Definition aged_entry : csp_packet_t :=
  set_timestamp 4000 (rdp_framed user_packet true false false false 1010 2010).

Definition aged_machine : machine :=
  set_conn (set_rdp (rdp_set_tx_queue {| items := [aged_entry]; capacity := 10 |}
                       (rdp_set_snd_nxt 1011 (sample_rdp RDP_OPEN)))
                    (conn (sample_machine RDP_OPEN)))
           (sample_machine RDP_OPEN).

(** The same connection fifteen seconds later: accepted long ago and
    older than its [conn_timeout]. *)
Definition old_machine : machine :=
  {| conn := conn aged_machine; rdp_lock := false; pool := 8; clock := 20000;
     if_up := true; delay_acks := true; trace := [] |}.

(** A connection in CLOSE_WAIT whose [snd_una] is not above
    [2 * window_size]. *)
Definition low_close_wait : machine :=
  set_conn (set_rdp (rdp_set_snd_una 5 (rdp_set_snd_nxt 10 (sample_rdp RDP_CLOSE_WAIT)))
                    (conn (sample_machine RDP_CLOSE_WAIT)))
           (sample_machine RDP_CLOSE_WAIT).


(** An OPEN connection about to use the last sequence number. *)
Definition last_seq_nr : machine :=
  set_conn (set_rdp (rdp_set_snd_una 65530 (rdp_set_snd_nxt 65535 (sample_rdp RDP_OPEN)))
                    (conn (sample_machine RDP_OPEN)))
           (sample_machine RDP_OPEN).

(** A connection as [csp_rdp_allocate] leaves it, waiting on a socket. *)
Definition fresh_machine : machine :=
  {| conn := {| rdp := {| state := RDP_CLOSED; snd_nxt := 0; snd_una := 0; snd_iss := 0;
                          rcv_cur := 0; rcv_irs := 0; rcv_lsa := 0;
                          window_size := 0; conn_timeout := 0; packet_timeout := 0;
                          delayed_acks := 0; ack_timeout := 0; ack_delay_count := 0;
                          ack_timestamp := 0; tx_wait := false;
                          tx_queue := {| items := []; capacity := 10 |};
                          rx_queue := {| items := []; capacity := 20 |} |};
                rx_socket := Sock_listening 0 5;
                conn_rx_queue := {| items := []; capacity := 10 |};
                open_timestamp := 5000 |};
     rdp_lock := false; pool := 8; clock := 5000; if_up := true;
     delay_acks := true; trace := [] |}.

(** An OPEN connection with three unacknowledged segments, and the EACK
    of a peer that holds the second. *)
Definition unacked_machine : machine :=
  set_conn (set_rdp (rdp_set_tx_queue
                       {| items := [set_timestamp 4100 (rdp_framed user_packet true false false false 1010 2010);
                                    set_timestamp 4150 (rdp_framed user_packet true false false false 1011 2010);
                                    set_timestamp 4200 (rdp_framed user_packet true false false false 1012 2010)];
                          capacity := 10 |}
                       (rdp_set_snd_nxt 1013 (sample_rdp RDP_OPEN)))
                    (conn (sample_machine RDP_OPEN)))
           (sample_machine RDP_OPEN).


(** The sequence number of a held segment (host byte order). *)
Definition seq_of (p : csp_packet_t) : Z := seq_nr (header p).

(** [n] consecutive sequence numbers from [s]. *)
Fixpoint run_from (s : Z) (n : nat) : list Z :=
  match n with
  | O => []
  | S n' => s :: run_from (s + 1) n'
  end.

(** What the application finds on its queue for a segment. *)
Definition stripped (p : csp_packet_t) : option csp_packet_t :=
  Some (csp_rdp_header_remove p).

(** An OPEN connection whose reassembly queue holds the segments
    numbered [l]. *)
Definition holding (l : list Z) : machine :=
  with_rx_items (map (fun s => rx_host_order (segment s)) l) (sample_machine RDP_OPEN).

(** The buffers [l] given back to the pool, in order. *)
Definition all_freed (l : list csp_packet_t) (m : machine) : machine :=
  set_trace (trace m ++ map Freed l) (set_pool (pool m + List.length l) m).


(** The machine after an acknowledgement went out: only the delayed-ack
    bookkeeping, the pool and the trace differ. *)
Definition acked (lsa ts : Z) (tr : list event) (p : nat) (m : machine) : machine :=
  set_trace tr (set_pool p
    (set_conn (set_rdp (rdp_set_ack_timestamp ts (rdp_set_rcv_lsa lsa (rdp (conn m))))
                       (conn m)) m)).

(** What happens to a control message handed to the interface. *)
Definition handed_to_if (m : machine) (p : csp_packet_t) : event :=
  if if_up m then Sent p else Freed p.


(** The six negotiated parameters of a connection, and of the options. *)
Definition session_params (r : csp_rdp_t) : list Z :=
  [window_size r; conn_timeout r; packet_timeout r;
   delayed_acks r; ack_timeout r; ack_delay_count r].

Definition option_params (o : rdp_options) : list Z :=
  [csp_rdp_window_size o; csp_rdp_conn_timeout o; csp_rdp_packet_timeout o;
   csp_rdp_delayed_acks o; csp_rdp_ack_timeout o; csp_rdp_ack_delay_count o].

(** The payload of a SYN: the six parameters as 32-bit words in network
    byte order. *)
Definition syn_payload (o : rdp_options) : csp_packet_t :=
  set_length 24 (set_data16
    (flat_map (fun v => [htonl v mod 65536; (htonl v / 65536) mod 65536]) (option_params o))
    blank_packet).

(** The SYN of an active open with initial sequence number [iss]. *)
Definition syn_packet (o : rdp_options) (iss : Z) : csp_packet_t :=
  rdp_framed (syn_payload o) false true false false iss 0.

(** The sequence variables and parameters of a connection: everything but
    the queues and the delayed-acknowledgement bookkeeping. *)
Definition rdp_core (r : csp_rdp_t) : csp_rdp_states * list Z * list Z :=
  (state r, [snd_nxt r; snd_una r; snd_iss r; rcv_cur r; rcv_irs r], session_params r).

(** What a call leaves alone around the RDP block: the lock, the clock,
    the interface, the build option, the socket and the application receive
    queue. *)
Definition surroundings (m : machine)
    : bool * Z * bool * bool * csp_socket * csp_queue (option csp_packet_t) * Z :=
  (rdp_lock m, clock m, if_up m, delay_acks m,
   rx_socket (conn m), conn_rx_queue (conn m), open_timestamp (conn m)).

(** The packet that [csp_rdp_send_cmp] works on: the caller's, or an empty
    one from the pool. *)
Definition cmp_base (pk : option csp_packet_t) : csp_packet_t :=
  match pk with
  | Some p => p
  | None => set_length 0 blank_packet
  end.

Definition cmp_buffers (pk : option csp_packet_t) (n : nat) : nat :=
  match pk with
  | Some _ => S n
  | None => S (S n)
  end.

(** The router task hands [p] to [csp_rdp_new_packet] while the caller
    sleeps. *)
Definition delivers (p : csp_packet_t) (m : machine) : machine :=
  match csp_rdp_new_packet p m with
  | Some (_, m') => m'
  | None => m
  end.

(** The connection as [csp_rdp_connect_active] has set it up when it
    sends the SYN. *)
Definition connecting (o : rdp_options) (m : machine) : machine :=
  set_conn (set_rdp
    (rdp_set_state RDP_SYN_SENT
    (rdp_set_snd_una 1000 (rdp_set_snd_nxt (1000 + 1) (rdp_set_snd_iss 1000
    (rdp_set_ack_timestamp (clock m)
    (rdp_set_ack_delay_count (csp_rdp_ack_delay_count o)
    (rdp_set_ack_timeout (csp_rdp_ack_timeout o)
    (rdp_set_delayed_acks (csp_rdp_delayed_acks o)
    (rdp_set_packet_timeout (csp_rdp_packet_timeout o)
    (rdp_set_conn_timeout (csp_rdp_conn_timeout o)
    (rdp_set_window_size (csp_rdp_window_size o) (rdp (conn m)))))))))))))
    (conn m)) (set_rdp_lock true m).

(** The other tasks leave the connection, the lock and the trace alone. *)
Definition quiet (others : machine -> machine) : Prop :=
  forall x, conn (others x) = conn x /\ rdp_lock (others x) = rdp_lock x /\
            trace (others x) = trace x.

(** The state changes that [csp_rdp_new_packet] can make. *)
Definition may_follow (s s' : csp_rdp_states) : bool :=
  match s, s' with
  | RDP_CLOSED, (RDP_CLOSED | RDP_LISTEN | RDP_SYN_RCVD | RDP_CLOSE_WAIT) => true
  | RDP_LISTEN, (RDP_LISTEN | RDP_SYN_RCVD | RDP_CLOSE_WAIT) => true
  | RDP_SYN_SENT, (RDP_SYN_SENT | RDP_OPEN | RDP_CLOSE_WAIT) => true
  | RDP_SYN_RCVD, (RDP_SYN_RCVD | RDP_OPEN | RDP_CLOSE_WAIT) => true
  | RDP_OPEN, (RDP_OPEN | RDP_CLOSE_WAIT) => true
  | RDP_CLOSE_WAIT, (RDP_CLOSE_WAIT | RDP_CLOSED) => true
  | _, _ => false
  end.

(** A computation that ends with the RDP lock released. *)
Definition unlocks {A} (c : M A) : Prop :=
  forall m a m', c m = Some (a, m') -> rdp_lock m' = false.

(** A computation that returns from every machine, and one that returns
    whenever a buffer is free. *)
Definition total {A} (c : M A) : Prop :=
  forall m, exists a m', c m = Some (a, m').

Definition safe {A} (c : M A) : Prop :=
  forall m, (1 <= pool m)%nat -> exists a m', c m = Some (a, m').

(** A computation that takes no buffer from the pool. *)
Definition pool_kept {A} (c : M A) : Prop :=
  forall m a m', c m = Some (a, m') -> (pool m <= pool m')%nat.



(** The connection as a connection attempt has set it up when it sends
    the SYN. *)
Definition syn_ready (m : machine) : machine :=
  set_conn (set_rdp
    (rdp_set_state RDP_SYN_SENT
    (rdp_set_snd_una 1000 (rdp_set_snd_nxt (1000 + 1) (rdp_set_snd_iss 1000
    (rdp (conn m)))))) (conn m)) m.

(** The options after
    [csp_rdp_set_opt (5, 2000, 500, 1, 250, 2)]. *)
Definition sample_options : rdp_options :=
  csp_rdp_set_opt 5 2000 500 1 250 2 initial_options.


(** A connection in SYN_RCVD that was never accepted, long after its
    connection time-out. *)
Definition lost_machine : machine :=
  {| conn := {| rdp := sample_rdp RDP_SYN_RCVD; rx_socket := Sock_listening 0 5;
                conn_rx_queue := {| items := []; capacity := 10 |};
                open_timestamp := 0 |};
     rdp_lock := false; pool := 8; clock := 20000; if_up := true;
     delay_acks := true; trace := [] |}.

(** * Properties *)

Arguments u16 : simpl never.
Arguments u32 : simpl never.
Arguments htons : simpl never.
Arguments ntohs : simpl never.
Arguments ntohl : simpl never.
#[local] Arguments Z.mul : simpl never.
#[local] Arguments Z.add : simpl never.
#[local] Arguments Z.sub : simpl never.
#[local] Arguments Z.div : simpl never.
#[local] Arguments Z.modulo : simpl never.
#[local] Arguments Z.of_nat : simpl never.
#[local] Arguments Z.to_nat : simpl never.
#[local] Arguments Z.ltb : simpl never.
#[local] Arguments Z.leb : simpl never.
#[local] Arguments Z.gtb : simpl never.
#[local] Arguments Z.geb : simpl never.
#[local] Arguments Z.eqb : simpl never.
#[local] Arguments Nat.ltb : simpl never.

(** ** Integers *)

Lemma u16_small x : 0 <= x < 65536 -> u16 x = x.
Proof. intros H. unfold u16. apply Z.mod_small. exact H. Qed.

Lemma u32_small x : 0 <= x < 4294967296 -> u32 x = x.
Proof. intros H. unfold u32. apply Z.mod_small. exact H. Qed.

Lemma u32_range x : 0 <= u32 x < 4294967296.
Proof. unfold u32. apply Z.mod_pos_bound. lia. Qed.

Lemma u32_add_u32 a b : u32 (a + u32 b) = u32 (a + b).
Proof. unfold u32. apply Zplus_mod_idemp_r. Qed.

Lemma u32_sub_u32 a b : u32 (a - u32 b) = u32 (a - b).
Proof. unfold u32. apply Zminus_mod_idemp_r. Qed.

Lemma htons_range x : 0 <= htons x < 65536.
Proof.
  unfold htons.
  pose proof (Z.mod_pos_bound x 256 ltac:(lia)).
  pose proof (Z.mod_pos_bound (x / 256) 256 ltac:(lia)).
  lia.
Qed.

Lemma ntohs_range x : 0 <= ntohs x < 65536.
Proof. apply htons_range. Qed.

Lemma ntohs_htons x : 0 <= x < 65536 -> ntohs (htons x) = x.
Proof.
  intros Hx. unfold ntohs, htons.
  assert (H1 : 0 <= x mod 256 < 256) by (apply Z.mod_pos_bound; lia).
  assert (H2 : 0 <= x / 256 < 256)
    by (split; [apply Z.div_pos; lia | apply Z.div_lt_upper_bound; lia]).
  rewrite (Z.mod_small (x / 256) 256) by lia.
  replace ((x mod 256 * 256 + x / 256) mod 256) with (x / 256).
  2:{ rewrite Z.add_comm, Z.mod_add by lia. rewrite Z.mod_small; lia. }
  replace ((x mod 256 * 256 + x / 256) / 256) with (x mod 256).
  2:{ rewrite Z.add_comm, Z.div_add by lia.
      rewrite (Z.div_small (x / 256) 256) by lia. lia. }
  rewrite (Z.mod_small (x mod 256) 256) by lia.
  pose proof (Z.div_mod x 256 ltac:(lia)). lia.
Qed.

(** ** What a computation leaves alone *)

Lemma rkeeps_ret {X A} (g : csp_rdp_t -> X) (a : A) : rkeeps g (ret a).
Proof. intros m a' m' H. inversion H. reflexivity. Qed.

Lemma rkeeps_fault {X A} (g : csp_rdp_t -> X) : rkeeps g (@fault A).
Proof. intros m a m' H. discriminate H. Qed.

Lemma rkeeps_bind {X A B} (g : csp_rdp_t -> X) (c : M A) (k : A -> M B) :
  rkeeps g c -> (forall a, rkeeps g (k a)) -> rkeeps g (bind c k).
Proof.
  intros Hc Hk m b m' H. unfold bind in H.
  destruct (c m) as [[a m1]|] eqn:E; [|discriminate].
  rewrite (Hk a _ _ _ H). exact (Hc _ _ _ E).
Qed.

Lemma rkeeps_rdp_upd {X} (g : csp_rdp_t -> X) (s : csp_rdp_t -> csp_rdp_t) :
  (forall r, g (s r) = g r) -> rkeeps g (rdp_upd s).
Proof. intros Hs m a m' H. inversion H. cbn. apply Hs. Qed.

Lemma rkeeps_untouched {X A} (g : csp_rdp_t -> X) (c : M A) :
  rdp_untouched c -> rkeeps g c.
Proof. intros Hc m a m' H. rewrite (Hc _ _ _ H). reflexivity. Qed.

Lemma untouched_rdp_get : rdp_untouched rdp_get.
Proof. intros m a m' H. inversion H. reflexivity. Qed.
Lemma untouched_conn_get : rdp_untouched conn_get.
Proof. intros m a m' H. inversion H. reflexivity. Qed.
Lemma untouched_csp_get_ms : rdp_untouched csp_get_ms.
Proof. intros m a m' H. inversion H. reflexivity. Qed.
Lemma untouched_cfg_delay_acks : rdp_untouched cfg_delay_acks.
Proof. intros m a m' H. inversion H. reflexivity. Qed.
Lemma untouched_emit e : rdp_untouched (emit e).
Proof. intros m a m' H. inversion H. reflexivity. Qed.
Lemma untouched_csp_buffer_get n : rdp_untouched (csp_buffer_get n).
Proof.
  intros m a m' H. unfold csp_buffer_get in H.
  destruct (pool m); inversion H; reflexivity.
Qed.
Lemma untouched_csp_buffer_free p : rdp_untouched (csp_buffer_free p).
Proof. intros m a m' H. inversion H. reflexivity. Qed.
Lemma untouched_csp_send_direct p : rdp_untouched (csp_send_direct p).
Proof.
  intros m a m' H. unfold csp_send_direct in H.
  destruct (if_up m); inversion H; reflexivity.
Qed.
Lemma untouched_csp_rdp_wait : rdp_untouched csp_rdp_wait.
Proof.
  intros m a m' H. unfold csp_rdp_wait in H.
  destruct (rdp_lock m); inversion H; reflexivity.
Qed.
Lemma untouched_csp_rdp_release : rdp_untouched csp_rdp_release.
Proof. intros m a m' H. inversion H. reflexivity. Qed.
Lemma untouched_set_rx_socket s : rdp_untouched (conn_upd (set_rx_socket s)).
Proof. intros m a m' H. inversion H. reflexivity. Qed.
Lemma untouched_set_conn_rx_queue q : rdp_untouched (conn_upd (set_conn_rx_queue q)).
Proof. intros m a m' H. inversion H. reflexivity. Qed.

Create HintDb rkeeps.
#[local] Hint Resolve untouched_rdp_get untouched_conn_get untouched_csp_get_ms
  untouched_cfg_delay_acks untouched_emit untouched_csp_buffer_get
  untouched_csp_buffer_free untouched_csp_send_direct untouched_csp_rdp_wait
  untouched_csp_rdp_release untouched_set_rx_socket untouched_set_conn_rx_queue
  : rkeeps.
#[local] Hint Resolve rkeeps_ret rkeeps_fault rkeeps_untouched : rkeeps.

(** Takes a goal [rkeeps g c] apart along the structure of [c]. *)
Ltac rkeeps_step :=
  lazymatch goal with
  | |- rkeeps _ (bind _ _) => apply rkeeps_bind; [ | intros ? ]
  | |- rkeeps _ (rdp_upd _) =>
      apply rkeeps_rdp_upd; intros;
      repeat match goal with |- context [if ?b then _ else _] => destruct b end;
      reflexivity
  | |- rkeeps _ (if ?b then _ else _) => destruct b
  | |- rkeeps _ (match ?x with _ => _ end) => destruct x
  end.
Ltac rkeeps_auto := repeat rkeeps_step; auto with rkeeps.

Lemma keeps_tx_queue_enqueue p : rkeeps snd_vars (tx_queue_enqueue p).
Proof. unfold tx_queue_enqueue. rkeeps_auto. Qed.
Lemma keeps_tx_queue_dequeue : rkeeps snd_vars tx_queue_dequeue.
Proof. unfold tx_queue_dequeue. rkeeps_auto. Qed.
Lemma keeps_rx_queue_enqueue p : rkeeps snd_vars (rx_queue_enqueue p).
Proof. unfold rx_queue_enqueue. rkeeps_auto. Qed.
Lemma keeps_rx_queue_dequeue : rkeeps snd_vars rx_queue_dequeue.
Proof. unfold rx_queue_dequeue. rkeeps_auto. Qed.
Lemma keeps_conn_rx_enqueue x : rkeeps snd_vars (conn_rx_enqueue x).
Proof. unfold conn_rx_enqueue. rkeeps_auto. Qed.
Lemma keeps_tx_wait_post : rkeeps snd_vars tx_wait_post.
Proof. unfold tx_wait_post. rkeeps_auto. Qed.
#[local] Hint Resolve keeps_tx_queue_enqueue keeps_tx_queue_dequeue
  keeps_rx_queue_enqueue keeps_rx_queue_dequeue keeps_conn_rx_enqueue
  keeps_tx_wait_post : rkeeps.

Lemma keeps_csp_rdp_send_cmp p a s r e sq ak c :
  rkeeps snd_vars (csp_rdp_send_cmp p a s r e sq ak c).
Proof. unfold csp_rdp_send_cmp. rkeeps_auto. Qed.
#[local] Hint Resolve keeps_csp_rdp_send_cmp : rkeeps.

Lemma keeps_send_eack_loop n : forall p, rkeeps snd_vars (send_eack_loop n p).
Proof. induction n; intros p; cbn [send_eack_loop]; rkeeps_auto. Qed.
#[local] Hint Resolve keeps_send_eack_loop : rkeeps.

Lemma keeps_csp_rdp_send_eack : rkeeps snd_vars csp_rdp_send_eack.
Proof. unfold csp_rdp_send_eack. rkeeps_auto. Qed.
#[local] Hint Resolve keeps_csp_rdp_send_eack : rkeeps.

Lemma keeps_csp_rdp_receive_data p : rkeeps snd_vars (csp_rdp_receive_data p).
Proof. unfold csp_rdp_receive_data. rkeeps_auto. Qed.
#[local] Hint Resolve keeps_csp_rdp_receive_data : rkeeps.

Lemma keeps_rx_queue_flush_pass n : rkeeps snd_vars (rx_queue_flush_pass n).
Proof. induction n; cbn [rx_queue_flush_pass]; rkeeps_auto. Qed.
#[local] Hint Resolve keeps_rx_queue_flush_pass : rkeeps.

Lemma keeps_rx_queue_flush_from n : rkeeps snd_vars (rx_queue_flush_from n).
Proof. induction n; cbn [rx_queue_flush_from]; rkeeps_auto. Qed.
#[local] Hint Resolve keeps_rx_queue_flush_from : rkeeps.

Lemma keeps_csp_rdp_rx_queue_flush : rkeeps snd_vars csp_rdp_rx_queue_flush.
Proof. unfold csp_rdp_rx_queue_flush. rkeeps_auto. Qed.
#[local] Hint Resolve keeps_csp_rdp_rx_queue_flush : rkeeps.

Lemma keeps_rx_queue_exists_loop n s : rkeeps snd_vars (rx_queue_exists_loop n s).
Proof. induction n; cbn [rx_queue_exists_loop]; rkeeps_auto. Qed.
#[local] Hint Resolve keeps_rx_queue_exists_loop : rkeeps.

Lemma keeps_csp_rdp_rx_queue_add p s : rkeeps snd_vars (csp_rdp_rx_queue_add p s).
Proof. unfold csp_rdp_rx_queue_add, csp_rdp_rx_queue_exists. rkeeps_auto. Qed.
#[local] Hint Resolve keeps_csp_rdp_rx_queue_add : rkeeps.

Lemma keeps_flush_eack_loop n p : rkeeps snd_vars (flush_eack_loop n p).
Proof. induction n; cbn [flush_eack_loop]; rkeeps_auto. Qed.
#[local] Hint Resolve keeps_flush_eack_loop : rkeeps.

Lemma keeps_csp_rdp_flush_eack p : rkeeps snd_vars (csp_rdp_flush_eack p).
Proof. unfold csp_rdp_flush_eack. rkeeps_auto. Qed.
#[local] Hint Resolve keeps_csp_rdp_flush_eack : rkeeps.

Lemma keeps_csp_close : rkeeps snd_vars csp_close.
Proof. unfold csp_close, csp_rdp_close. rkeeps_auto. Qed.
#[local] Hint Resolve keeps_csp_close : rkeeps.

Lemma keeps_tx_queue_sweep n t : rkeeps snd_vars (tx_queue_sweep n t).
Proof. induction n; cbn [tx_queue_sweep]; rkeeps_auto. Qed.
#[local] Hint Resolve keeps_tx_queue_sweep : rkeeps.

Lemma keeps_csp_rdp_check_timeouts : rkeeps snd_vars csp_rdp_check_timeouts.
Proof. unfold csp_rdp_check_timeouts. rkeeps_auto. Qed.

Lemma keeps_discard_open p : rkeeps snd_vars (discard_open p).
Proof. unfold discard_open, accepted_open. rkeeps_auto. Qed.
#[local] Hint Resolve keeps_discard_open : rkeeps.

Lemma keeps_discard_close p : rkeeps snd_vars (discard_close p).
Proof. unfold discard_close. rkeeps_auto. Qed.
#[local] Hint Resolve keeps_discard_close : rkeeps.

Lemma keeps_rdp_open_data p : rkeeps snd_vars (rdp_open_data p).
Proof. unfold rdp_open_data, accepted_open. rkeeps_auto. Qed.
#[local] Hint Resolve keeps_rdp_open_data : rkeeps.

Lemma keeps_rdp_open_seq_unacceptable p : rkeeps snd_vars (rdp_open_seq_unacceptable p).
Proof. unfold rdp_open_seq_unacceptable. rkeeps_auto. Qed.
#[local] Hint Resolve keeps_rdp_open_seq_unacceptable : rkeeps.

Lemma keeps_rdp_listen p : rkeeps snd_vars (rdp_listen p).
Proof. unfold rdp_listen. rkeeps_auto. Qed.
#[local] Hint Resolve keeps_rdp_listen : rkeeps.

(** ** Running the control-message functions *)

Arguments csp_rdp_send_cmp : simpl never.
Arguments csp_rdp_send_eack : simpl never.
Arguments discard_close : simpl never.
Arguments discard_open : simpl never.
Arguments rdp_open_data : simpl never.
Arguments rdp_open_ack : simpl never.
Arguments rdp_open_seq_unacceptable : simpl never.

Ltac ack_noted_cases :=
  unfold ack_noted; cbn;
  repeat match goal with
         | |- context [delay_acks ?m && ?a] => destruct (delay_acks m && a)
         end; cbn.

Lemma run_send_cmp_packet m p a s r e sq ak :
  if_up m = true ->
  csp_rdp_send_cmp (Some p) a s r e sq ak false m
  = Some (1, ack_noted a ak (set_trace (trace m ++ [Sent (rdp_framed p a s r e sq ak)]) m)).
Proof.
  intros Hup. unfold csp_rdp_send_cmp, bind, csp_send_direct, ack_noted. cbn.
  rewrite Hup. cbn. destruct (delay_acks m && a); reflexivity.
Qed.

Lemma run_send_cmp_control m n a s r e sq ak :
  pool m = S n -> if_up m = true ->
  csp_rdp_send_cmp None a s r e sq ak false m
  = Some (1, ack_noted a ak
               (set_trace (trace m ++ [Sent (control_packet a s r e sq ak)]) (set_pool n m))).
Proof.
  intros Hpool Hup.
  unfold csp_rdp_send_cmp, bind, csp_buffer_get, csp_send_direct, ack_noted. cbn.
  rewrite Hpool. cbn. rewrite Hup. cbn. destruct (delay_acks m && a); reflexivity.
Qed.

Lemma control_packet_header a s r e sq ak :
  0 <= sq < 65536 -> 0 <= ak < 65536 ->
  let h := header (control_packet a s r e sq ak) in
  ack h = a /\ syn h = s /\ rst h = r /\ eak h = e /\
  ntohs (seq_nr h) = sq /\ ntohs (ack_nr h) = ak.
Proof.
  intros Hsq Hak. cbn. rewrite !u16_small by assumption.
  rewrite !ntohs_htons by assumption. repeat split.
Qed.

(** The acknowledgement window of the states SYN_RCVD, OPEN and
    CLOSE_WAIT, in integers. *)
Lemma ack_nr_too_high_spec r h :
  ack_nr_too_high r h = true <-> snd_nxt r <= ack_nr h.
Proof. unfold ack_nr_too_high. rewrite Z.geb_le. reflexivity. Qed.

Lemma ack_nr_too_low_spec r h :
  0 <= ack_nr h < 65536 ->
  ack_nr_too_low r h = true
  <-> ack_nr h < (snd_una r - 1 - 2 * window_size r) mod 4294967296.
Proof.
  intros Ha. unfold ack_nr_too_low.
  rewrite u32_sub_u32, (u32_small (ack_nr h)) by lia.
  rewrite Z.ltb_lt. unfold u32.
  replace (snd_una r - 1 - window_size r * 2) with (snd_una r - 1 - 2 * window_size r) by lia.
  reflexivity.
Qed.

Lemma ack_nr_too_high_false r h :
  ack_nr_too_high r h = false <-> ack_nr h < snd_nxt r.
Proof. unfold ack_nr_too_high. rewrite Z.geb_leb, Z.leb_gt. reflexivity. Qed.

Lemma ack_nr_too_low_false r h :
  0 <= ack_nr h < 65536 ->
  ack_nr_too_low r h = false
  <-> (snd_una r - 1 - 2 * window_size r) mod 4294967296 <= ack_nr h.
Proof.
  intros Ha. pose proof (ack_nr_too_low_spec r h Ha) as H.
  destruct (ack_nr_too_low r h); split; intros H'; try discriminate; try reflexivity.
  - assert (true = true) as E by reflexivity. apply H in E. lia.
  - apply Z.nlt_ge. intros Hc. apply H in Hc. discriminate.
Qed.

Lemma seq_nr_unacceptable_spec r h :
  0 <= seq_nr h < 65536 ->
  seq_nr_unacceptable r h = false
  <-> rcv_cur r < seq_nr h <= (rcv_cur r + 2 * window_size r) mod 4294967296.
Proof.
  intros Hs. unfold seq_nr_unacceptable.
  rewrite u32_add_u32, (u32_small (seq_nr h)) by lia.
  rewrite orb_false_iff, Z.leb_gt, Z.gtb_ltb, Z.ltb_ge. unfold u32.
  replace (rcv_cur r + window_size r * 2) with (rcv_cur r + 2 * window_size r) by lia.
  reflexivity.
Qed.

Lemma rx_host_order_header packet :
  let h := header (rx_host_order packet) in
  seq_nr h = ntohs (seq_nr (header packet)) /\
  ack_nr h = ntohs (ack_nr (header packet)) /\
  syn h = syn (header packet) /\ ack h = ack (header packet) /\
  eak h = eak (header packet) /\ rst h = rst (header packet).
Proof. cbn. repeat split. Qed.

(** ** CLOSE_WAIT *)

(** C10, as the code has it: the lower bound of the acknowledgement
    window is computed in unsigned 32-bit arithmetic,
    [lo = (snd_una - 1 - 2 * window_size) mod 2^32], which is the integer
    [snd_una - 1 - 2 * window_size] when [2 * window_size < snd_una].  In
    CLOSE_WAIT a packet that is not a reset and whose acknowledgement
    number lies in [lo <= ack_nr < snd_nxt] sets [snd_una] to [ack_nr + 1]
    and is answered by a RST|ACK carrying [snd_nxt] and [rcv_cur], the
    state staying CLOSE_WAIT; outside that range the packet is freed,
    nothing is sent and the connection is left as it was. *)
Theorem close_wait_ack_window (m : machine) (packet : csp_packet_t) :
  let r := rdp (conn m) in
  let a := ntohs (ack_nr (header packet)) in
  let lo := (snd_una r - 1 - 2 * window_size r) mod 4294967296 in
  rdp_lock m = false ->
  state r = RDP_CLOSE_WAIT ->
  rst (header packet) = false ->
  rdp_in_range r ->
  (2 * window_size r < snd_una r -> lo = snd_una r - 1 - 2 * window_size r) /\
  (lo <= a < snd_nxt r -> (0 < pool m)%nat -> if_up m = true ->
   exists m' reply,
     csp_rdp_new_packet packet m = Some (tt, m') /\
     snd_una (rdp (conn m')) = a + 1 /\
     state (rdp (conn m')) = RDP_CLOSE_WAIT /\
     trace m' = trace m ++ [Sent reply; Freed (rx_host_order packet)] /\
     rst (header reply) = true /\ ack (header reply) = true /\
     syn (header reply) = false /\ eak (header reply) = false /\
     ntohs (seq_nr (header reply)) = snd_nxt r /\
     ntohs (ack_nr (header reply)) = rcv_cur r) /\
  (~ (lo <= a < snd_nxt r) ->
   exists m',
     csp_rdp_new_packet packet m = Some (tt, m') /\
     conn m' = conn m /\
     trace m' = trace m ++ [Freed (rx_host_order packet)]).
Proof.
  intros r a lo Hlock Hst Hrst Hrange.
  destruct Hrange as (Hnxt & Huna & _ & Hcur & _ & _ & Hws & _).
  assert (Ha : 0 <= a < 65536) by apply ntohs_range.
  assert (Hrun : csp_rdp_new_packet packet m
                 = rdp_close_wait (rx_host_order packet) (set_rdp_lock true m)).
  { unfold csp_rdp_new_packet, bind, csp_rdp_wait. rewrite Hlock. cbn.
    fold r. rewrite Hst. cbn. rewrite Hrst. cbn. fold r. rewrite Hst. reflexivity. }
  split; [|split].
  - intros Hnw. unfold lo. apply Z.mod_small. lia.
  - intros Hin Hpool Hup.
    destruct (pool m) as [|n] eqn:Epool; [lia|].
    exists (set_rdp_lock false
              (set_trace ((trace m ++ [Sent (control_packet true false true false (snd_nxt r) (rcv_cur r))])
                          ++ [Freed (rx_host_order packet)])
                 (set_pool (S n)
                    (ack_noted true (rcv_cur r)
                       (set_trace (trace m ++ [Sent (control_packet true false true false (snd_nxt r) (rcv_cur r))])
                          (set_pool n
                             (set_conn (set_rdp (rdp_set_snd_una (u16 (a + 1)) r) (conn m))
                                (set_rdp_lock true m)))))))),
           (control_packet true false true false (snd_nxt r) (rcv_cur r)).
    split.
    { rewrite Hrun. unfold rdp_close_wait, bind. cbn. fold r a.
      destruct (ack_nr_too_high r _) eqn:E1;
        [apply ack_nr_too_high_spec in E1; cbn [ack_nr set_seq_nr set_ack_nr] in E1; lia|].
      destruct (ack_nr_too_low r _) eqn:E2;
        [apply ack_nr_too_low_spec in E2; cbn [ack_nr set_seq_nr set_ack_nr] in E2 |- *;
         [fold lo in E2; lia | exact Ha]|].
      cbn. erewrite run_send_cmp_control by (cbn; eauto).
      unfold ack_noted. cbn. destruct (delay_acks m); reflexivity. }
    pose proof (control_packet_header true false true false _ _ Hnxt Hcur) as Hh.
    cbn zeta in Hh. destruct Hh as (? & ? & ? & ? & ? & ?).
    rewrite <- app_assoc.
    repeat split; try assumption;
      ack_noted_cases; try reflexivity; try exact Hst; apply u16_small; lia.
  - intros Hout. exists (set_rdp_lock false
                           (set_trace (trace m ++ [Freed (rx_host_order packet)])
                              (set_pool (S (pool m)) (set_rdp_lock true m)))).
    split; [|split; reflexivity].
    rewrite Hrun. unfold rdp_close_wait, bind. cbn. fold r a.
    destruct (ack_nr_too_high r _) eqn:E1; [reflexivity|].
    destruct (ack_nr_too_low r _) eqn:E2; [reflexivity|].
    exfalso. apply Hout.
    apply ack_nr_too_high_false in E1. apply ack_nr_too_low_false in E2; [|exact Ha].
    cbn [ack_nr set_seq_nr set_ack_nr] in E1, E2. fold lo in E2. lia.
Qed.

Lemma close_wait_ack_window_witness :
  exists m',
    csp_rdp_new_packet (wire_packet false true false false 2011 1005 [])
                       (sample_machine RDP_CLOSE_WAIT) = Some (tt, m')
    /\ snd_una (rdp (conn m')) = 1006.
Proof.
  destruct (close_wait_ack_window (sample_machine RDP_CLOSE_WAIT)
              (wire_packet false true false false 2011 1005 []))
    as (_ & H & _).
  - reflexivity.
  - reflexivity.
  - reflexivity.
  - unfold rdp_in_range. cbn. lia.
  - destruct H as (m' & reply & Hrun & Huna & _).
    + vm_compute. split; congruence.
    + cbn. lia.
    + reflexivity.
    + exists m'. split; [exact Hrun | exact Huna].
Defined.

(** ** Resets *)

Lemma listen_init_in_range r : rdp_in_range r -> rdp_in_range (listen_init r).
Proof.
  unfold listen_init, rdp_in_range.
  destruct (state_eqb (state r) RDP_CLOSED); cbn; lia.
Qed.

Lemma listen_init_other r : state r <> RDP_CLOSED -> listen_init r = r.
Proof.
  unfold listen_init. intros H.
  destruct (state r); cbn; try reflexivity. exfalso. apply H. reflexivity.
Qed.

Lemma listen_init_rcv_cur r : rcv_cur (listen_init r) = rcv_cur r.
Proof. unfold listen_init. destruct (state_eqb _ _); reflexivity. Qed.

Lemma listen_init_not_close_wait r :
  state r <> RDP_CLOSE_WAIT -> state (listen_init r) <> RDP_CLOSE_WAIT.
Proof.
  unfold listen_init. intros H.
  destruct (state r) eqn:E; cbn; rewrite ?E; try discriminate. exact H.
Qed.

(** [csp_rdp_new_packet] up to the test of the reset flag. *)
Lemma new_packet_entry m packet :
  rdp_lock m = false ->
  csp_rdp_new_packet packet m
  = (let packet := rx_host_order packet in
     if rst (header packet) then rdp_reset_received packet else
     r <- rdp_get ;;
     match state r with
     | RDP_LISTEN => rdp_listen packet
     | RDP_SYN_SENT => rdp_syn_sent packet
     | RDP_SYN_RCVD | RDP_OPEN => rdp_open packet
     | RDP_CLOSE_WAIT => rdp_close_wait packet
     | RDP_CLOSED => discard_close packet
     end)
      (set_conn (set_rdp (listen_init (rdp (conn m))) (conn m)) (set_rdp_lock true m)).
Proof.
  intros Hlock. unfold csp_rdp_new_packet, bind, csp_rdp_wait, listen_init.
  rewrite Hlock. cbn.
  destruct (state_eqb (state (rdp (conn m))) RDP_CLOSED); cbn.
  - reflexivity.
  - destruct m as [[r s q t] l p c u d tr]. reflexivity.
Qed.

Lemma run_discard_close packet m :
  discard_close packet m
  = Some (tt, set_rdp_lock false
                (set_trace (trace m ++ [Freed packet])
                   (set_pool (S (pool m)) (set_conn (close_notified (conn m)) m)))).
Proof.
  unfold discard_close, close_notified, bind, conn_rx_enqueue. cbn.
  destruct (rx_socket (conn m)); cbn.
  - destruct m as [[r s q t] l p c u d tr]. reflexivity.
  - destruct (csp_queue_enqueue (conn_rx_queue (conn m)) None). reflexivity.
  - destruct m as [[r s q t] l p c u d tr]. reflexivity.
Qed.

Lemma close_notified_rdp c : rdp (close_notified c) = rdp c.
Proof. unfold close_notified. destruct (rx_socket c); reflexivity. Qed.

Lemma run_discard_open packet m :
  discard_open packet m
  = Some (tt, set_rdp_lock false
                (set_trace (trace m ++ [Freed packet]) (set_pool (S (pool m)) m))).
Proof. reflexivity. Qed.

(** C8, as the code has it: a reset received in a state other than
    CLOSE_WAIT.  A CLOSED connection is first initialised for a passive
    open ([listen_init]); then, if the ack flag is set, [snd_una] becomes
    [ack_nr + 1]; a reset in sequence is answered by a RST|ACK and moves
    the connection to CLOSE_WAIT; a reset out of sequence is freed and
    the state stays what it was after the initialisation, which is the
    state before the call unless that was CLOSED. *)
Theorem reset_received_not_close_wait (m : machine) (packet : csp_packet_t) :
  let r := listen_init (rdp (conn m)) in
  let h := header packet in
  let s := ntohs (seq_nr h) in
  let a := ntohs (ack_nr h) in
  let una := if ack h then u16 (a + 1) else snd_una r in
  rdp_lock m = false ->
  rst h = true ->
  state (rdp (conn m)) <> RDP_CLOSE_WAIT ->
  rdp_in_range (rdp (conn m)) ->
  (state (rdp (conn m)) <> RDP_CLOSED -> r = rdp (conn m)) /\
  (a < 65535 -> u16 (a + 1) = a + 1) /\
  (s = rcv_cur r + 1 -> (0 < pool m)%nat -> if_up m = true ->
   exists m' reply,
     csp_rdp_new_packet packet m = Some (tt, m') /\
     snd_una (rdp (conn m')) = una /\
     state (rdp (conn m')) = RDP_CLOSE_WAIT /\
     trace m' = trace m ++ [Sent reply; Freed (rx_host_order packet)] /\
     rst (header reply) = true /\ ack (header reply) = true /\
     ntohs (seq_nr (header reply)) = snd_nxt r /\
     ntohs (ack_nr (header reply)) = rcv_cur r) /\
  (s <> rcv_cur r + 1 ->
   exists m',
     csp_rdp_new_packet packet m = Some (tt, m') /\
     snd_una (rdp (conn m')) = una /\
     state (rdp (conn m')) = state r /\
     trace m' = trace m ++ [Freed (rx_host_order packet)]).
Proof.
  intros r h s a una Hlock Hrst Hst Hrange.
  pose proof (listen_init_in_range _ Hrange) as Hr. fold r in Hr.
  destruct Hr as (Hnxt & _ & _ & Hcur & _).
  pose proof (listen_init_not_close_wait _ Hst) as Hst'. fold r in Hst'.
  assert (Ha : 0 <= a < 65536) by apply ntohs_range.
  assert (Hrun : csp_rdp_new_packet packet m
                 = rdp_reset_received (rx_host_order packet)
                     (set_conn (set_rdp r (conn m)) (set_rdp_lock true m))).
  { rewrite new_packet_entry by assumption. cbn. fold h. rewrite Hrst. reflexivity. }
  split; [apply listen_init_other|].
  split; [intros; apply u16_small; lia|].
  split.
  - intros Hs Hpool Hup. destruct (pool m) as [|n] eqn:Epool; [lia|].
    pose proof (control_packet_header true false true false _ _ Hnxt Hcur) as Hh.
    cbn zeta in Hh. destruct Hh as (? & ? & ? & ? & ? & ?).
    rewrite Hrun. unfold rdp_reset_received, bind, una. cbn. fold h a s.
    destruct (ack h); cbn;
      (destruct (state r) eqn:Er; try congruence; cbn;
       rewrite Hs, Z.eqb_refl;
       (erewrite run_send_cmp_control by (cbn; eauto)); cbn;
       rewrite run_discard_close;
       do 2 eexists; (split; [reflexivity|]);
       cbn; rewrite ?close_notified_rdp;
       ack_noted_cases; rewrite <- ?app_assoc; repeat split; assumption).
  - intros Hs. rewrite Hrun. unfold rdp_reset_received, bind, una. cbn. fold h a s.
    apply Z.eqb_neq in Hs.
    destruct (ack h); cbn;
      (destruct (state r) eqn:Er; try congruence; cbn; rewrite Hs;
       rewrite run_discard_open; eexists; (split; [reflexivity|]);
       cbn; rewrite ?Er; repeat split).
Qed.

(** ** The extended acknowledgement *)

Lemma data16_put_end v l : data16_put (List.length l) v l = l ++ [v].
Proof.
  unfold data16_put. rewrite Nat.sub_diag. cbn [repeat]. rewrite app_nil_r.
  rewrite firstn_all. rewrite skipn_all2 by lia. reflexivity.
Qed.

Lemma with_rx_items_same m :
  with_rx_items (items (rx_queue (rdp (conn m)))) m = m.
Proof. destruct m as [[[] s q t] l p c u d tr]. cbn. destruct rx_queue0. reflexivity. Qed.

Lemma run_rx_queue_dequeue m x rest :
  items (rx_queue (rdp (conn m))) = x :: rest ->
  rx_queue_dequeue m = Some (Some x, with_rx_items rest m).
Proof.
  intros Hq. unfold rx_queue_dequeue, bind, csp_queue_dequeue. cbn. rewrite Hq. reflexivity.
Qed.

Lemma run_rx_queue_enqueue m x :
  (List.length (items (rx_queue (rdp (conn m)))) < capacity (rx_queue (rdp (conn m))))%nat ->
  rx_queue_enqueue x m
  = Some (CSP_QUEUE_OK, with_rx_items (items (rx_queue (rdp (conn m))) ++ [x]) m).
Proof.
  intros Hc. unfold rx_queue_enqueue, bind, csp_queue_enqueue. cbn.
  apply Nat.ltb_lt in Hc. rewrite Hc. reflexivity.
Qed.

Lemma run_tx_queue_dequeue m x rest :
  items (tx_queue (rdp (conn m))) = x :: rest ->
  tx_queue_dequeue m = Some (Some x, with_tx_items rest m).
Proof.
  intros Hq. unfold tx_queue_dequeue, bind, csp_queue_dequeue. cbn. rewrite Hq. reflexivity.
Qed.

Lemma run_tx_queue_enqueue m x :
  (List.length (items (tx_queue (rdp (conn m)))) < capacity (tx_queue (rdp (conn m))))%nat ->
  tx_queue_enqueue x m
  = Some (CSP_QUEUE_OK, with_tx_items (items (tx_queue (rdp (conn m))) ++ [x]) m).
Proof.
  intros Hc. unfold tx_queue_enqueue, bind, csp_queue_enqueue. cbn.
  apply Nat.ltb_lt in Hc. rewrite Hc. reflexivity.
Qed.

Lemma run_send_eack_loop todo : forall done acc m,
  items (rx_queue (rdp (conn m))) = todo ++ done ->
  (List.length (todo ++ done) <= capacity (rx_queue (rdp (conn m))))%nat ->
  2 * Z.of_nat (List.length acc + List.length todo) < 65536 ->
  send_eack_loop (List.length todo) (eack_buffer acc) m
  = Some (eack_buffer (acc ++ eack_words todo), with_rx_items (done ++ todo) m).
Proof.
  induction todo as [|x todo IH]; intros done acc m Hq Hcap Hlen.
  - cbn. rewrite !app_nil_r. cbn in Hq. rewrite <- Hq.
    rewrite with_rx_items_same. reflexivity.
  - cbn [List.length send_eack_loop]. cbn [List.length] in Hlen.
    unfold bind at 1. rewrite (run_rx_queue_dequeue m x (todo ++ done)) by exact Hq.
    unfold bind at 1. rewrite run_rx_queue_enqueue by (cbn in Hcap |- *; lia).
    replace (set_length _ _) with (eack_buffer (acc ++ [htons (seq_nr (header x))])).
    2:{ unfold eack_buffer, set_length, set_data16. cbn [length data16 timestamp header].
        replace (Z.to_nat (2 * Z.of_nat (List.length acc) / 2)) with (List.length acc)
          by (rewrite Z.mul_comm, Z.div_mul by lia; lia).
        rewrite data16_put_end. f_equal.
        rewrite length_app. cbn [List.length]. rewrite u16_small; lia. }
    rewrite (IH (done ++ [x])).
    + unfold with_rx_items. cbn. rewrite <- !app_assoc. reflexivity.
    + cbn. rewrite <- app_assoc. reflexivity.
    + cbn. cbn in Hcap. rewrite !length_app in *. cbn in *. lia.
    + rewrite length_app. cbn [List.length] in *. lia.
Qed.

Lemma run_send_eack m n :
  pool m = S n -> if_up m = true ->
  (List.length (items (rx_queue (rdp (conn m)))) <= capacity (rx_queue (rdp (conn m))))%nat ->
  2 * Z.of_nat (List.length (items (rx_queue (rdp (conn m))))) < 65536 ->
  csp_rdp_send_eack m
  = Some (1, ack_noted true (rcv_cur (rdp (conn m)))
               (set_trace (trace m ++ [Sent (eack_packet (rdp (conn m)))]) (set_pool n m))).
Proof.
  intros Hpool Hup Hcap Hlen.
  unfold csp_rdp_send_eack, bind, csp_buffer_get. rewrite Hpool. cbn.
  change (set_length 0 blank_packet) with (eack_buffer []).
  rewrite (run_send_eack_loop _ [] [] (set_pool n m)).
  - cbn [app]. unfold with_rx_items. cbn.
    pose proof (with_rx_items_same m) as Hsame. unfold with_rx_items in Hsame.
    replace (set_conn _ (set_pool n m)) with (set_pool n m).
    2:{ rewrite <- Hsame at 1. reflexivity. }
    cbn. rewrite run_send_cmp_packet by exact Hup. reflexivity.
  - cbn. rewrite app_nil_r. reflexivity.
  - cbn. rewrite app_nil_r. exact Hcap.
  - cbn. exact Hlen.
Qed.

Lemma queue_ok_eqb : (CSP_QUEUE_OK =? CSP_QUEUE_OK) = true.
Proof. reflexivity. Qed.

Lemma queue_full_eqb : (CSP_QUEUE_FULL =? CSP_QUEUE_OK) = false.
Proof. reflexivity. Qed.


(** ** The sequence-number and acknowledgement-number windows *)

Lemma open_entry m packet :
  rdp_lock m = false ->
  state (rdp (conn m)) = RDP_SYN_RCVD \/ state (rdp (conn m)) = RDP_OPEN ->
  rst (header packet) = false ->
  syn (header packet) = false ->
  ack (header packet) = true ->
  csp_rdp_new_packet packet m
  = (if seq_nr_unacceptable (rdp (conn m)) (header (rx_host_order packet))
     then rdp_open_seq_unacceptable (rx_host_order packet)
     else rdp_open_ack (rx_host_order packet)) (set_rdp_lock true m).
Proof.
  intros Hlock Hst Hrst Hsyn Hack.
  rewrite new_packet_entry by assumption. cbn.
  rewrite Hrst. rewrite listen_init_other by (destruct Hst as [E|E]; rewrite E; discriminate).
  replace (set_conn (set_rdp (rdp (conn m)) (conn m)) (set_rdp_lock true m))
    with (set_rdp_lock true m)
    by (destruct m as [[r s q t] l p c u d tr]; reflexivity).
  unfold bind. cbn.
  assert (E : rdp_open (rx_host_order packet) (set_rdp_lock true m)
              = (if seq_nr_unacceptable (rdp (conn m)) (header (rx_host_order packet))
                 then rdp_open_seq_unacceptable (rx_host_order packet)
                 else rdp_open_ack (rx_host_order packet)) (set_rdp_lock true m)).
  { unfold rdp_open, bind. cbn. rewrite Hsyn, Hack. cbn. reflexivity. }
  destruct Hst as [Hst|Hst]; rewrite Hst; exact E.
Qed.



(** C2, as the code has it: in SYN_RCVD and OPEN, a packet that is not a
    reset, passed the tests of the flags and of the sequence number, and
    whose acknowledgement number lies outside
    [snd_una - 1 - 2 * window_size <= ack_nr < snd_nxt], leaves by the
    label [discard_close]: it is freed, nothing is sent, the NULL sentinel
    is put on the application receive queue when the handle was passed to
    user space, and [conn->rdp] -- the state included -- is left as it
    was. *)
Theorem ack_nr_out_of_range (m : machine) (packet : csp_packet_t) :
  let r := rdp (conn m) in
  let s := ntohs (seq_nr (header packet)) in
  let a := ntohs (ack_nr (header packet)) in
  let packet' := rx_host_order packet in
  rdp_lock m = false ->
  state r = RDP_SYN_RCVD \/ state r = RDP_OPEN ->
  rst (header packet) = false ->
  syn (header packet) = false ->
  ack (header packet) = true ->
  rdp_in_range r ->
  rcv_cur r < s <= (rcv_cur r + 2 * window_size r) mod 4294967296 ->
  ~ (snd_una r - 1 - 2 * window_size r <= a < snd_nxt r) ->
  exists m',
    csp_rdp_new_packet packet m = Some (tt, m') /\
    conn m' = close_notified (conn m) /\
    rdp (conn m') = r /\
    state (rdp (conn m')) = state r /\
    trace m' = trace m ++ [Freed packet'] /\
    rdp_lock m' = false.
Proof.
  intros r s a packet' Hlock Hst Hrst Hsyn Hack Hrange Hin Hout.
  destruct Hrange as (Hnxt & Huna & _ & _ & _ & _ & Hws & _).
  assert (Hs : 0 <= s < 65536) by apply ntohs_range.
  assert (Ha : 0 <= a < 65536) by apply ntohs_range.
  rewrite (open_entry m packet Hlock Hst Hrst Hsyn Hack). fold r packet'.
  replace (seq_nr_unacceptable r (header packet')) with false
    by (symmetry; apply seq_nr_unacceptable_spec; [exact Hs | exact Hin]).
  assert (Hrun : rdp_open_ack packet' (set_rdp_lock true m)
                 = discard_close packet' (set_rdp_lock true m)).
  { unfold rdp_open_ack, bind. cbn. fold r.
    destruct (ack_nr_too_high r _) eqn:E1; [reflexivity|].
    destruct (ack_nr_too_low r _) eqn:E2; [reflexivity|].
    exfalso. apply Hout.
    apply ack_nr_too_high_false in E1. apply ack_nr_too_low_false in E2; [|exact Ha].
    cbn [ack_nr set_seq_nr set_ack_nr] in E1, E2. fold a in E1, E2.
    split; [|exact E1].
    destruct (Z_lt_le_dec (snd_una r - 1 - 2 * window_size r) 0) as [Hneg|Hpos]; [lia|].
    rewrite Z.mod_small in E2 by lia. exact E2. }
  rewrite Hrun, run_discard_close.
  eexists. split; [reflexivity|]. cbn.
  rewrite close_notified_rdp. repeat split.
Qed.

(** ** How packet reception moves the send-side variables *)

Lemma bind_inv {A B} (c : M A) (k : A -> M B) m b m' :
  bind c k m = Some (b, m') ->
  exists a m1, c m = Some (a, m1) /\ k a m1 = Some (b, m').
Proof.
  unfold bind. intros H. destruct (c m) as [[a m1]|]; [|discriminate].
  exists a, m1. split; [reflexivity | exact H].
Qed.

Lemma una_step_kept a m m' :
  snd_vars (rdp (conn m')) = snd_vars (rdp (conn m)) -> una_step a m m'.
Proof. unfold snd_vars, una_step. intros H. inversion H as [[H1 H2]]. auto. Qed.

(** Finishes a goal about a computation whose remainder keeps
    [snd_vars]. *)
Ltac keeps_rest H :=
  match type of H with
  | ?c ?m1 = Some _ =>
      let K := fresh "K" in
      assert (K : rkeeps snd_vars c) by (rkeeps_auto);
      apply K in H
  end.

Lemma rdp_open_ack_snd_vars p m m' :
  rdp_open_ack p m = Some (tt, m') ->
  snd_vars (rdp (conn m')) = snd_vars (rdp (conn m)) \/
  (snd_nxt (rdp (conn m')) = snd_nxt (rdp (conn m)) /\
   snd_una (rdp (conn m')) = u16 (ack_nr (header p) + 1) /\
   ack_nr (header p) < snd_nxt (rdp (conn m))).
Proof.
  unfold rdp_open_ack, bind at 1. cbn. intros H.
  destruct (ack_nr_too_high _ _) eqn:E1; [left; keeps_rest H; exact H|].
  destruct (ack_nr_too_low _ _); [left; keeps_rest H; exact H|].
  destruct (state_eqb _ _ && _); [left; keeps_rest H; exact H|].
  right. apply ack_nr_too_high_false in E1.
  apply bind_inv in H. destruct H as (x1 & m1 & H1 & H).
  apply bind_inv in H. destruct H as (x2 & m2 & H2 & H).
  keeps_rest H. unfold snd_vars in H. inversion H as [[Hn Hu]].
  rewrite Hn, Hu. inversion H2; subst m2. cbn.
  destruct (state_eqb _ _); inversion H1; subst m1; cbn; auto.
Qed.

Lemma rdp_open_snd_vars p m m' :
  rdp_open p m = Some (tt, m') ->
  snd_vars (rdp (conn m')) = snd_vars (rdp (conn m)) \/
  (snd_nxt (rdp (conn m')) = snd_nxt (rdp (conn m)) /\
   snd_una (rdp (conn m')) = u16 (ack_nr (header p) + 1) /\
   ack_nr (header p) < snd_nxt (rdp (conn m))).
Proof.
  unfold rdp_open. intros H.
  destruct (syn _ || negb _); [left; keeps_rest H; exact H|].
  unfold bind at 1 in H. cbn in H.
  destruct (seq_nr_unacceptable _ _); [left; keeps_rest H; exact H|].
  apply rdp_open_ack_snd_vars. exact H.
Qed.

Lemma rdp_close_wait_una_step p m m' :
  rdp_close_wait p m = Some (tt, m') -> una_step (ack_nr (header p)) m m'.
Proof.
  unfold rdp_close_wait, bind at 1. cbn. intros H.
  destruct (ack_nr_too_high _ _); [apply una_step_kept; keeps_rest H; exact H|].
  destruct (ack_nr_too_low _ _); [apply una_step_kept; keeps_rest H; exact H|].
  apply bind_inv in H. destruct H as (x1 & m1 & H1 & H).
  keeps_rest H. unfold snd_vars in H. inversion H as [[Hn Hu]].
  inversion H1; subst m1. unfold una_step. rewrite Hn, Hu. cbn. auto.
Qed.

Lemma rdp_syn_sent_una_step p m m' :
  rdp_syn_sent p m = Some (tt, m') -> una_step (ack_nr (header p)) m m'.
Proof.
  unfold rdp_syn_sent. cbn. intros H.
  destruct (syn _ && ack _).
  - apply bind_inv in H. destruct H as (x1 & m1 & H1 & H).
    keeps_rest H. unfold snd_vars in H. inversion H as [[Hn Hu]].
    inversion H1; subst m1. unfold una_step. rewrite Hn, Hu. cbn. auto.
  - destruct (ack _); apply una_step_kept; keeps_rest H; exact H.
Qed.

Lemma rdp_reset_received_una_step p m m' :
  rdp_reset_received p m = Some (tt, m') -> una_step (ack_nr (header p)) m m'.
Proof.
  unfold rdp_reset_received. cbn. intros H.
  apply bind_inv in H. destruct H as (x1 & m1 & H1 & H).
  keeps_rest H. unfold snd_vars in H. inversion H as [[Hn Hu]].
  unfold una_step. rewrite Hn, Hu.
  destruct (ack _); inversion H1; subst m1; cbn; auto.
Qed.

Lemma new_packet_una_step packet m m' :
  state (rdp (conn m)) <> RDP_CLOSED ->
  csp_rdp_new_packet packet m = Some (tt, m') ->
  una_step (ntohs (ack_nr (header packet))) m m'.
Proof.
  intros Hst H. destruct (rdp_lock m) eqn:Hlock.
  - apply una_step_kept. unfold csp_rdp_new_packet, bind, csp_rdp_wait in H.
    rewrite Hlock in H. cbn in H. inversion H. reflexivity.
  - rewrite new_packet_entry in H by exact Hlock.
    rewrite listen_init_other in H by exact Hst. cbn zeta in H.
    set (m0 := set_conn (set_rdp (rdp (conn m)) (conn m)) (set_rdp_lock true m)) in H.
    assert (E : una_step (ntohs (ack_nr (header packet))) m0 m'
                -> una_step (ntohs (ack_nr (header packet))) m m') by (intros E; exact E).
    apply E. clear E.
    change (ntohs (ack_nr (header packet))) with (ack_nr (header (rx_host_order packet))).
    destruct (rst (header (rx_host_order packet))).
    + apply rdp_reset_received_una_step. exact H.
    + unfold bind at 1 in H. cbn in H.
      destruct (state (rdp (conn m))).
      * apply una_step_kept. keeps_rest H. exact H.
      * apply una_step_kept. keeps_rest H. exact H.
      * apply rdp_syn_sent_una_step. exact H.
      * destruct (rdp_open_snd_vars _ _ _ H) as [K|(K1 & K2 & _)];
          [apply una_step_kept; exact K | split; auto].
      * destruct (rdp_open_snd_vars _ _ _ H) as [K|(K1 & K2 & _)];
          [apply una_step_kept; exact K | split; auto].
      * apply rdp_close_wait_una_step. exact H.
Qed.

(** C4, as the code has it: on a connection that is not CLOSED,
    [csp_rdp_new_packet] keeps [snd_una] or sets it to the packet's
    [ack_nr + 1]; so [snd_una] does not decrease when [ack_nr + 1] is at
    least [snd_una]. *)
Theorem snd_una_after_new_packet (m : machine) (packet : csp_packet_t) (m' : machine) :
  let a := ntohs (ack_nr (header packet)) in
  state (rdp (conn m)) <> RDP_CLOSED ->
  csp_rdp_new_packet packet m = Some (tt, m') ->
  (snd_una (rdp (conn m')) = snd_una (rdp (conn m)) \/
   snd_una (rdp (conn m')) = u16 (a + 1)) /\
  (snd_una (rdp (conn m)) <= a + 1 -> a < 65535 ->
   snd_una (rdp (conn m)) <= snd_una (rdp (conn m'))).
Proof.
  intros a Hst H.
  destruct (new_packet_una_step packet m m' Hst H) as (_ & Hu). fold a in Hu.
  split; [exact Hu|].
  intros Hle Ha. pose proof (ntohs_range (ack_nr (header packet))) as Hr. fold a in Hr.
  destruct Hu as [Hu|Hu]; rewrite Hu; [lia|].
  rewrite u16_small; lia.
Qed.

(** C3, as the code has it: what the three operations do to the send
    window of an OPEN connection.  The timeout engine touches neither
    [snd_una] nor [snd_nxt].  A packet keeps [snd_nxt], and leaves
    [snd_una <= snd_nxt] unless it is a reset with the ack flag whose
    acknowledgement number is not below [snd_nxt].  A send that finds
    room without waiting, with [snd_nxt < 65535], keeps [snd_una],
    advances [snd_nxt] by one and ends with
    [snd_nxt - snd_una < window_size].  A send that had to wait goes on
    from the connection as the other tasks left it: it keeps that
    [snd_una], and keeps [snd_nxt] or advances it by one, modulo 2^16; so
    [snd_una <= snd_nxt] holds afterwards if it held, with
    [snd_nxt < 65535], when the sender woke.  A send that finds the lock
    taken changes nothing. *)
Theorem send_window_steps :
  (forall m m',
     csp_rdp_check_timeouts m = Some (tt, m') ->
     snd_una (rdp (conn m')) = snd_una (rdp (conn m)) /\
     snd_nxt (rdp (conn m')) = snd_nxt (rdp (conn m))) /\
  (forall m packet m',
     state (rdp (conn m)) = RDP_OPEN ->
     rdp_in_range (rdp (conn m)) ->
     snd_una (rdp (conn m)) <= snd_nxt (rdp (conn m)) ->
     csp_rdp_new_packet packet m = Some (tt, m') ->
     snd_nxt (rdp (conn m')) = snd_nxt (rdp (conn m)) /\
     (rst (header packet) = false \/ ack (header packet) = false \/
      ntohs (ack_nr (header packet)) < snd_nxt (rdp (conn m)) ->
      snd_una (rdp (conn m')) <= snd_nxt (rdp (conn m')))) /\
  (forall others m packet timeout,
     rdp_lock m = false ->
     state (rdp (conn m)) = RDP_OPEN ->
     rdp_in_range (rdp (conn m)) ->
     snd_una (rdp (conn m)) <= snd_nxt (rdp (conn m)) ->
     snd_nxt (rdp (conn m)) - snd_una (rdp (conn m)) + 1 < window_size (rdp (conn m)) ->
     snd_nxt (rdp (conn m)) < 65535 ->
     exists res m',
       csp_rdp_send others packet timeout m = Some (res, m') /\
       state (rdp (conn m')) = RDP_OPEN /\
       snd_una (rdp (conn m')) = snd_una (rdp (conn m)) /\
       snd_nxt (rdp (conn m')) = snd_nxt (rdp (conn m)) + 1 /\
       snd_nxt (rdp (conn m')) - snd_una (rdp (conn m')) < window_size (rdp (conn m'))) /\
  (forall others m packet timeout res m',
     let woken :=
       others (set_conn (set_rdp (rdp_set_tx_wait false (rdp (conn m))) (conn m)) m) in
     rdp_lock m = false ->
     state (rdp (conn m)) = RDP_OPEN ->
     window_size (rdp (conn m))
     <= u32 (snd_nxt (rdp (conn m)) - snd_una (rdp (conn m)) + 1) ->
     csp_rdp_send others packet timeout m = Some (res, m') ->
     snd_una (rdp (conn m')) = snd_una (rdp (conn woken)) /\
     (snd_nxt (rdp (conn m')) = snd_nxt (rdp (conn woken)) \/
      snd_nxt (rdp (conn m')) = u16 (snd_nxt (rdp (conn woken)) + 1)) /\
     (fst res = 1 -> snd_nxt (rdp (conn m')) = u16 (snd_nxt (rdp (conn woken)) + 1)) /\
     (0 <= snd_una (rdp (conn woken)) <= snd_nxt (rdp (conn woken)) ->
      snd_nxt (rdp (conn woken)) < 65535 ->
      snd_una (rdp (conn m')) <= snd_nxt (rdp (conn m')))) /\
  (forall others m packet timeout,
     rdp_lock m = true ->
     csp_rdp_send others packet timeout m = Some ((0, packet), m)).
Proof.
  split; [|split; [|split; [|split]]].
  - intros m m' H. apply keeps_csp_rdp_check_timeouts in H.
    unfold snd_vars in H. inversion H. auto.
  - intros m packet m' Hst Hrange Hinv H.
    destruct Hrange as (Hnxt & Huna & _).
    pose proof (ntohs_range (ack_nr (header packet))) as Ha.
    destruct (rdp_lock m) eqn:Hlock.
    + unfold csp_rdp_new_packet, bind, csp_rdp_wait in H.
      rewrite Hlock in H. cbn in H. inversion H. cbn. auto.
    + rewrite new_packet_entry in H by exact Hlock.
      rewrite listen_init_other in H by (rewrite Hst; discriminate).
      cbn zeta in H.
      change (rst (header (rx_host_order packet))) with (rst (header packet)) in H.
      destruct (rst (header packet)) eqn:Hrst.
      * destruct (rdp_reset_received_una_step _ _ _ H) as (Kn & Ku).
        cbn in Kn, Ku. split; [exact Kn|]. intros Hok. rewrite Kn.
        destruct (ack (header packet)) eqn:Hack.
        -- destruct Hok as [Hc|[Hc|Hc]]; try discriminate.
           destruct Ku as [Ku|Ku]; rewrite Ku; [lia|]. rewrite u16_small; lia.
        -- unfold rdp_reset_received in H. cbn in H. rewrite Hack in H.
           apply bind_inv in H. destruct H as (x1 & m1 & H1 & H).
           keeps_rest H. unfold snd_vars in H. inversion H as [[Hn Hu]].
           rewrite Hu. inversion H1; subst m1. cbn. lia.
      * unfold bind at 1 in H. cbn in H. rewrite Hst in H.
        destruct (rdp_open_snd_vars _ _ _ H) as [K|(K1 & K2 & K3)]; cbn in *.
        -- unfold snd_vars in K. inversion K as [[Kn Ku]]. rewrite Kn, Ku. auto.
        -- rewrite K1, K2. split; [reflexivity|]. intros _. rewrite u16_small; lia.
  - intros others m packet timeout Hlock Hst Hrange Hinv Hroom Hmax.
    destruct Hrange as (Hnxt & Huna & _ & _ & _ & _ & Hws & _).
    unfold csp_rdp_send, bind, csp_rdp_wait. rewrite Hlock. cbn. rewrite Hst. cbn.
    rewrite u32_small by lia.
    replace (_ >=? _) with false by (symmetry; rewrite Z.geb_leb; apply Z.leb_gt; lia).
    cbn. unfold csp_buffer_get. cbn.
    destruct (pool m) as [|n]; cbn.
    + do 2 eexists. split; [reflexivity|]. cbn. rewrite u16_small by lia.
      repeat split; try assumption; lia.
    + unfold tx_queue_enqueue, bind, csp_queue_enqueue. cbn.
      destruct (_ <? _)%nat; cbn; rewrite ?queue_ok_eqb, ?queue_full_eqb; cbn;
        (do 2 eexists; split; [reflexivity|]); cbn; rewrite u16_small by lia;
        repeat split; try assumption; lia.
  - intros others m packet timeout res m' woken Hl Hst Hfull H.
    assert (Hend : snd_una (rdp (conn m')) = snd_una (rdp (conn woken)) /\
                   (snd_nxt (rdp (conn m')) = snd_nxt (rdp (conn woken)) /\ fst res = 0 \/
                    snd_nxt (rdp (conn m')) = u16 (snd_nxt (rdp (conn woken)) + 1))).
    { unfold csp_rdp_send in H. unfold bind at 1 in H. unfold csp_rdp_wait at 1 in H.
      rewrite Hl in H. cbn [negb] in H.
      unfold bind at 1 in H. cbn [rdp_get conn set_rdp_lock] in H. rewrite Hst in H.
      cbn [state_eqb negb] in H.
      assert (Ew : (u32 (snd_nxt (rdp (conn m)) - snd_una (rdp (conn m)) + 1)
                    >=? window_size (rdp (conn m))) = true)
        by (rewrite Z.geb_leb; apply Z.leb_le; exact Hfull).
      rewrite Ew in H. unfold bind at 1 in H. unfold bind at 1 in H.
      unfold csp_rdp_release at 1 in H.
      unfold bind at 1 in H. unfold tx_wait_poll at 1 in H. cbn [rdp_upd] in H.
      unfold bind at 1 in H. unfold tx_wait_sleep at 1 in H.
      replace (set_rdp_lock false (set_rdp_lock true m)) with m in H
        by (destruct m as [c l p ck u d tr]; cbn in Hl; subst l; reflexivity).
      fold woken in H. cbv zeta in H.
      destruct (tx_wait (rdp (conn woken))) eqn:Ew2.
      - cbn [negb] in H. unfold csp_rdp_wait at 1 in H.
        cbn [rdp_lock set_conn] in H.
        destruct (rdp_lock woken) eqn:El2.
        + cbn in H. inversion H; subst. cbn. auto.
        + cbn [negb] in H.
          unfold bind, rdp_get, rdp_upd, csp_buffer_get, csp_get_ms, tx_queue_enqueue,
            csp_queue_enqueue, csp_buffer_free, csp_rdp_release, ret in H.
          cbn in H.
          destruct (pool woken); cbn in H.
          * inversion H; subst. cbn. auto.
          * destruct (_ <? _)%nat; cbn in H; rewrite ?queue_ok_eqb, ?queue_full_eqb in H;
              cbn in H; inversion H; subst; cbn; auto.
      - cbn in H. inversion H; subst. cbn. auto. }
    destruct Hend as (Hu & Hn).
    split; [exact Hu|]. split; [destruct Hn as [(Hn & _)|Hn]; auto|].
    split.
    + intros Hres. destruct Hn as [(_ & Hn)|Hn]; [lia | exact Hn].
    + intros Hinv Hmax. rewrite Hu. destruct Hn as [(Hn & _)|Hn]; rewrite Hn; [lia|].
      rewrite u16_small; lia.
  - intros others m packet timeout Hl.
    unfold csp_rdp_send, bind, csp_rdp_wait. rewrite Hl. reflexivity.
Qed.

(** ** The retransmission sweep *)

Lemma run_tx_queue_sweep todo : forall done m,
  items (tx_queue (rdp (conn m))) = todo ++ done ->
  (List.length (todo ++ done) <= capacity (tx_queue (rdp (conn m))))%nat ->
  (List.length todo <= pool m)%nat ->
  if_up m = true ->
  let r := rdp (conn m) in
  exists p,
    (pool m <= p + List.length todo)%nat /\
    tx_queue_sweep (List.length todo) (clock m) m
    = Some (tt, with_tx_items
                  (done ++ flat_map (sweep_keep (snd_una r) (packet_timeout r) (rcv_cur r) (clock m)) todo)
                  (set_trace
                     (trace m ++ flat_map (sweep_events (snd_una r) (packet_timeout r) (rcv_cur r) (clock m)) todo)
                     (set_pool p m))).
Proof.
  induction todo as [|e todo IH]; intros done m Hq Hcap Hpool Hup r.
  - exists (pool m). split; [cbn; lia|]. cbn. rewrite !app_nil_r.
    cbn in Hq. rewrite <- Hq.
    destruct m as [[[] s q t] l p c u d tr]. cbn. destruct tx_queue0. reflexivity.
  - cbn [List.length tx_queue_sweep flat_map].
    cbn [List.length] in Hpool. cbn in Hcap.
    unfold sweep_keep at 1, sweep_events at 1.
    unfold bind at 1. rewrite (run_tx_queue_dequeue m e (todo ++ done)) by exact Hq.
    unfold bind at 1. unfold rdp_get at 1.
    change (rdp (conn (with_tx_items (todo ++ done) m)))
      with (rdp_set_tx_queue {| items := todo ++ done;
                                capacity := capacity (tx_queue (rdp (conn m))) |} r).
    cbn [snd_una packet_timeout rcv_cur rdp_set_tx_queue].
    change (ntohs (seq_nr (csp_rdp_header_ref e)) <? snd_una r)
      with (sweep_acked (snd_una r) e).
    change (u32 (timestamp e + packet_timeout r) <? clock m)
      with (sweep_timed_out (packet_timeout r) (clock m) e).
    destruct (sweep_acked (snd_una r) e) eqn:Eack.
    + (* acknowledged: freed *)
      unfold bind at 1. unfold csp_buffer_free at 1.
      match goal with |- context [tx_queue_sweep _ _ ?m2] => set (m2' := m2) end.
      destruct (IH done m2') as (p & Hp & Hrun).
      * reflexivity.
      * cbn. rewrite length_app in *. lia.
      * cbn. lia.
      * exact Hup.
      * exists p. split; [cbn in Hp; lia|].
        cbn in Hrun. rewrite Hrun. unfold with_tx_items. cbn.
        rewrite <- !app_assoc. reflexivity.
    + destruct (pool m) as [|k] eqn:Epool; [lia|].
      unfold bind at 1.
      destruct (sweep_timed_out (packet_timeout r) (clock m) e) eqn:Eto.
      * (* timed out: sent again *)
        unfold bind at 1. unfold csp_get_ms at 1.
        unfold bind at 1. unfold csp_buffer_get at 1.
        change (pool (with_tx_items (todo ++ done) m)) with (pool m). rewrite Epool.
        unfold bind at 1. unfold csp_send_direct at 1.
        change (if_up (set_pool k (with_tx_items (todo ++ done) m))) with (if_up m).
        rewrite Hup.
        unfold bind at 1. cbn [negb]. unfold ret at 1.
        unfold ret at 1.
        unfold bind at 1. rewrite run_tx_queue_enqueue
          by (cbn; rewrite length_app in *; lia).
        match goal with |- context [tx_queue_sweep _ _ ?m2] => set (m2' := m2) end.
        destruct (IH (done ++ [sweep_resent (rcv_cur r) (clock m) e]) m2')
          as (p & Hp & Hrun).
        -- cbn. rewrite <- app_assoc. reflexivity.
        -- cbn. rewrite !length_app in *. cbn. lia.
        -- cbn. lia.
        -- exact Hup.
        -- exists p. split; [cbn in Hp; lia|].
           cbn in Hrun. rewrite Hrun. unfold with_tx_items. cbn.
           rewrite <- !app_assoc. reflexivity.
      * (* neither: put back *)
        unfold ret at 1. unfold bind at 1. rewrite run_tx_queue_enqueue
          by (cbn; rewrite length_app in *; lia).
        match goal with |- context [tx_queue_sweep _ _ ?m2] => set (m2' := m2) end.
        destruct (IH (done ++ [e]) m2') as (p & Hp & Hrun).
        -- cbn. rewrite <- app_assoc. reflexivity.
        -- cbn. rewrite !length_app in *. cbn. lia.
        -- cbn. lia.
        -- exact Hup.
        -- exists p. split; [cbn in Hp; lia|].
           cbn in Hrun. rewrite Hrun. unfold with_tx_items. cbn.
           rewrite <- !app_assoc. reflexivity.
Qed.

(** [csp_rdp_check_timeouts] closes a connection for a time-out only
    while it waits on its socket or is in CLOSE_WAIT; any other connection
    goes on to the sweep whatever its age. *)
Lemma check_timeouts_goes_on (m : machine) :
  let c := conn m in
  let r := rdp c in
  ((is_listening (rx_socket c) = true \/ state r = RDP_CLOSE_WAIT) ->
   clock m <= u32 (open_timestamp c + conn_timeout r)) ->
  is_listening (rx_socket c) && (u32 (open_timestamp c + conn_timeout r) <? clock m) = false /\
  state_eqb (state r) RDP_CLOSE_WAIT && (u32 (open_timestamp c + conn_timeout r) <? clock m)
  = false.
Proof.
  intros c r H.
  destruct (u32 (open_timestamp c + conn_timeout r) <? clock m) eqn:E;
    [|rewrite !andb_false_r; split; reflexivity].
  apply Z.ltb_lt in E. rewrite !andb_true_r. split.
  - destruct (is_listening (rx_socket c)); [|reflexivity].
    assert (clock m <= u32 (open_timestamp c + conn_timeout r)) by (apply H; left; reflexivity).
    lia.
  - destruct (state r) eqn:Es; try reflexivity.
    assert (clock m <= u32 (open_timestamp c + conn_timeout r)) by (apply H; right; reflexivity).
    lia.
Qed.

(** C6, as the code has it: whenever [csp_rdp_check_timeouts] reaches its
    sweep -- the lock is free and the connection is not closed for a
    connection time-out, which happens only to a connection that still
    waits on its socket or is in CLOSE_WAIT -- the sweep visits every entry
    of the retransmission queue once, in order.  An entry with
    [seq_nr < snd_una] is freed; otherwise, if
    [timestamp + packet_timeout < now] (the age is strictly greater than
    [packet_timeout]), its [ack_nr] becomes [rcv_cur], its time stamp
    [now], a copy is handed to the datagram layer and the entry is put
    back; otherwise it is put back unchanged -- so too an entry whose age
    is exactly [packet_timeout]. *)
Theorem timeout_sweep (m : machine) :
  let c := conn m in
  let r := rdp c in
  let now := clock m in
  let swept := flat_map (sweep_keep (snd_una r) (packet_timeout r) (rcv_cur r) now)
                        (items (tx_queue r)) in
  let events := flat_map (sweep_events (snd_una r) (packet_timeout r) (rcv_cur r) now)
                         (items (tx_queue r)) in
  rdp_lock m = false ->
  ((is_listening (rx_socket c) = true \/ state r = RDP_CLOSE_WAIT) ->
   now <= u32 (open_timestamp c + conn_timeout r)) ->
  if_up m = true ->
  (List.length (items (tx_queue r)) <= capacity (tx_queue r))%nat ->
  (List.length (items (tx_queue r)) < pool m)%nat ->
  (exists m' late,
     csp_rdp_check_timeouts m = Some (tt, m') /\
     items (tx_queue (rdp (conn m'))) = swept /\
     trace m' = trace m ++ events ++ late /\
     (late = [] \/
      late = [Sent (control_packet true false false false (snd_nxt r) (rcv_cur r))])) /\
  (forall e, In e (items (tx_queue r)) ->
     0 <= timestamp e -> 0 <= packet_timeout r -> now < 4294967296 ->
     ntohs (seq_nr (header e)) >= snd_una r ->
     (timestamp e + packet_timeout r = now ->
      sweep_keep (snd_una r) (packet_timeout r) (rcv_cur r) now e = [e] /\
      sweep_events (snd_una r) (packet_timeout r) (rcv_cur r) now e = []) /\
     (timestamp e + packet_timeout r < now ->
      sweep_keep (snd_una r) (packet_timeout r) (rcv_cur r) now e
      = [set_timestamp now (set_header (set_ack_nr (htons (rcv_cur r)) (header e)) e)] /\
      sweep_events (snd_una r) (packet_timeout r) (rcv_cur r) now e
      = [Sent (set_timestamp 0
                 (set_timestamp now
                    (set_header (set_ack_nr (htons (rcv_cur r)) (header e)) e)))])).
Proof.
  intros c r now swept events Hlock Hconn Hup Hcap Hpool.
  split.
  - unfold csp_rdp_check_timeouts.
    unfold bind at 1. unfold csp_get_ms at 1.
    unfold bind at 1. unfold conn_get at 1. fold c r now.
    destruct (check_timeouts_goes_on m Hconn) as (G1 & G2).
    fold c r now in G1, G2. rewrite G1, G2.
    unfold bind at 1. unfold csp_rdp_wait at 1. rewrite Hlock. cbn [negb].
    unfold bind at 1.
    destruct (run_tx_queue_sweep (items (tx_queue r)) [] (set_rdp_lock true m))
      as (p & Hp & Hrun).
    + cbn. rewrite app_nil_r. reflexivity.
    + cbn. rewrite app_nil_r. exact Hcap.
    + cbn. fold c r. lia.
    + exact Hup.
    + cbn [clock set_rdp_lock conn rdp] in Hrun. fold c r now in Hrun.
      rewrite Hrun. clear Hrun. cbn [app].
      cbn [pool set_rdp_lock] in Hp. fold c r in Hp.
      destruct p as [|p']; [lia|]. fold swept events.
      unfold bind at 1. unfold cfg_delay_acks at 1.
      cbn [delay_acks with_tx_items set_conn set_trace set_pool set_rdp_lock].
      unfold bind at 1.
      change (trace (set_rdp_lock true m)) with (trace m).
      set (m1 := with_tx_items swept
                   (set_trace (trace m ++ events) (set_pool (S p') (set_rdp_lock true m)))).
      assert (Hack : exists late m2,
                 (if delay_acks m
                  then r0 <- rdp_get ;;
                       if rcv_lsa r0 <? rcv_cur r0
                       then now0 <- csp_get_ms ;;
                            if u32 (now0 - ack_timestamp r0) >? ack_timeout r0
                            then csp_rdp_send_cmp None true false false false
                                   (snd_nxt r0) (rcv_cur r0) false ;; ret tt
                            else ret tt
                       else ret tt
                  else ret tt) m1 = Some (tt, m2) /\
                 items (tx_queue (rdp (conn m2))) = swept /\
                 trace m2 = trace m ++ events ++ late /\
                 (late = [] \/
                  late = [Sent (control_packet true false false false (snd_nxt r) (rcv_cur r))])).
      { destruct (delay_acks m) eqn:Eda.
        - unfold bind at 1. unfold rdp_get at 1. cbn. fold c r now.
          destruct (rcv_lsa r <? rcv_cur r).
          + unfold bind at 1. cbn. fold c r now.
            destruct (_ >? _).
            * unfold bind at 1.
              erewrite run_send_cmp_control by (cbn; eauto).
              do 2 eexists. split; [reflexivity|].
              ack_noted_cases; rewrite <- ?app_assoc; auto.
            * exists [], m1. rewrite app_nil_r. cbn. auto.
          + exists [], m1. rewrite app_nil_r. cbn. auto.
        - exists [], m1. rewrite app_nil_r. cbn. auto. }
      destruct Hack as (late & m2 & Hrun & Hq & Htr & Hlate).
      cbn beta zeta. rewrite Hrun.
      unfold bind at 1. unfold rdp_get at 1.
      match goal with
      | |- context [if ?b then tx_wait_post else ret tt] =>
          destruct b
      end.
      * exists (set_rdp_lock false
                  (set_conn (set_rdp (rdp_set_tx_wait true (rdp (conn m2))) (conn m2)) m2)), late.
        split; [reflexivity|]. cbn. auto.
      * exists (set_rdp_lock false m2), late.
        split; [reflexivity|]. cbn. auto.
  - intros e _ Hts Hpt Hnow Hseq. unfold sweep_keep, sweep_events.
    replace (sweep_acked (snd_una r) e) with false
      by (symmetry; unfold sweep_acked; apply Z.ltb_ge; lia).
    split.
    + intros Hage.
      replace (sweep_timed_out (packet_timeout r) now e) with false; [auto|].
      symmetry. unfold sweep_timed_out. apply Z.ltb_ge.
      rewrite Hage. rewrite u32_small; lia.
    + intros Hage.
      replace (sweep_timed_out (packet_timeout r) now e) with true; [auto|].
      symmetry. unfold sweep_timed_out. apply Z.ltb_lt.
      rewrite u32_small; lia.
Qed.

(** ** The EACK flush *)

Lemma existsb_map_eq {A B} (f : B -> bool) (g : A -> B) (l : list A) :
  existsb (fun x => f (g x)) l = existsb f (map g l).
Proof. induction l as [|x l IH]; cbn; [reflexivity | rewrite IH; reflexivity]. Qed.

Lemma flush_eack_look_fold eack now pt e0 js : forall b g : bool,
  fold_left (flush_eack_look eack now pt) js
            (b, if g then set_timestamp (u32 (now - pt)) e0 else e0)
  = (b || existsb (fun j => ntohs (data16_get eack j) =? ntohs (seq_nr (header e0))) js,
     if g || existsb (fun j => ntohs (data16_get eack j) >? ntohs (seq_nr (header e0))) js
     then set_timestamp (u32 (now - pt)) e0 else e0).
Proof.
  induction js as [|j js IH]; intros b g.
  - cbn. rewrite !orb_false_r. reflexivity.
  - cbn [fold_left existsb].
    assert (Hh : header (if g then set_timestamp (u32 (now - pt)) e0 else e0) = header e0)
      by (destruct g; reflexivity).
    unfold flush_eack_look at 2. unfold csp_rdp_header_ref. rewrite Hh.
    set (eq := ntohs (data16_get eack j) =? ntohs (seq_nr (header e0))).
    set (gt := ntohs (data16_get eack j) >? ntohs (seq_nr (header e0))).
    replace (if gt then set_timestamp (u32 (now - pt))
                          (if g then set_timestamp (u32 (now - pt)) e0 else e0)
             else if g then set_timestamp (u32 (now - pt)) e0 else e0)
      with (if g || gt then set_timestamp (u32 (now - pt)) e0 else e0)
      by (destruct g, gt; reflexivity).
    replace (if eq then true else b) with (b || eq) by (destruct b, eq; reflexivity).
    rewrite IH. rewrite !orb_assoc. reflexivity.
Qed.

Lemma flush_eack_look_result eack now pt e :
  fold_left (flush_eack_look eack now pt) (seq 0 (eack_count eack)) (false, e)
  = (eack_lists (eack_seq_nrs eack) e, eack_forced (eack_seq_nrs eack) (u32 (now - pt)) e).
Proof.
  rewrite (flush_eack_look_fold eack now pt e _ false false).
  unfold eack_lists, eack_forced, eack_passes, eack_seq_nrs. cbn [orb].
  rewrite <- !existsb_map_eq. reflexivity.
Qed.

Lemma run_flush_eack_loop eack todo : forall done m,
  items (tx_queue (rdp (conn m))) = todo ++ done ->
  (List.length (todo ++ done) <= capacity (tx_queue (rdp (conn m))))%nat ->
  let acked := eack_seq_nrs eack in
  let stamp := u32 (clock m - packet_timeout (rdp (conn m))) in
  exists p,
    flush_eack_loop (List.length todo) eack m
    = Some (tt, with_tx_items (done ++ flat_map (eack_keep acked stamp) todo)
                  (set_trace (trace m ++ flat_map (eack_events acked stamp) todo)
                             (set_pool p m))).
Proof.
  induction todo as [|e todo IH]; intros done m Hq Hcap acked stamp.
  - exists (pool m). cbn. rewrite !app_nil_r. cbn in Hq. rewrite <- Hq.
    destruct m as [[[] s q t] l p c u d tr]. cbn. destruct tx_queue0. reflexivity.
  - cbn [List.length flush_eack_loop flat_map]. cbn in Hcap.
    unfold eack_keep at 1, eack_events at 1.
    unfold bind at 1. rewrite (run_tx_queue_dequeue m e (todo ++ done)) by exact Hq.
    unfold bind at 1. cbn [csp_get_ms]. unfold bind at 1. cbn [rdp_get].
    change (clock (with_tx_items (todo ++ done) m)) with (clock m).
    change (packet_timeout (rdp (conn (with_tx_items (todo ++ done) m))))
      with (packet_timeout (rdp (conn m))).
    rewrite flush_eack_look_result. fold acked stamp.
    destruct (eack_lists acked e) eqn:El; cbn [negb].
    + unfold bind at 1. unfold csp_buffer_free at 1.
      match goal with |- context [flush_eack_loop _ _ ?m2] => set (m2' := m2) end.
      destruct (IH done m2') as (p & Hrun).
      * reflexivity.
      * cbn. rewrite length_app in *. lia.
      * exists p. cbn in Hrun. fold acked stamp in Hrun. rewrite Hrun.
        unfold with_tx_items. cbn. rewrite <- !app_assoc. reflexivity.
    + unfold bind at 1. unfold bind at 1.
      rewrite run_tx_queue_enqueue by (cbn; rewrite length_app in *; lia).
      unfold ret at 1.
      match goal with |- context [flush_eack_loop _ _ ?m2] => set (m2' := m2) end.
      destruct (IH (done ++ [eack_forced acked stamp e]) m2') as (p & Hrun).
      * cbn. rewrite <- app_assoc. reflexivity.
      * cbn. rewrite !length_app in *. cbn. lia.
      * exists p. cbn in Hrun. fold acked stamp in Hrun. rewrite Hrun.
        unfold with_tx_items. cbn. rewrite <- !app_assoc. reflexivity.
Qed.

Lemma eack_keep_filter acked stamp l :
  flat_map (eack_keep acked stamp) l
  = map (eack_forced acked stamp) (filter (fun e => negb (eack_lists acked e)) l).
Proof.
  induction l as [|e l IH]; [reflexivity|].
  cbn. unfold eack_keep at 1. destruct (eack_lists acked e); cbn; rewrite IH; reflexivity.
Qed.


Lemma eack_lists_In acked e :
  eack_lists acked e = true <-> In (ntohs (seq_nr (header e))) acked.
Proof.
  unfold eack_lists. rewrite existsb_exists. split.
  - intros (w & Hw & E). apply Z.eqb_eq in E. subst w. exact Hw.
  - intros H. exists (ntohs (seq_nr (header e))). split; [exact H | apply Z.eqb_refl].
Qed.


Lemma eack_forced_header acked stamp e : header (eack_forced acked stamp e) = header e.
Proof. unfold eack_forced. destruct (eack_passes acked e); reflexivity. Qed.


(** ** The fuel of the reassembly drain *)

Lemma rx_len_receive_data p m res m' :
  csp_rdp_receive_data p m = Some (res, m') -> rx_len m' = rx_len m.
Proof.
  intros H. assert (K : rkeeps (fun r => List.length (items (rx_queue r)))
                               (csp_rdp_receive_data p)).
  { unfold csp_rdp_receive_data, conn_rx_enqueue. rkeeps_auto. }
  exact (K _ _ _ H).
Qed.

Lemma rx_len_enqueue p m res m' :
  rx_queue_enqueue p m = Some (res, m') -> (rx_len m' <= S (rx_len m))%nat.
Proof.
  unfold rx_queue_enqueue, bind, csp_queue_enqueue, rx_len. cbn.
  destruct (_ <? _)%nat; intros H; inversion H; cbn; rewrite ?length_app; cbn; lia.
Qed.

Lemma rx_queue_flush_pass_len n : forall m again m',
  rx_queue_flush_pass n m = Some (again, m') ->
  (rx_len m' <= rx_len m)%nat /\ (again = true -> (rx_len m' < rx_len m)%nat).
Proof.
  induction n as [|n IH]; intros m again m' H.
  - inversion H. split; [lia | discriminate].
  - cbn [rx_queue_flush_pass] in H.
    apply bind_inv in H. destruct H as (d & m1 & Hd & H).
    unfold rx_queue_dequeue, bind, csp_queue_dequeue in Hd. cbn in Hd.
    destruct (items (rx_queue (rdp (conn m)))) as [|x rest] eqn:Eq.
    + inversion Hd; subst d m1. inversion H. split; [lia | discriminate].
    + inversion Hd; subst d m1. clear Hd.
      assert (Hlen : rx_len m = S (List.length rest)) by (unfold rx_len; rewrite Eq; reflexivity).
      apply bind_inv in H. destruct H as (r1 & m2 & Hr & H).
      inversion Hr; subst r1 m2. clear Hr.
      destruct (_ =? _).
      * apply bind_inv in H. destruct H as (res & m3 & Hrecv & H).
        apply rx_len_receive_data in Hrecv.
        apply bind_inv in H. destruct H as (u & m4 & Hupd & H).
        inversion Hupd; subst m4. inversion H; subst again m'.
        unfold rx_len in *. cbn in *. rewrite Hlen. split; [lia | intros _; lia].
      * apply bind_inv in H. destruct H as (res & m3 & Henq & H).
        apply rx_len_enqueue in Henq. apply IH in H.
        unfold rx_len in *. cbn in *. rewrite Hlen. split; [lia | intros E; apply H in E; lia].
Qed.

(** More fuel than the size of the queue changes nothing. *)
Lemma rx_queue_flush_fuel fuel1 : forall fuel2 m,
  (rx_len m <= fuel1)%nat -> (rx_len m <= fuel2)%nat ->
  rx_queue_flush_from fuel1 m = rx_queue_flush_from fuel2 m.
Proof.
  induction fuel1 as [|f1 IH]; intros [|f2] m H1 H2; try reflexivity.
  - cbn. unfold bind. cbn. fold (rx_len m).
    assert (E : rx_len m = 0%nat) by lia. rewrite E. reflexivity.
  - cbn. unfold bind. cbn. fold (rx_len m).
    assert (E : rx_len m = 0%nat) by lia. rewrite E. reflexivity.
  - cbn [rx_queue_flush_from]. unfold bind. cbn [rdp_get]. fold (rx_len m).
    destruct (rx_queue_flush_pass (rx_len m) m) as [[again m']|] eqn:Ep; [|reflexivity].
    destruct again; [|reflexivity].
    apply rx_queue_flush_pass_len in Ep. destruct Ep as (_ & Hlt).
    specialize (Hlt eq_refl). apply IH; lia.
Qed.

(** ** Scenarios *)

(** C5 fails on the code: the drain of the reassembly queue ignores the
    result of [csp_rdp_receive_data].  With [rcv_cur = 2010] and one free
    slot on the application receive queue, segment 2012 arrives and is
    held; segment 2011 arrives, is delivered and fills the queue; the
    drain then counts 2012 as delivered although the queue refused it.
    Once the application has read 2011, segment 2013 is delivered next:
    the application sees 2011, 2013. *)
Theorem rx_queue_flush_drops_segment :
  exists m1 m2 m3,
    csp_rdp_new_packet (segment 2012) slow_reader = Some (tt, m1) /\
    csp_rdp_new_packet (segment 2011) m1 = Some (tt, m2) /\
    delivered m2 = [Some 2011] /\
    rcv_cur (rdp (conn m2)) = 2012 /\
    items (rx_queue (rdp (conn m2))) = [] /\
    csp_rdp_new_packet (segment 2013) (app_read m2) = Some (tt, m3) /\
    delivered m3 = [Some 2013].
Proof.
  do 3 eexists.
  split; [vm_compute; reflexivity|].
  split; [vm_compute; reflexivity|].
  split; [vm_compute; reflexivity|].
  split; [vm_compute; reflexivity|].
  split; [vm_compute; reflexivity|].
  split; vm_compute; reflexivity.
Qed.

(** C9 fails on the code: [csp_rdp_send] increments [snd_nxt] before it
    allocates the retransmission copy and does not take the increment
    back when the allocation fails or the retransmission queue is full;
    after an allocation failure the lock is still held as well. *)
Theorem csp_rdp_send_failure_keeps_increment :
  (exists p m',
     csp_rdp_send (fun m => m) user_packet 0 (set_pool 0 (sample_machine RDP_OPEN))
     = Some ((0, p), m') /\
     snd_nxt (rdp (conn (sample_machine RDP_OPEN))) = 1010 /\
     snd_nxt (rdp (conn m')) = 1011 /\
     items (tx_queue (rdp (conn m'))) = [] /\
     rdp_lock m' = true) /\
  (exists p m',
     csp_rdp_send (fun m => m) user_packet 0 full_tx_queue = Some ((0, p), m') /\
     snd_nxt (rdp (conn full_tx_queue)) = 1010 /\
     snd_nxt (rdp (conn m')) = 1011 /\
     items (tx_queue (rdp (conn m'))) = items (tx_queue (rdp (conn full_tx_queue)))).
Proof.
  split.
  - do 2 eexists. split; [vm_compute; reflexivity|].
    split; [reflexivity|]. split; [vm_compute; reflexivity|].
    split; vm_compute; reflexivity.
  - do 2 eexists. split; [vm_compute; reflexivity|].
    split; [reflexivity|]. split; vm_compute; reflexivity.
Qed.

(** ** The claims that fail as they are stated *)

(** C2 as stated fails: an acknowledgement number that is too high leaves
    the connection in OPEN. *)
Lemma ack_nr_out_of_range_counterexample :
  exists m',
    csp_rdp_new_packet (wire_packet false true false false 2011 1010 [])
                       (sample_machine RDP_OPEN) = Some (tt, m') /\
    ~ (snd_una (sample_rdp RDP_OPEN) - 1 - 2 * window_size (sample_rdp RDP_OPEN)
       <= 1010 < snd_nxt (sample_rdp RDP_OPEN)) /\
    state (rdp (conn m')) = RDP_OPEN.
Proof.
  eexists. split; [vm_compute; reflexivity|].
  split; [cbn; lia | vm_compute; reflexivity].
Qed.


(** C10 as stated fails: with [snd_una = 5] and a window of 10 the lower
    bound wraps, so that the acknowledgement number 4, which lies in
    [snd_una - 1 - 2 * window_size <= ack_nr < snd_nxt], is out of the
    window of the code: the packet is freed, no RST|ACK is sent and
    [snd_una] stays 5. *)
Lemma close_wait_ack_window_counterexample :
  exists m',
    csp_rdp_new_packet (wire_packet false true false false 2011 4 []) low_close_wait
    = Some (tt, m') /\
    snd_una (rdp (conn low_close_wait)) - 1 - 2 * window_size (rdp (conn low_close_wait))
    <= 4 < snd_nxt (rdp (conn low_close_wait)) /\
    snd_una (rdp (conn m')) = 5 /\
    conn m' = conn low_close_wait /\
    trace m' = [Freed (rx_host_order (wire_packet false true false false 2011 4 []))].
Proof.
  eexists. split; [vm_compute; reflexivity|].
  split; [cbn; lia|]. split; [vm_compute; reflexivity|].
  split; vm_compute; reflexivity.
Qed.

(** C3 as stated fails.  A late segment that acknowledges 1000 while
    [snd_una = snd_nxt = 1015] is inside the acknowledgement window and
    sets [snd_una] back to 1001; and a sender that waited for window space
    is woken by the timeout engine as soon as the retransmission queue is
    short and [snd_nxt < snd_una + 2 * window_size], and sends without
    looking at the window again.  A reset out of sequence that carries
    the ack flag sets [snd_una] to 5001, above [snd_nxt], and leaves the
    connection OPEN; and the send that uses sequence number 65535 wraps
    [snd_nxt] to 0, below [snd_una]. *)
Lemma send_window_counterexample :
  (exists m',
     csp_rdp_new_packet (wire_packet false true false false 2011 1000 []) caught_up
     = Some (tt, m') /\
     snd_una (rdp (conn caught_up)) <= snd_nxt (rdp (conn caught_up)) /\
     snd_nxt (rdp (conn caught_up)) - snd_una (rdp (conn caught_up))
     <= window_size (rdp (conn caught_up)) /\
     state (rdp (conn m')) = RDP_OPEN /\
     ~ (snd_nxt (rdp (conn m')) - snd_una (rdp (conn m'))
        <= window_size (rdp (conn m')))) /\
  (exists p m',
     csp_rdp_send tick user_packet 100 window_full = Some ((1, p), m') /\
     snd_una (rdp (conn window_full)) <= snd_nxt (rdp (conn window_full)) /\
     snd_nxt (rdp (conn window_full)) - snd_una (rdp (conn window_full))
     <= window_size (rdp (conn window_full)) /\
     state (rdp (conn m')) = RDP_OPEN /\
     ~ (snd_nxt (rdp (conn m')) - snd_una (rdp (conn m'))
        <= window_size (rdp (conn m')))) /\
  (exists m',
     csp_rdp_new_packet (wire_packet false true false true 2500 5000 [])
                        (sample_machine RDP_OPEN) = Some (tt, m') /\
     snd_una (sample_rdp RDP_OPEN) <= snd_nxt (sample_rdp RDP_OPEN) /\
     state (rdp (conn m')) = RDP_OPEN /\
     snd_una (rdp (conn m')) = 5001 /\
     ~ (snd_una (rdp (conn m')) <= snd_nxt (rdp (conn m')))) /\
  (exists p m',
     csp_rdp_send (fun m => m) user_packet 100 last_seq_nr = Some ((1, p), m') /\
     snd_una (rdp (conn last_seq_nr)) <= snd_nxt (rdp (conn last_seq_nr)) /\
     snd_nxt (rdp (conn last_seq_nr)) - snd_una (rdp (conn last_seq_nr)) + 1
     < window_size (rdp (conn last_seq_nr)) /\
     state (rdp (conn m')) = RDP_OPEN /\
     snd_nxt (rdp (conn m')) = 0 /\
     ~ (snd_una (rdp (conn m')) <= snd_nxt (rdp (conn m')))).
Proof.
  split; [|split; [|split]].
  - eexists. split; [vm_compute; reflexivity|].
    split; [cbn; lia|]. split; [cbn; lia|].
    split; [vm_compute; reflexivity|]. vm_compute. intros H. apply H. reflexivity.
  - do 2 eexists. split; [vm_compute; reflexivity|].
    split; [cbn; lia|]. split; [cbn; lia|].
    split; [vm_compute; reflexivity|]. vm_compute. intros H. apply H. reflexivity.
  - eexists. split; [vm_compute; reflexivity|].
    split; [cbn; lia|]. split; [vm_compute; reflexivity|].
    split; [vm_compute; reflexivity|]. vm_compute. intros H. apply H. reflexivity.
  - do 2 eexists. split; [vm_compute; reflexivity|].
    split; [cbn; lia|]. split; [cbn; lia|].
    split; [vm_compute; reflexivity|]. split; [vm_compute; reflexivity|].
    vm_compute. intros H. apply H. reflexivity.
Qed.

(** C4 as stated fails: an in-window acknowledgement with an old number,
    and a reset with the ack flag, both lower [snd_una]. *)
Lemma snd_una_counterexample :
  (exists m',
     csp_rdp_new_packet (wire_packet false true false false 2011 1000 [])
                        (sample_machine RDP_OPEN) = Some (tt, m') /\
     snd_una (rdp (conn m')) < snd_una (rdp (conn (sample_machine RDP_OPEN)))) /\
  (exists m',
     csp_rdp_new_packet (wire_packet false true false true 2500 5 [])
                        (sample_machine RDP_OPEN) = Some (tt, m') /\
     snd_una (rdp (conn m')) < snd_una (rdp (conn (sample_machine RDP_OPEN)))).
Proof.
  split; eexists; (split; [vm_compute; reflexivity | vm_compute; reflexivity]).
Qed.

(** C6 as stated fails: an entry whose age equals [packet_timeout] is put
    back unchanged and nothing is sent. *)
Lemma timeout_sweep_counterexample :
  exists m',
    csp_rdp_check_timeouts aged_machine = Some (tt, m') /\
    clock aged_machine - timestamp aged_entry = packet_timeout (rdp (conn aged_machine)) /\
    ntohs (seq_nr (header aged_entry)) >= snd_una (rdp (conn aged_machine)) /\
    items (tx_queue (rdp (conn m'))) = [aged_entry] /\
    trace m' = [].
Proof.
  eexists. split; [vm_compute; reflexivity|].
  split; [vm_compute; reflexivity|].
  split; [vm_compute; discriminate|].
  split; vm_compute; reflexivity.
Qed.

(** C8 as stated fails: a reset out of sequence that reaches a CLOSED
    connection leaves it in LISTEN. *)
Lemma reset_received_counterexample :
  exists m',
    csp_rdp_new_packet (wire_packet false false false true 7 0 []) fresh_machine
    = Some (tt, m') /\
    state (rdp (conn fresh_machine)) <> RDP_CLOSE_WAIT /\
    7 <> rcv_cur (rdp (conn fresh_machine)) + 1 /\
    state (rdp (conn m')) <> state (rdp (conn fresh_machine)).
Proof.
  eexists. split; [vm_compute; reflexivity|].
  split; [cbn; discriminate|]. split; [cbn; lia|]. vm_compute. discriminate.
Qed.

(** ** The theorems at sample inputs *)


Lemma ack_nr_out_of_range_witness :
  exists m',
    csp_rdp_new_packet (wire_packet false true false false 2011 1010 [])
                       (sample_machine RDP_OPEN) = Some (tt, m') /\
    rdp (conn m') = sample_rdp RDP_OPEN.
Proof.
  destruct (ack_nr_out_of_range (sample_machine RDP_OPEN)
              (wire_packet false true false false 2011 1010 []))
    as (m' & Hrun & _ & Hrdp & _).
  - reflexivity.
  - right. reflexivity.
  - reflexivity.
  - reflexivity.
  - reflexivity.
  - unfold rdp_in_range. cbn. lia.
  - vm_compute. split; [reflexivity | discriminate].
  - vm_compute. intros [_ H]. discriminate H.
  - exists m'. split; [exact Hrun | exact Hrdp].
Defined.

Lemma send_window_steps_witness :
  exists res m',
    csp_rdp_send (fun m => m) user_packet 0 (sample_machine RDP_OPEN) = Some (res, m') /\
    snd_nxt (rdp (conn m')) = 1011.
Proof.
  destruct send_window_steps as (_ & _ & H & _).
  destruct (H (fun m => m) (sample_machine RDP_OPEN) user_packet 0)
    as (res & m' & Hrun & _ & _ & Hn & _).
  - reflexivity.
  - reflexivity.
  - unfold rdp_in_range. cbn. lia.
  - cbn. lia.
  - cbn. lia.
  - cbn. lia.
  - exists res, m'. split; [exact Hrun | exact Hn].
Defined.

Lemma snd_una_after_new_packet_witness :
  exists m',
    csp_rdp_new_packet (segment 2011) (sample_machine RDP_OPEN) = Some (tt, m') /\
    snd_una (rdp (conn (sample_machine RDP_OPEN))) <= snd_una (rdp (conn m')).
Proof.
  destruct (csp_rdp_new_packet (segment 2011) (sample_machine RDP_OPEN))
    as [[[] m']|] eqn:E.
  - exists m'. split; [reflexivity|].
    destruct (snd_una_after_new_packet (sample_machine RDP_OPEN) (segment 2011) m')
      as (_ & H).
    + cbn. discriminate.
    + exact E.
    + apply H.
      * vm_compute. intros H'. discriminate H'.
      * vm_compute. reflexivity.
  - vm_compute in E. discriminate E.
Defined.

Lemma timeout_sweep_witness :
  exists m',
    csp_rdp_check_timeouts old_machine = Some (tt, m') /\
    items (tx_queue (rdp (conn m'))) = [sweep_resent 2010 20000 aged_entry].
Proof.
  destruct (timeout_sweep old_machine) as ((m' & late & Hrun & Hq & _) & _).
  - reflexivity.
  - intros [H|H]; discriminate H.
  - reflexivity.
  - cbn. lia.
  - cbn. lia.
  - exists m'. split; [exact Hrun | exact Hq].
Defined.


Lemma reset_received_witness :
  exists m',
    csp_rdp_new_packet (wire_packet false false false true 2011 0 [])
                       (sample_machine RDP_OPEN) = Some (tt, m') /\
    state (rdp (conn m')) = RDP_CLOSE_WAIT.
Proof.
  destruct (reset_received_not_close_wait (sample_machine RDP_OPEN)
              (wire_packet false false false true 2011 0 []))
    as (_ & _ & H & _).
  - reflexivity.
  - reflexivity.
  - cbn. discriminate.
  - unfold rdp_in_range. cbn. lia.
  - destruct H as (m' & reply & Hrun & _ & Hst & _).
    + vm_compute. reflexivity.
    + cbn. lia.
    + reflexivity.
    + exists m'. split; [exact Hrun | exact Hst].
Defined.

(** * Further properties *)

(** ** The reassembly queue *)

Lemma with_rx_items_twice l l' m :
  with_rx_items l (with_rx_items l' m) = with_rx_items l m.
Proof. reflexivity. Qed.

Lemma with_rx_items_items l m :
  items (rx_queue (rdp (conn (with_rx_items l m)))) = l.
Proof. reflexivity. Qed.

Lemma with_rx_items_capacity l m :
  capacity (rx_queue (rdp (conn (with_rx_items l m)))) = capacity (rx_queue (rdp (conn m))).
Proof. reflexivity. Qed.

Lemma run_rx_queue_enqueue_full m x :
  (capacity (rx_queue (rdp (conn m))) <= List.length (items (rx_queue (rdp (conn m)))))%nat ->
  rx_queue_enqueue x m = Some (CSP_QUEUE_FULL, m).
Proof.
  intros Hc. unfold rx_queue_enqueue, bind, csp_queue_enqueue. cbn [rdp_get].
  apply Nat.ltb_ge in Hc. rewrite Hc.
  destruct m as [[[] s q t] l p c u d tr]. reflexivity.
Qed.

Lemma run_rx_queue_exists_loop s todo : forall done m,
  items (rx_queue (rdp (conn m))) = todo ++ done ->
  (List.length (todo ++ done) <= capacity (rx_queue (rdp (conn m))))%nat ->
  (Forall (fun p => seq_of p <> s) todo /\
   rx_queue_exists_loop (List.length todo) s m = Some (0, with_rx_items (done ++ todo) m))
  \/
  (exists a x b,
     todo = a ++ x :: b /\ Forall (fun p => seq_of p <> s) a /\ seq_of x = s /\
     rx_queue_exists_loop (List.length todo) s m
     = Some (1, with_rx_items (b ++ done ++ a ++ [x]) m)).
Proof.
  induction todo as [|y todo IH]; intros done m Hq Hcap.
  - left. split; [constructor|]. cbn. rewrite app_nil_r. cbn in Hq. rewrite <- Hq.
    rewrite with_rx_items_same. reflexivity.
  - cbn [List.length app] in Hcap |- *.
    assert (Hstep : rx_queue_exists_loop (S (List.length todo)) s m
                    = if seq_of y =? s
                      then Some (1, with_rx_items ((todo ++ done) ++ [y]) m)
                      else rx_queue_exists_loop (List.length todo) s
                             (with_rx_items ((todo ++ done) ++ [y]) m)).
    { cbn [rx_queue_exists_loop].
      unfold bind at 1. rewrite (run_rx_queue_dequeue m y (todo ++ done)) by exact Hq.
      unfold bind at 1.
      rewrite run_rx_queue_enqueue
        by (rewrite with_rx_items_items, with_rx_items_capacity; lia).
      rewrite with_rx_items_items, with_rx_items_twice.
      unfold csp_rdp_header_ref, seq_of. destruct (seq_nr (header y) =? s); reflexivity. }
    rewrite Hstep. clear Hstep.
    destruct (seq_of y =? s) eqn:E.
    + right. exists [], y, todo. apply Z.eqb_eq in E.
      split; [reflexivity|]. split; [constructor|]. split; [exact E|].
      cbn [app]. rewrite <- !app_assoc. reflexivity.
    + apply Z.eqb_neq in E.
      destruct (IH (done ++ [y]) (with_rx_items ((todo ++ done) ++ [y]) m))
        as [(Hall & Hrun)|(a & x & b & Ht & Ha & Hx & Hrun)].
      * rewrite with_rx_items_items, <- app_assoc. reflexivity.
      * rewrite with_rx_items_capacity. rewrite !length_app in *. cbn [List.length] in *. lia.
      * left. split; [constructor; assumption|].
        rewrite Hrun, with_rx_items_twice, <- !app_assoc. reflexivity.
      * right. exists (y :: a), x, b. subst todo.
        split; [reflexivity|]. split; [constructor; assumption|]. split; [exact Hx|].
        rewrite Hrun, with_rx_items_twice, <- !app_assoc. reflexivity.
Qed.

Lemma run_csp_rdp_rx_queue_exists (m : machine) (s : Z) :
  let q := rx_queue (rdp (conn m)) in
  (List.length (items q) <= capacity q)%nat ->
  exists res front back,
    items q = front ++ back /\
    csp_rdp_rx_queue_exists s m = Some (res, with_rx_items (back ++ front) m) /\
    (res = 1 <-> In s (map seq_of (items q))) /\
    (res = 0 <-> ~ In s (map seq_of (items q))) /\
    (res = 0 -> back = []).
Proof.
  intros q Hcap. unfold csp_rdp_rx_queue_exists, bind. cbn [rdp_get]. fold q.
  destruct (run_rx_queue_exists_loop s (items q) [] m)
    as [(Hall & Hrun)|(a & x & b & Ht & Ha & Hx & Hrun)].
  - rewrite app_nil_r. reflexivity.
  - rewrite app_nil_r. exact Hcap.
  - assert (Hnot : ~ In s (map seq_of (items q))).
    { intros Hin. apply in_map_iff in Hin. destruct Hin as (p & Hp & Hin).
      rewrite Forall_forall in Hall. exact (Hall p Hin Hp). }
    exists 0, (items q), []. rewrite app_nil_r. cbn [app] in *.
    split; [reflexivity|]. split; [exact Hrun|].
    split; [split; [discriminate | contradiction]|].
    split; [split; auto|reflexivity].
  - assert (Hin : In s (map seq_of (items q))).
    { rewrite Ht. apply in_map_iff. exists x. split; [exact Hx|].
      apply in_or_app. right. left. reflexivity. }
    exists 1, (a ++ [x]), b. cbn [app] in Hrun.
    split; [rewrite Ht, <- app_assoc; reflexivity|]. split; [exact Hrun|].
    split; [split; auto|].
    split; [split; [discriminate | contradiction] | discriminate].
Qed.

(** X1: [csp_rdp_rx_queue_exists] answers 1 exactly when the reassembly
    queue holds a segment with that sequence number; the queue holds the
    same segments afterwards, rotated, and is untouched when the answer
    is 0. *)
Theorem rx_queue_exists_spec (m : machine) (s : Z) :
  let q := rx_queue (rdp (conn m)) in
  (List.length (items q) <= capacity q)%nat ->
  exists res front back,
    items q = front ++ back /\
    csp_rdp_rx_queue_exists s m = Some (res, with_rx_items (back ++ front) m) /\
    (res = 1 <-> In s (map seq_of (items q))) /\
    (res = 0 <-> ~ In s (map seq_of (items q))) /\
    (res = 0 -> back = []).
Proof. exact (run_csp_rdp_rx_queue_exists m s). Qed.

Lemma run_csp_rdp_rx_queue_add (m : machine) (packet : csp_packet_t) :
  let q := rx_queue (rdp (conn m)) in
  (List.length (items q) <= capacity q)%nat ->
  exists res l',
    csp_rdp_rx_queue_add packet (seq_of packet) m = Some (res, with_rx_items l' m) /\
    (In (seq_of packet) (map seq_of (items q)) ->
     res = 0 /\ Permutation l' (items q)) /\
    (~ In (seq_of packet) (map seq_of (items q)) ->
     (List.length (items q) < capacity q)%nat ->
     res = CSP_QUEUE_OK /\ l' = items q ++ [packet]) /\
    (~ In (seq_of packet) (map seq_of (items q)) ->
     (capacity q <= List.length (items q))%nat ->
     res = CSP_QUEUE_FULL /\ l' = items q).
Proof.
  intros q Hcap.
  destruct (run_csp_rdp_rx_queue_exists m (seq_of packet) Hcap)
    as (res & front & back & Hq & Hrun & H1 & H0 & Hb).
  fold q in Hq, H1, H0.
  unfold csp_rdp_rx_queue_add, bind. rewrite Hrun.
  assert (Hperm : Permutation (back ++ front) (items q))
    by (rewrite Hq; apply Permutation_app_comm).
  destruct (in_dec Z.eq_dec (seq_of packet) (map seq_of (items q))) as [Hin|Hnot].
  - assert (res = 1) by (apply H1; exact Hin). subst res.
    change (negb (1 =? 0)) with true. cbn iota.
    exists 0, (back ++ front).
    split; [reflexivity|].
    split; [auto|]. split; intros; contradiction.
  - assert (res = 0) by (apply H0; exact Hnot). subst res.
    change (negb (0 =? 0)) with false. cbn iota.
    specialize (Hb eq_refl). subst back. cbn [app] in *. rewrite app_nil_r in Hq.
    replace (with_rx_items front m) with m
      by (rewrite <- Hq; unfold q; rewrite with_rx_items_same; reflexivity).
    destruct (List.length (items q) <? capacity q)%nat eqn:Eroom.
    + apply Nat.ltb_lt in Eroom.
      exists CSP_QUEUE_OK, (items q ++ [packet]).
      split; [apply run_rx_queue_enqueue; exact Eroom|].
      split; [intros; contradiction|]. split; [auto|].
      intros _ Hfull. lia.
    + apply Nat.ltb_ge in Eroom.
      exists CSP_QUEUE_FULL, (items q).
      split.
      { unfold q. rewrite with_rx_items_same.
        apply run_rx_queue_enqueue_full. exact Eroom. }
      split; [intros; contradiction|].
      split; [intros _ Hlt; lia | auto].
Qed.

(** X2: [csp_rdp_rx_queue_add] keeps the sequence numbers of the
    reassembly queue distinct.  A segment whose number is already held is
    refused (result 0) and the queue keeps its segments; a new one is put
    at the end when there is room; without room the queue is unchanged and
    the result is [CSP_QUEUE_FULL]. *)
Theorem rx_queue_add_distinct (m : machine) (packet : csp_packet_t) :
  let q := rx_queue (rdp (conn m)) in
  (List.length (items q) <= capacity q)%nat ->
  NoDup (map seq_of (items q)) ->
  exists res l',
    csp_rdp_rx_queue_add packet (seq_of packet) m = Some (res, with_rx_items l' m) /\
    NoDup (map seq_of l') /\
    (List.length l' <= capacity q)%nat /\
    (In (seq_of packet) (map seq_of (items q)) ->
     res = 0 /\ Permutation l' (items q)) /\
    (~ In (seq_of packet) (map seq_of (items q)) ->
     (List.length (items q) < capacity q)%nat ->
     res = CSP_QUEUE_OK /\ l' = items q ++ [packet]) /\
    (~ In (seq_of packet) (map seq_of (items q)) ->
     List.length (items q) = capacity q ->
     res = CSP_QUEUE_FULL /\ l' = items q).
Proof.
  intros q Hcap Hnd.
  destruct (run_csp_rdp_rx_queue_add m packet Hcap) as (res & l' & Hrun & Hin & Hnew & Hfull).
  fold q in Hin, Hnew, Hfull.
  exists res, l'. split; [exact Hrun|].
  destruct (in_dec Z.eq_dec (seq_of packet) (map seq_of (items q))) as [Hi|Hn].
  - destruct (Hin Hi) as (Hres & Hperm).
    split; [apply (Permutation_NoDup (l := map seq_of (items q)));
            [apply Permutation_map; symmetry; exact Hperm | exact Hnd]|].
    split; [rewrite (Permutation_length Hperm); exact Hcap|].
    split; [auto|]. split; intros; contradiction.
  - destruct (Nat.lt_ge_cases (List.length (items q)) (capacity q)) as [Hlt|Hge].
    + destruct (Hnew Hn Hlt) as (Hres & Hl). subst l'.
      split.
      { rewrite map_app. cbn.
        apply (Permutation_NoDup (l := seq_of packet :: map seq_of (items q))).
        - apply Permutation_cons_append.
        - constructor; assumption. }
      split; [rewrite length_app; cbn; lia|].
      split; [intros; contradiction|]. split; [auto|].
      intros _ Hfull'. lia.
    + destruct (Hfull Hn Hge) as (Hres & Hl). subst l'.
      split; [exact Hnd|]. split; [exact Hcap|].
      split; [intros; contradiction|].
      split; [intros _ Hlt; lia | auto].
Qed.

(** ** Draining the reassembly queue *)

Lemma receive_data_total p m :
  exists res m1, csp_rdp_receive_data p m = Some (res, m1) /\
    rdp (conn m1) = rdp (conn m) /\
    capacity (conn_rx_queue (conn m1)) = capacity (conn_rx_queue (conn m)) /\
    rdp_lock m1 = rdp_lock m /\ trace m1 = trace m /\ pool m1 = pool m /\
    exists more, items (conn_rx_queue (conn m1)) = items (conn_rx_queue (conn m)) ++ more.
Proof.
  unfold csp_rdp_receive_data, conn_rx_enqueue, bind, csp_queue_enqueue. cbn [conn_get].
  assert (Hsame : forall l : list (option csp_packet_t), exists more, l = l ++ more)
    by (intros l; exists []; rewrite app_nil_r; reflexivity).
  destruct (rx_socket (conn m)) as [| |pending backlog]; cbn.
  1,2: destruct (_ <? _)%nat; cbn; destruct (_ =? _); cbn;
    do 2 eexists; (split; [reflexivity|]); do 5 (split; [reflexivity|]); cbn; eauto.
  destruct (pending <? backlog)%nat; cbn;
    [|do 2 eexists; (split; [reflexivity|]); do 5 (split; [reflexivity|]); cbn; eauto].
  destruct (_ <? _)%nat; cbn; destruct (_ =? _); cbn;
    do 2 eexists; (split; [reflexivity|]); do 5 (split; [reflexivity|]); cbn; eauto.
Qed.

Lemma run_receive_data p m :
  is_listening (rx_socket (conn m)) = false ->
  (List.length (items (conn_rx_queue (conn m))) < capacity (conn_rx_queue (conn m)))%nat ->
  exists m1, csp_rdp_receive_data p m = Some ((1, csp_rdp_header_remove p), m1) /\
    rdp (conn m1) = rdp (conn m) /\
    rx_socket (conn m1) = rx_socket (conn m) /\
    items (conn_rx_queue (conn m1)) = items (conn_rx_queue (conn m)) ++ [stripped p] /\
    capacity (conn_rx_queue (conn m1)) = capacity (conn_rx_queue (conn m)).
Proof.
  intros Hs Hroom. apply Nat.ltb_lt in Hroom.
  unfold csp_rdp_receive_data, conn_rx_enqueue, bind, csp_queue_enqueue. cbn [conn_get].
  destruct (rx_socket (conn m)) as [| |pending backlog] eqn:Es; [| |discriminate];
    cbn; rewrite Hroom; cbn; rewrite queue_ok_eqb; cbn; eexists;
    (split; [reflexivity|]); cbn; auto.
Qed.

Lemma run_rx_queue_flush_pass todo : forall done m,
  items (rx_queue (rdp (conn m))) = todo ++ done ->
  (List.length (todo ++ done) <= capacity (rx_queue (rdp (conn m))))%nat ->
  let next := rcv_cur (rdp (conn m)) + 1 in
  (Forall (fun p => seq_of p <> next) todo /\
   rx_queue_flush_pass (List.length todo) m = Some (false, with_rx_items (done ++ todo) m))
  \/
  (exists a x b,
     todo = a ++ x :: b /\ Forall (fun p => seq_of p <> next) a /\ seq_of x = next /\
     rx_queue_flush_pass (List.length todo) m
     = (csp_rdp_receive_data x ;; rdp_upd (rdp_set_rcv_cur (u16 next)) ;; ret true)
         (with_rx_items (b ++ done ++ a) m)).
Proof.
  induction todo as [|y todo IH]; intros done m Hq Hcap next.
  - left. split; [constructor|]. cbn. rewrite app_nil_r. cbn in Hq. rewrite <- Hq.
    rewrite with_rx_items_same. reflexivity.
  - cbn [List.length app] in Hcap |- *.
    assert (Hstep : rx_queue_flush_pass (S (List.length todo)) m
                    = if seq_of y =? next
                      then (csp_rdp_receive_data y ;; rdp_upd (rdp_set_rcv_cur (u16 next)) ;;
                            ret true) (with_rx_items (todo ++ done) m)
                      else rx_queue_flush_pass (List.length todo)
                             (with_rx_items ((todo ++ done) ++ [y]) m)).
    { cbn [rx_queue_flush_pass].
      unfold bind at 1. rewrite (run_rx_queue_dequeue m y (todo ++ done)) by exact Hq.
      unfold bind at 1. cbn [rdp_get].
      unfold csp_rdp_header_ref, seq_of, next.
      change (rcv_cur (rdp (conn (with_rx_items (todo ++ done) m))))
        with (rcv_cur (rdp (conn m))).
      destruct (seq_nr (header y) =? rcv_cur (rdp (conn m)) + 1); [reflexivity|].
      unfold bind at 1.
      rewrite run_rx_queue_enqueue
        by (rewrite with_rx_items_items, with_rx_items_capacity; lia).
      rewrite with_rx_items_items, with_rx_items_twice. reflexivity. }
    rewrite Hstep. clear Hstep.
    destruct (seq_of y =? next) eqn:E.
    + right. exists [], y, todo. apply Z.eqb_eq in E.
      split; [reflexivity|]. split; [constructor|]. split; [exact E|].
      rewrite app_nil_r. reflexivity.
    + apply Z.eqb_neq in E.
      destruct (IH (done ++ [y]) (with_rx_items ((todo ++ done) ++ [y]) m))
        as [(Hall & Hrun)|(a & x & b & Ht & Ha & Hx & Hrun)].
      * rewrite with_rx_items_items, <- app_assoc. reflexivity.
      * rewrite with_rx_items_capacity. rewrite !length_app in *. cbn [List.length] in *. lia.
      * left. split; [constructor; assumption|].
        rewrite Hrun, with_rx_items_twice, <- !app_assoc. reflexivity.
      * right. exists (y :: a), x, b. subst todo.
        split; [reflexivity|]. split; [constructor; assumption|]. split; [exact Hx|].
        rewrite Hrun, with_rx_items_twice, <- !app_assoc. reflexivity.
Qed.

Lemma run_rx_queue_flush_from fuel : forall m,
  let r := rdp (conn m) in
  (List.length (items (rx_queue r)) <= fuel)%nat ->
  (List.length (items (rx_queue r)) <= capacity (rx_queue r))%nat ->
  0 <= rcv_cur r ->
  rcv_cur r + Z.of_nat (List.length (items (rx_queue r))) < 65536 ->
  exists m' taken,
    rx_queue_flush_from (S fuel) m = Some (tt, m') /\
    Permutation (taken ++ items (rx_queue (rdp (conn m')))) (items (rx_queue r)) /\
    map seq_of taken = run_from (rcv_cur r + 1) (List.length taken) /\
    rcv_cur (rdp (conn m')) = rcv_cur r + Z.of_nat (List.length taken) /\
    ~ In (rcv_cur (rdp (conn m')) + 1) (map seq_of (items (rx_queue (rdp (conn m'))))) /\
    snd_vars (rdp (conn m')) = snd_vars r /\ state (rdp (conn m')) = state r /\
    capacity (rx_queue (rdp (conn m'))) = capacity (rx_queue r) /\
    capacity (conn_rx_queue (conn m')) = capacity (conn_rx_queue (conn m)) /\
    (rdp_lock m' = rdp_lock m /\ trace m' = trace m /\ pool m' = pool m) /\
    (exists more, items (conn_rx_queue (conn m'))
                  = items (conn_rx_queue (conn m)) ++ more) /\
    (is_listening (rx_socket (conn m)) = false ->
     (List.length (items (conn_rx_queue (conn m))) + List.length taken
      <= capacity (conn_rx_queue (conn m)))%nat ->
     rx_socket (conn m') = rx_socket (conn m) /\
     items (conn_rx_queue (conn m'))
     = items (conn_rx_queue (conn m)) ++ map stripped taken).
Proof.
  assert (Hsame : forall l : list (option csp_packet_t), exists more, l = l ++ more)
    by (intros l; exists []; rewrite app_nil_r; reflexivity).
  induction fuel as [|fuel IH]; intros m r Hfuel Hcap Hlo Hhi.
  - assert (E : items (rx_queue r) = []) by (destruct (items (rx_queue r)); [reflexivity | cbn in Hfuel; lia]).
    exists m, []. cbn [rx_queue_flush_from]. unfold bind. cbn [rdp_get]. fold r. rewrite E. cbn.
    rewrite app_nil_r. change (Z.of_nat 0) with 0.
    repeat split; auto. lia.
  - assert (Hstep : rx_queue_flush_from (S (S fuel)) m
                    = (again <- rx_queue_flush_pass (List.length (items (rx_queue r))) ;;
                       if again then rx_queue_flush_from (S fuel) else ret tt) m)
      by reflexivity.
    rewrite Hstep. clear Hstep. unfold bind at 1.
    destruct (run_rx_queue_flush_pass (items (rx_queue r)) [] m)
      as [(Hall & Hrun)|(a & x & b & Ht & Ha & Hx & Hrun)].
    + rewrite app_nil_r. reflexivity.
    + rewrite app_nil_r. exact Hcap.
    + rewrite Hrun. cbn [app]. unfold r. rewrite with_rx_items_same.
      exists m, []. cbn [ret app map List.length run_from]. fold r.
      split; [reflexivity|]. split; [reflexivity|]. split; [reflexivity|].
      split; [cbn; lia|].
      split.
      { intros Hin. apply in_map_iff in Hin. destruct Hin as (p & Hp & Hin).
        rewrite Forall_forall in Hall. exact (Hall p Hin Hp). }
      rewrite app_nil_r. repeat split; auto.
    + rewrite Hrun. cbn [app].
      assert (Hlen : List.length (items (rx_queue r)) = S (List.length (b ++ a))).
      { rewrite Ht, !length_app. cbn. lia. }
      destruct (receive_data_total x (with_rx_items (b ++ a) m))
        as (res & m1 & Hrecv & Hrdp & Hcapq & Hl1 & Ht1 & Hp1 & more1 & Hmore1).
      unfold bind at 1. rewrite Hrecv. unfold rdp_upd, ret. cbn beta iota.
      fold r in Hx.
      assert (Hu : u16 (rcv_cur r + 1) = rcv_cur r + 1) by (apply u16_small; lia).
      fold r. rewrite Hu.
      set (m2 := set_conn (set_rdp (rdp_set_rcv_cur (rcv_cur r + 1) (rdp (conn m1))) (conn m1)) m1).
      assert (Hr2 : rdp (conn m2) = rdp_set_rcv_cur (rcv_cur r + 1) (rdp (conn (with_rx_items (b ++ a) m))))
        by (unfold m2; cbn; rewrite Hrdp; reflexivity).
      destruct (IH m2)
        as (m' & taken & Hflush & Hperm & Hseq & Hcur & Hnot & Hsv & Hst & Hc1 & Hc2
            & (Hl2 & Ht2 & Hp2) & (more2 & Hmore2) & Happ).
      * rewrite Hr2. cbn. lia.
      * rewrite Hr2. cbn. fold r. rewrite Hlen in Hcap. lia.
      * rewrite Hr2. cbn. fold r. lia.
      * rewrite Hr2. cbn. fold r. rewrite Hlen in Hhi. lia.
      * rewrite Hr2 in Hperm, Hseq, Hcur, Hsv, Hst, Hc1. cbn in Hperm, Hseq, Hcur, Hsv, Hst, Hc1.
        fold r in Hperm, Hseq, Hcur, Hsv, Hst, Hc1.
        exists m', (x :: taken). split; [exact Hflush|].
        split.
        { cbn [app]. rewrite Ht. apply Permutation_cons_app.
          rewrite Hperm. apply Permutation_app_comm. }
        split; [cbn [map List.length run_from]; rewrite Hx, Hseq; reflexivity|].
        split; [rewrite Hcur; cbn [List.length]; lia|].
        split; [exact Hnot|]. split; [exact Hsv|]. split; [exact Hst|].
        split; [exact Hc1|].
        split; [rewrite Hc2; unfold m2; cbn; rewrite Hcapq; reflexivity|].
        split.
        { rewrite Hl2, Ht2, Hp2. unfold m2. cbn. rewrite Hl1, Ht1, Hp1. repeat split. }
        split.
        { exists (more1 ++ more2). rewrite Hmore2. unfold m2. cbn [conn set_conn conn_rx_queue set_rdp].
          rewrite Hmore1. cbn. rewrite <- app_assoc. reflexivity. }
        intros Hs Hroom. cbn [List.length] in Hroom.
        destruct (run_receive_data x (with_rx_items (b ++ a) m)) as (m1' & Hrecv' & _ & Hs1 & Hi1 & Hk1).
        { exact Hs. }
        { cbn. lia. }
        rewrite Hrecv in Hrecv'. inversion Hrecv'; subst res m1'. clear Hrecv'.
        cbn in Hs1, Hi1, Hk1.
        destruct Happ as (Hs' & Hi').
        { unfold m2. cbn. rewrite Hs1. exact Hs. }
        { unfold m2. cbn. rewrite Hi1, Hk1, length_app. cbn. lia. }
        unfold m2 in Hs', Hi'. cbn in Hs', Hi'.
        split; [rewrite Hs', Hs1; reflexivity|].
        rewrite Hi', Hi1, <- app_assoc. reflexivity.
Qed.

Lemma run_csp_rdp_rx_queue_flush m :
  let r := rdp (conn m) in
  (List.length (items (rx_queue r)) <= capacity (rx_queue r))%nat ->
  0 <= rcv_cur r ->
  rcv_cur r + Z.of_nat (List.length (items (rx_queue r))) < 65536 ->
  exists m' taken,
    csp_rdp_rx_queue_flush m = Some (tt, m') /\
    Permutation (taken ++ items (rx_queue (rdp (conn m')))) (items (rx_queue r)) /\
    map seq_of taken = run_from (rcv_cur r + 1) (List.length taken) /\
    rcv_cur (rdp (conn m')) = rcv_cur r + Z.of_nat (List.length taken) /\
    ~ In (rcv_cur (rdp (conn m')) + 1) (map seq_of (items (rx_queue (rdp (conn m'))))) /\
    snd_vars (rdp (conn m')) = snd_vars r /\ state (rdp (conn m')) = state r /\
    rdp_lock m' = rdp_lock m /\ trace m' = trace m /\ pool m' = pool m /\
    (exists more, items (conn_rx_queue (conn m'))
                  = items (conn_rx_queue (conn m)) ++ more) /\
    (is_listening (rx_socket (conn m)) = false ->
     (List.length (items (conn_rx_queue (conn m))) + List.length taken
      <= capacity (conn_rx_queue (conn m)))%nat ->
     items (conn_rx_queue (conn m'))
     = items (conn_rx_queue (conn m)) ++ map stripped taken).
Proof.
  intros r Hcap Hlo Hhi.
  destruct (run_rx_queue_flush_from (List.length (items (rx_queue r))) m (Nat.le_refl _) Hcap Hlo Hhi)
    as (m' & taken & Hrun & Hperm & Hseq & Hcur & Hnot & Hsv & Hst & _ & _ & Hrest & Hmore & Happ).
  exists m', taken.
  split.
  { unfold csp_rdp_rx_queue_flush, bind. cbn [rdp_get]. fold r.
    rewrite <- Hrun. apply rx_queue_flush_fuel; unfold rx_len; fold r; lia. }
  destruct Hrest as (Hl & Ht & Hp).
  repeat (split; [assumption|]).
  intros Hs Hroom. apply Happ; assumption.
Qed.

(** X3: [csp_rdp_rx_queue_flush] takes from the reassembly queue exactly
    the segments numbered [rcv_cur + 1], [rcv_cur + 2], ... as far as they
    are held, advances [rcv_cur] past them and keeps every other segment;
    afterwards no held segment is the next expected one.  When the
    application receive queue has room for them, the segments taken are
    handed over in sequence order, header removed. *)
Theorem rx_queue_flush_spec (m : machine) :
  let r := rdp (conn m) in
  (List.length (items (rx_queue r)) <= capacity (rx_queue r))%nat ->
  0 <= rcv_cur r ->
  rcv_cur r + Z.of_nat (List.length (items (rx_queue r))) < 65536 ->
  exists m' taken,
    csp_rdp_rx_queue_flush m = Some (tt, m') /\
    Permutation (taken ++ items (rx_queue (rdp (conn m')))) (items (rx_queue r)) /\
    map seq_of taken = run_from (rcv_cur r + 1) (List.length taken) /\
    rcv_cur (rdp (conn m')) = rcv_cur r + Z.of_nat (List.length taken) /\
    ~ In (rcv_cur (rdp (conn m')) + 1) (map seq_of (items (rx_queue (rdp (conn m'))))) /\
    (is_listening (rx_socket (conn m)) = false ->
     (List.length (items (conn_rx_queue (conn m))) + List.length taken
      <= capacity (conn_rx_queue (conn m)))%nat ->
     items (conn_rx_queue (conn m'))
     = items (conn_rx_queue (conn m)) ++ map stripped taken).
Proof.
  intros r Hcap Hlo Hhi.
  destruct (run_csp_rdp_rx_queue_flush m Hcap Hlo Hhi)
    as (m' & taken & Hrun & Hperm & Hseq & Hcur & Hnot & _ & _ & _ & _ & _ & _ & Happ).
  exists m', taken. repeat (split; [assumption|]). exact Happ.
Qed.

Lemma rx_queue_exists_spec_witness :
  exists m', csp_rdp_rx_queue_exists 2012 (holding [2013; 2012]) = Some (1, m').
Proof.
  destruct (rx_queue_exists_spec (holding [2013; 2012]) 2012)
    as (res & front & back & _ & Hrun & Hres & _).
  - cbn. lia.
  - assert (E : res = 1) by (apply Hres; vm_compute; auto).
    rewrite E in Hrun. eexists. exact Hrun.
Defined.

Lemma rx_queue_add_distinct_witness :
  exists m',
    csp_rdp_rx_queue_add (rx_host_order (segment 2012)) 2012 (holding [2013])
    = Some (CSP_QUEUE_OK, m') /\
    map seq_of (items (rx_queue (rdp (conn m')))) = [2013; 2012].
Proof.
  destruct (rx_queue_add_distinct (holding [2013]) (rx_host_order (segment 2012)))
    as (res & l' & Hrun & _ & _ & _ & Hnew & _).
  - cbn. lia.
  - vm_compute. constructor; [intros H; exact H | constructor].
  - destruct Hnew as (Hres & Hl).
    + vm_compute. intros [H|H]; [discriminate H | exact H].
    + cbn. lia.
    + subst res l'. eexists. split; [exact Hrun | reflexivity].
Defined.

Lemma rx_queue_flush_spec_witness :
  exists m',
    csp_rdp_rx_queue_flush (holding [2013; 2011; 2012; 2015]) = Some (tt, m') /\
    rcv_cur (rdp (conn m')) = 2013 /\
    map seq_of (items (rx_queue (rdp (conn m')))) = [2015].
Proof.
  destruct (rx_queue_flush_spec (holding [2013; 2011; 2012; 2015]))
    as (m' & taken & Hrun & _).
  - cbn. lia.
  - cbn. lia.
  - cbn. lia.
  - exists m'. split; [exact Hrun|].
    vm_compute in Hrun. inversion Hrun. split; reflexivity.
Defined.

(** ** Emptying both queues *)

Lemma machine_eq (m m' : machine) :
  conn m = conn m' -> rdp_lock m = rdp_lock m' -> pool m = pool m' ->
  clock m = clock m' -> if_up m = if_up m' -> delay_acks m = delay_acks m' ->
  trace m = trace m' -> m = m'.
Proof. destruct m, m'. cbn. intros; subst; reflexivity. Qed.

Lemma with_tx_items_same m :
  with_tx_items (items (tx_queue (rdp (conn m)))) m = m.
Proof. destruct m as [[[] s q t] l p c u d tr]. cbn. destruct tx_queue0. reflexivity. Qed.

Lemma run_flush_all_tx l : forall m,
  items (tx_queue (rdp (conn m))) = l ->
  flush_all_tx (List.length l) m = Some (tt, with_tx_items [] (all_freed l m)).
Proof.
  induction l as [|x l IH]; intros m Hq.
  - cbn [List.length flush_all_tx]. unfold ret. f_equal. f_equal.
    rewrite <- (with_tx_items_same m) at 1. rewrite Hq.
    apply machine_eq; cbn; try reflexivity.
    + rewrite Nat.add_0_r. reflexivity.
    + rewrite app_nil_r. reflexivity.
  - cbn [List.length flush_all_tx].
    unfold bind at 1. rewrite (run_tx_queue_dequeue m x l Hq).
    unfold bind at 1. unfold csp_buffer_free at 1.
    rewrite IH by reflexivity.
    f_equal. f_equal. apply machine_eq; cbn; try reflexivity.
    + lia.
    + rewrite <- app_assoc. reflexivity.
Qed.

Lemma run_flush_all_rx l : forall m,
  items (rx_queue (rdp (conn m))) = l ->
  flush_all_rx (List.length l) m = Some (tt, with_rx_items [] (all_freed l m)).
Proof.
  induction l as [|x l IH]; intros m Hq.
  - cbn [List.length flush_all_rx]. unfold ret. f_equal. f_equal.
    rewrite <- (with_rx_items_same m) at 1. rewrite Hq.
    apply machine_eq; cbn; try reflexivity.
    + rewrite Nat.add_0_r. reflexivity.
    + rewrite app_nil_r. reflexivity.
  - cbn [List.length flush_all_rx].
    unfold bind at 1. rewrite (run_rx_queue_dequeue m x l Hq).
    unfold bind at 1. unfold csp_buffer_free at 1.
    rewrite IH by reflexivity.
    f_equal. f_equal. apply machine_eq; cbn; try reflexivity.
    + lia.
    + rewrite <- app_assoc. reflexivity.
Qed.

Lemma run_csp_rdp_flush_all (m : machine) :
  let r := rdp (conn m) in
  csp_rdp_flush_all m
  = Some (tt, with_rx_items [] (with_tx_items []
                (all_freed (items (tx_queue r) ++ items (rx_queue r)) m))).
Proof.
  intros r. unfold csp_rdp_flush_all, bind. cbn [rdp_get]. fold r.
  rewrite (run_flush_all_tx (items (tx_queue r)) m eq_refl).
  change (items (rx_queue (rdp (conn (with_tx_items [] (all_freed (items (tx_queue r)) m))))))
    with (items (rx_queue r)).
  rewrite (run_flush_all_rx (items (rx_queue r))) by reflexivity.
  f_equal. f_equal. apply machine_eq; cbn; try reflexivity.
  - rewrite length_app. lia.
  - rewrite map_app, app_assoc. reflexivity.
Qed.

(** X4: [csp_rdp_flush_all] leaves both queues of the connection empty and
    gives every packet they held back to the buffer pool, once each, the
    retransmission queue first; nothing is sent and nothing else of the
    connection changes. *)
Theorem flush_all_frees_everything (m : machine) :
  let r := rdp (conn m) in
  csp_rdp_flush_all m
  = Some (tt, with_rx_items [] (with_tx_items []
                (all_freed (items (tx_queue r) ++ items (rx_queue r)) m))).
Proof. exact (run_csp_rdp_flush_all m). Qed.

(** ** Closing a connection *)

Lemma run_send_cmp_down m n a s r e sq ak :
  pool m = S n -> if_up m = false ->
  csp_rdp_send_cmp None a s r e sq ak false m
  = Some (0, set_trace (trace m ++ [Freed (control_packet a s r e sq ak)]) m).
Proof.
  intros Hp Hup. unfold csp_rdp_send_cmp, bind, csp_buffer_get, csp_send_direct, csp_buffer_free.
  rewrite Hp. cbn. rewrite Hup. cbn. unfold ret. f_equal. f_equal.
  apply machine_eq; cbn; auto.
Qed.

(** X5: closing takes two calls of [csp_rdp_close].  On a connection that
    is not in CLOSE_WAIT the first call answers 1 (a reset is pending),
    moves to CLOSE_WAIT and, when the interface is up, sends one RST|ACK
    carrying [snd_nxt] and [rcv_cur]; the second call sends nothing, moves
    to CLOSED and answers 0.  Both return with the lock released. *)
Theorem close_twice (m : machine) (n : nat) :
  rdp_lock m = false -> pool m = S n ->
  state (rdp (conn m)) <> RDP_CLOSE_WAIT ->
  let r := rdp (conn m) in
  exists m1 m2,
    csp_rdp_close m = Some (1, m1) /\
    state (rdp (conn m1)) = RDP_CLOSE_WAIT /\ rdp_lock m1 = false /\
    snd_vars (rdp (conn m1)) = snd_vars r /\ rcv_cur (rdp (conn m1)) = rcv_cur r /\
    trace m1 = trace m ++ [(if if_up m then Sent else Freed)
                             (control_packet true false true false (snd_nxt r) (rcv_cur r))] /\
    csp_rdp_close m1 = Some (0, m2) /\
    state (rdp (conn m2)) = RDP_CLOSED /\ rdp_lock m2 = false /\
    trace m2 = trace m1 /\ pool m2 = pool m1.
Proof.
  intros Hl Hp Hst r.
  assert (E : state_eqb (state r) RDP_CLOSE_WAIT = false)
    by (unfold r; destruct (state (rdp (conn m))); try reflexivity; contradiction).
  unfold csp_rdp_close at 1. unfold bind at 1. unfold csp_rdp_wait at 1. rewrite Hl.
  cbn [negb]. unfold bind at 1. cbn [rdp_get conn set_rdp_lock]. fold r. rewrite E. cbn [negb].
  unfold bind at 1.
  destruct (if_up m) eqn:Hup.
  - rewrite (run_send_cmp_control _ n) by (cbn; assumption).
    ack_noted_cases; (eexists; eexists; split; [reflexivity|]);
      cbn; repeat split; reflexivity.
  - rewrite (run_send_cmp_down _ n) by (cbn; assumption).
    eexists. eexists. split; [reflexivity|]. cbn. repeat split; reflexivity.
Qed.

Lemma close_twice_witness :
  exists m1 m2,
    csp_rdp_close (sample_machine RDP_OPEN) = Some (1, m1) /\
    csp_rdp_close m1 = Some (0, m2) /\
    state (rdp (conn m2)) = RDP_CLOSED.
Proof.
  destruct (close_twice (sample_machine RDP_OPEN) 7)
    as (m1 & m2 & H1 & _ & _ & _ & _ & _ & H2 & Hst & _).
  - reflexivity.
  - reflexivity.
  - cbn. discriminate.
  - exists m1, m2. repeat split; assumption.
Defined.

(** ** Data segments *)


Lemma acked_same m :
  acked (rcv_lsa (rdp (conn m))) (ack_timestamp (rdp (conn m))) (trace m) (pool m) m = m.
Proof. destruct m as [[[] s q t] l p c u d tr]. reflexivity. Qed.

Lemma run_send_cmp_acked m n a s r e sq ak :
  pool m = S n ->
  exists res lsa ts p,
    csp_rdp_send_cmp None a s r e sq ak false m
    = Some (res, acked lsa ts
                   (trace m ++ [handed_to_if m (control_packet a s r e sq ak)]) p m).
Proof.
  intros Hp. unfold handed_to_if. destruct (if_up m) eqn:Hup.
  - rewrite (run_send_cmp_control m n) by assumption.
    unfold ack_noted.
    change (delay_acks (set_trace (trace m ++ [Sent (control_packet a s r e sq ak)])
                          (set_pool n m))) with (delay_acks m).
    destruct (delay_acks m && a).
    + do 4 eexists. f_equal. f_equal. apply machine_eq; cbn; reflexivity.
    + exists 1, (rcv_lsa (rdp (conn m))), (ack_timestamp (rdp (conn m))), n.
      f_equal. f_equal. rewrite <- (acked_same m) at 1.
      apply machine_eq; cbn; try reflexivity.
      destruct m as [[[] s0 q t] l p c u d tr]; reflexivity.
  - rewrite (run_send_cmp_down m n) by assumption.
    exists 0, (rcv_lsa (rdp (conn m))), (ack_timestamp (rdp (conn m))), (pool m).
    f_equal. f_equal. rewrite <- (acked_same m) at 1.
    apply machine_eq; cbn; try reflexivity.
    destruct m as [[[] s0 q t] l p c u d tr]; reflexivity.
Qed.




(** ** Segments out of order and extended acknowledgements *)

Lemma open_data_entry m packet :
  let r := rdp (conn m) in
  let h := header (rx_host_order packet) in
  rdp_lock m = false -> state r = RDP_OPEN ->
  rst (header packet) = false -> syn (header packet) = false ->
  ack (header packet) = true ->
  rcv_cur r < seq_nr h <= rcv_cur r + 2 * window_size r ->
  rcv_cur r + 2 * window_size r < 4294967296 -> 0 <= rcv_cur r ->
  ack_nr h < snd_nxt r ->
  (snd_una r - 1 - 2 * window_size r) mod 4294967296 <= ack_nr h ->
  csp_rdp_new_packet packet m
  = rdp_open_data (rx_host_order packet)
      (set_conn (set_rdp (rdp_set_snd_una (u16 (ack_nr h + 1)) r) (conn m))
                (set_rdp_lock true m)).
Proof.
  intros r h Hl Hst Hrst Hsyn Hack Hseq Hcur Hcur0 Hhi Hlo.
  pose proof (ntohs_range (seq_nr (header packet))) as Hsr.
  pose proof (ntohs_range (ack_nr (header packet))) as Har.
  rewrite (open_entry m packet Hl (or_intror Hst) Hrst Hsyn Hack). fold r h.
  assert (Eseq : seq_nr_unacceptable r h = false).
  { apply seq_nr_unacceptable_spec; [exact Hsr|]. rewrite Z.mod_small by lia. exact Hseq. }
  rewrite Eseq.
  assert (Ehi : ack_nr_too_high r h = false) by (apply ack_nr_too_high_false; exact Hhi).
  assert (Elo : ack_nr_too_low r h = false)
    by (apply ack_nr_too_low_false; [exact Har | exact Hlo]).
  unfold rdp_open_ack. unfold bind at 1. cbn [rdp_get conn set_rdp_lock].
  unfold csp_rdp_header_ref. fold r h. rewrite Ehi, Elo, Hst.
  cbn [state_eqb andb]. unfold bind at 1. cbn [ret]. unfold bind at 1. cbn [rdp_upd].
  reflexivity.
Qed.

(** X7: an OPEN connection receives a data segment ahead of the expected
    one (inside the receive window).  When no segment with that number is
    held and the reassembly queue has room, the segment is kept at the end
    of the reassembly queue and an EACK listing every held number is sent;
    otherwise the segment is freed and nothing is sent.  In both cases
    [rcv_cur] and the application receive queue are unchanged and the lock
    is released. *)
Theorem out_of_order_segment_held (m : machine) (packet : csp_packet_t) (n : nat) :
  let r := rdp (conn m) in
  let p := rx_host_order packet in
  let h := header p in
  let q := items (rx_queue r) in
  rdp_lock m = false -> state r = RDP_OPEN -> pool m = S n -> if_up m = true ->
  rst (header packet) = false -> syn (header packet) = false ->
  ack (header packet) = true -> eak (header packet) = false ->
  length packet > sizeof_rdp_header_t ->
  rcv_cur r + 1 < seq_nr h <= rcv_cur r + 2 * window_size r ->
  rcv_cur r + 2 * window_size r < 4294967296 -> 0 <= rcv_cur r ->
  ack_nr h < snd_nxt r ->
  (snd_una r - 1 - 2 * window_size r) mod 4294967296 <= ack_nr h ->
  (List.length q <= capacity (rx_queue r))%nat ->
  2 * Z.of_nat (List.length q + 1) < 65536 ->
  exists m',
    csp_rdp_new_packet packet m = Some (tt, m') /\
    state (rdp (conn m')) = RDP_OPEN /\ rdp_lock m' = false /\
    rcv_cur (rdp (conn m')) = rcv_cur r /\
    conn_rx_queue (conn m') = conn_rx_queue (conn m) /\
    snd_una (rdp (conn m')) = u16 (ack_nr h + 1) /\
    (~ In (seq_nr h) (map seq_of q) -> (List.length q < capacity (rx_queue r))%nat ->
     items (rx_queue (rdp (conn m'))) = q ++ [p] /\
     trace m' = trace m ++ [Sent (eack_packet (rdp (conn m')))] /\
     eack_words (items (rx_queue (rdp (conn m')))) = eack_words q ++ [htons (seq_nr h)]) /\
    (In (seq_nr h) (map seq_of q) \/ (capacity (rx_queue r) <= List.length q)%nat ->
     Permutation (items (rx_queue (rdp (conn m')))) q /\
     trace m' = trace m ++ [Freed p]).
Proof.
  intros r p h q Hl Hst Hp Hup Hrst Hsyn Hack Heak Hlen Hseq Hcur Hcur0 Hhi Hlo Hcap Hsz.
  rewrite (open_data_entry m packet Hl Hst Hrst Hsyn Hack) by (fold r p h; try assumption; lia).
  fold r p h.
  set (m1 := set_conn (set_rdp (rdp_set_snd_una (u16 (ack_nr h + 1)) r) (conn m))
                      (set_rdp_lock true m)).
  unfold rdp_open_data, csp_rdp_header_ref.
  change (eak (header p)) with (eak (header packet)). rewrite Heak.
  change (length p) with (length packet).
  assert (El : (length packet <=? sizeof_rdp_header_t) = false) by (apply Z.leb_gt; lia).
  rewrite El. unfold bind at 1. cbn [rdp_get].
  change (rcv_cur (rdp (conn m1))) with (rcv_cur r). fold h.
  assert (En : (rcv_cur r + 1 =? seq_nr h) = false) by (apply Z.eqb_neq; lia).
  rewrite En. cbn [negb]. unfold bind at 1.
  destruct (run_csp_rdp_rx_queue_add m1 p) as (res & l' & Hadd & Hin & Hnew & Hfull).
  { exact Hcap. }
  change (seq_of p) with (seq_nr h) in Hadd, Hin, Hnew, Hfull.
  change (items (rx_queue (rdp (conn m1)))) with q in Hin, Hnew, Hfull.
  change (capacity (rx_queue (rdp (conn m1)))) with (capacity (rx_queue r)) in Hnew, Hfull.
  rewrite Hadd.
  destruct (in_dec Z.eq_dec (seq_nr h) (map seq_of q)) as [Hi|Hn].
  - destruct (Hin Hi) as (Hres & Hperm). subst res.
    change (negb (0 =? CSP_QUEUE_OK)) with true. cbv iota.
    rewrite run_discard_open. eexists. split; [reflexivity|].
    unfold m1, with_rx_items. cbn.
    split; [exact Hst|]. do 4 (split; [reflexivity|]).
    split; [intros Hn; contradiction|].
    intros _. split; [exact Hperm | reflexivity].
  - destruct (Nat.lt_ge_cases (List.length q) (capacity (rx_queue r))) as [Hlt|Hge].
    + destruct (Hnew Hn Hlt) as (Hres & Hl'). subst res l'.
      rewrite queue_ok_eqb. cbn [negb]. unfold bind at 1.
      rewrite (run_send_eack _ n).
      * unfold accepted_open, csp_rdp_release.
        ack_noted_cases; (eexists; split; [reflexivity|]);
          unfold m1, with_rx_items; cbn;
          (split; [exact Hst|]); do 4 (split; [reflexivity|]);
          (split; [intros _ _; split; [reflexivity|split; [reflexivity|]];
                   unfold eack_words; rewrite map_app; reflexivity|]);
          intros [H|H]; [contradiction | fold q in H; lia | contradiction | fold q in H; lia].
      * exact Hp.
      * exact Hup.
      * cbn. rewrite length_app. cbn. fold q. lia.
      * cbn. rewrite length_app. cbn. fold q. lia.
    + destruct (Hfull Hn Hge) as (Hres & Hl'). subst res l'.
      rewrite queue_full_eqb. cbn [negb].
      rewrite run_discard_open. eexists. split; [reflexivity|].
      unfold m1, with_rx_items. cbn.
      split; [exact Hst|]. do 4 (split; [reflexivity|]).
      split; [intros _ Hlt; fold q in Hlt; lia|].
      intros _. split; [reflexivity | reflexivity].
Qed.

Lemma map_nth_seq {A B} (f : A -> B) (d : A) (l : list A) :
  map (fun j => f (nth j l d)) (seq 0 (List.length l)) = map f l.
Proof.
  induction l as [|x l IH]; [reflexivity|].
  cbn [List.length seq map nth]. f_equal.
  rewrite <- seq_shift, map_map. exact IH.
Qed.

Lemma eack_packet_read r :
  let l := items (rx_queue r) in
  Forall (fun p => 0 <= seq_of p < 65536) l ->
  2 * Z.of_nat (List.length l) + sizeof_rdp_header_t < 65536 ->
  eack_seq_nrs (rx_host_order (eack_packet r)) = map seq_of l.
Proof.
  intros l Hall Hsz. unfold eack_seq_nrs, eack_count, data16_get.
  change (data16 (rx_host_order (eack_packet r))) with (eack_words l).
  change (length (rx_host_order (eack_packet r)))
    with (u16 (2 * Z.of_nat (List.length (eack_words l)) + sizeof_rdp_header_t)).
  assert (Hlen : List.length (eack_words l) = List.length l)
    by (unfold eack_words; apply length_map).
  rewrite Hlen.
  rewrite u16_small by (unfold sizeof_rdp_header_t in *; lia).
  replace ((2 * Z.of_nat (List.length l) + sizeof_rdp_header_t - sizeof_rdp_header_t) / 2)
    with (Z.of_nat (List.length l))
    by (rewrite Z.add_simpl_r, Z.mul_comm, Z.div_mul; lia).
  rewrite Nat2Z.id, <- Hlen.
  rewrite (map_nth_seq ntohs 0 (eack_words l)).
  unfold eack_words. rewrite map_map.
  apply map_ext_in. intros p Hp. rewrite Forall_forall in Hall.
  apply ntohs_htons. exact (Hall p Hp).
Qed.

(** X8: the selective acknowledgement, end to end.  The EACK that
    [csp_rdp_send_eack] builds from the reassembly queue of the receiver
    lists, as [csp_rdp_flush_eack] reads it at the sender, exactly the
    sequence numbers of the segments held, in queue order; at the sender
    it removes from the retransmission queue exactly the entries with one
    of these numbers and keeps the others in order. *)
Theorem eack_round_trip (receiver sender : machine) (n : nat) :
  let held := items (rx_queue (rdp (conn receiver))) in
  let unacked := items (tx_queue (rdp (conn sender))) in
  pool receiver = S n -> if_up receiver = true ->
  (List.length held <= capacity (rx_queue (rdp (conn receiver))))%nat ->
  Forall (fun p => 0 <= seq_of p < 65536) held ->
  2 * Z.of_nat (List.length held) + sizeof_rdp_header_t < 65536 ->
  (List.length unacked <= capacity (tx_queue (rdp (conn sender))))%nat ->
  exists eack receiver' sender',
    csp_rdp_send_eack receiver = Some (1, receiver') /\
    trace receiver' = trace receiver ++ [Sent eack] /\
    items (rx_queue (rdp (conn receiver'))) = held /\
    eack_seq_nrs (rx_host_order eack) = map seq_of held /\
    csp_rdp_flush_eack (rx_host_order eack) sender = Some (tt, sender') /\
    map header (items (tx_queue (rdp (conn sender'))))
    = map header (filter (fun e => negb (eack_lists (map seq_of held) e)) unacked) /\
    (forall e, In e (items (tx_queue (rdp (conn sender')))) ->
       ~ In (ntohs (seq_nr (header e))) (map seq_of held)).
Proof.
  intros held unacked Hp Hup Hcap Hall Hsz Htx.
  exists (eack_packet (rdp (conn receiver))).
  pose proof (eack_packet_read (rdp (conn receiver)) Hall Hsz) as Hread. fold held in Hread.
  destruct (run_flush_eack_loop (rx_host_order (eack_packet (rdp (conn receiver))))
              unacked [] sender) as (p & Hrun).
  { rewrite app_nil_r. reflexivity. }
  { rewrite app_nil_r. exact Htx. }
  cbn zeta in Hrun. cbn [app] in Hrun. rewrite Hread in Hrun.
  rewrite eack_keep_filter in Hrun.
  assert (Hsend := run_send_eack receiver n Hp Hup Hcap).
  rewrite Hsend by (unfold sizeof_rdp_header_t in Hsz; fold held; lia).
  unfold ack_noted. cbn [delay_acks set_trace set_pool andb].
  destruct (delay_acks receiver && true);
    (eexists; eexists; split; [reflexivity|]);
    (split; [reflexivity|]); (split; [reflexivity|]); (split; [exact Hread|]);
    (split; [unfold csp_rdp_flush_eack, bind; cbn [rdp_get]; exact Hrun|]);
    cbn [with_tx_items conn set_conn rdp set_rdp tx_queue rdp_set_tx_queue items];
    (split; [rewrite map_map; apply map_ext; intros e; apply eack_forced_header|]);
    intros e He Hin; apply in_map_iff in He; destruct He as (e0 & E & He);
    apply filter_In in He; destruct He as (_ & Hl); subst e;
    rewrite eack_forced_header in Hin; apply eack_lists_In in Hin;
    rewrite Hin in Hl; discriminate.
Qed.




(** ** Opening a connection *)

Lemma ntohl_range x : 0 <= ntohl x < 4294967296.
Proof.
  unfold ntohl.
  pose proof (Z.mod_pos_bound x 256 ltac:(lia)).
  pose proof (Z.mod_pos_bound (x / 256) 256 ltac:(lia)).
  pose proof (Z.mod_pos_bound (x / 65536) 256 ltac:(lia)).
  pose proof (Z.mod_pos_bound (x / 16777216) 256 ltac:(lia)).
  lia.
Qed.

Lemma ntohl_htonl x : 0 <= x < 4294967296 -> ntohl (htonl x) = x.
Proof.
  intros Hx. unfold htonl, ntohl.
  set (b0 := x mod 256). set (b1 := (x / 256) mod 256).
  set (b2 := (x / 65536) mod 256). set (b3 := (x / 16777216) mod 256).
  assert (H0 : 0 <= b0 < 256) by (apply Z.mod_pos_bound; lia).
  assert (H1 : 0 <= b1 < 256) by (apply Z.mod_pos_bound; lia).
  assert (H2 : 0 <= b2 < 256) by (apply Z.mod_pos_bound; lia).
  assert (H3 : 0 <= b3 < 256) by (apply Z.mod_pos_bound; lia).
  assert (Hx' : x = b0 + 256 * b1 + 65536 * b2 + 16777216 * b3).
  { pose proof (Z.div_mod x 256 ltac:(lia)) as D0.
    pose proof (Z.div_mod (x / 256) 256 ltac:(lia)) as D1.
    rewrite Z.div_div in D1 by lia. change (256 * 256) with 65536 in D1.
    pose proof (Z.div_mod (x / 65536) 256 ltac:(lia)) as D2.
    rewrite Z.div_div in D2 by lia. change (65536 * 256) with 16777216 in D2.
    assert (D3 : b3 = x / 16777216).
    { unfold b3. apply Z.mod_small.
      split; [apply Z.div_pos; lia | apply Z.div_lt_upper_bound; lia]. }
    fold b0 in D0. fold b1 in D1. fold b2 in D2. lia. }
  set (y := b0 * 16777216 + b1 * 65536 + b2 * 256 + b3).
  assert (E0 : y mod 256 = b3).
  { unfold y. replace (b0 * 16777216 + b1 * 65536 + b2 * 256 + b3)
      with (b3 + (b0 * 65536 + b1 * 256 + b2) * 256) by lia.
    rewrite Z.mod_add by lia. apply Z.mod_small. lia. }
  assert (E1 : (y / 256) mod 256 = b2).
  { unfold y. replace (b0 * 16777216 + b1 * 65536 + b2 * 256 + b3)
      with (b3 + (b0 * 65536 + b1 * 256 + b2) * 256) by lia.
    rewrite Z.div_add by lia. rewrite (Z.div_small b3 256) by lia.
    replace (0 + (b0 * 65536 + b1 * 256 + b2)) with (b2 + (b0 * 256 + b1) * 256) by lia.
    rewrite Z.mod_add by lia. apply Z.mod_small. lia. }
  assert (E2 : (y / 65536) mod 256 = b1).
  { unfold y. replace (b0 * 16777216 + b1 * 65536 + b2 * 256 + b3)
      with ((b2 * 256 + b3) + (b0 * 256 + b1) * 65536) by lia.
    rewrite Z.div_add by lia. rewrite (Z.div_small (b2 * 256 + b3) 65536) by lia.
    replace (0 + (b0 * 256 + b1)) with (b1 + b0 * 256) by lia.
    rewrite Z.mod_add by lia. apply Z.mod_small. lia. }
  assert (E3 : (y / 16777216) mod 256 = b0).
  { unfold y. replace (b0 * 16777216 + b1 * 65536 + b2 * 256 + b3)
      with ((b1 * 65536 + b2 * 256 + b3) + b0 * 16777216) by lia.
    rewrite Z.div_add by lia. rewrite (Z.div_small (b1 * 65536 + b2 * 256 + b3)) by lia.
    apply Z.mod_small. lia. }
  rewrite E0, E1, E2, E3. lia.
Qed.

Lemma word32_halves v :
  0 <= v < 4294967296 -> v mod 65536 + 65536 * ((v / 65536) mod 65536) = v.
Proof.
  intros Hv. rewrite (Z.mod_small (v / 65536) 65536)
    by (split; [apply Z.div_pos; lia | apply Z.div_lt_upper_bound; lia]).
  rewrite (Z.div_mod v 65536) at 3 by lia. lia.
Qed.

Lemma word16_halves w : 0 <= w < 65536 -> w mod 256 + 256 * ((w / 256) mod 256) = w.
Proof.
  intros Hw. rewrite (Z.mod_small (w / 256) 256)
    by (split; [apply Z.div_pos; lia | apply Z.div_lt_upper_bound; lia]).
  rewrite (Z.div_mod w 256) at 3 by lia. lia.
Qed.

Lemma data16_get_range p i :
  Forall (fun w => 0 <= w < 65536) (data16 p) -> 0 <= data16_get p i < 65536.
Proof.
  intros Hall. unfold data16_get.
  destruct (nth_in_or_default i (data16 p) 0) as [Hin|E]; [|rewrite E; lia].
  rewrite Forall_forall in Hall. apply Hall. exact Hin.
Qed.

(** A word that lies inside the payload of a received packet is read from
    the payload. *)
Lemma rx_data32_payload p i :
  4 * Z.of_nat i + 4 <= length p - sizeof_rdp_header_t ->
  Forall (fun w => 0 <= w < 65536) (data16 p) ->
  rx_data32 p i = data32_get p i.
Proof.
  intros Hin Hall. unfold rx_data32, rx_data8, data32_get, data8_get.
  repeat match goal with
         | |- context [(?a <=? ?b) && ?c] =>
             replace (a <=? b) with false by (symmetry; apply Z.leb_gt; lia)
         end.
  cbn [andb].
  replace (4 * i)%nat with (0 + (2 * i) * 2)%nat by lia.
  replace (0 + 2 * i * 2 + 1)%nat with (1 + (2 * i) * 2)%nat by lia.
  replace (0 + 2 * i * 2 + 2)%nat with (0 + (2 * i + 1) * 2)%nat by lia.
  replace (0 + 2 * i * 2 + 3)%nat with (1 + (2 * i + 1) * 2)%nat by lia.
  assert (Hd : forall a j, (a < 2)%nat -> ((a + j * 2) / 2 = j)%nat).
  { intros a j Ha. rewrite Nat.div_add by lia.
    rewrite (Nat.div_small a 2) by lia. reflexivity. }
  assert (He : forall a j, Nat.even (a + j * 2) = Nat.even a).
  { intros a j. rewrite (Nat.mul_comm j 2). apply Nat.even_add_mul_2. }
  rewrite !Hd, !He by lia.
  change (Nat.even 0) with true. change (Nat.even 1) with false. cbv iota.
  pose proof (data16_get_range p (2 * i) Hall) as H0.
  pose proof (data16_get_range p (2 * i + 1) Hall) as H1.
  pose proof (word16_halves _ H0). pose proof (word16_halves _ H1). lia.
Qed.

Lemma syn_payload_params o :
  Forall (fun v => 0 <= v < 4294967296) (option_params o) ->
  map (fun i => ntohl (data32_get (syn_payload o) i)) (seq 0 6) = option_params o.
Proof.
  intros Hall. unfold option_params in *.
  repeat match goal with
         | H : Forall _ (_ :: _) |- _ => inversion H; clear H; subst
         end.
  unfold syn_payload, option_params, data32_get, data16_get, htonl. cbn [seq map flat_map app nth data16 set_data16 set_length
    blank_packet Nat.mul Nat.add].
  rewrite !word32_halves by apply ntohl_range.
  fold (htonl (csp_rdp_window_size o)). fold (htonl (csp_rdp_conn_timeout o)).
  fold (htonl (csp_rdp_packet_timeout o)). fold (htonl (csp_rdp_delayed_acks o)).
  fold (htonl (csp_rdp_ack_timeout o)). fold (htonl (csp_rdp_ack_delay_count o)).
  rewrite !ntohl_htonl by assumption. reflexivity.
Qed.

Lemma send_syn_payload o :
  set_length 24 (set_data16
    (data32_put 5 (htonl (csp_rdp_ack_delay_count o))
    (data32_put 4 (htonl (csp_rdp_ack_timeout o))
    (data32_put 3 (htonl (csp_rdp_delayed_acks o))
    (data32_put 2 (htonl (csp_rdp_packet_timeout o))
    (data32_put 1 (htonl (csp_rdp_conn_timeout o))
    (data32_put 0 (htonl (csp_rdp_window_size o)) (data16 blank_packet)))))))
    blank_packet)
  = syn_payload o.
Proof. reflexivity. Qed.

Lemma run_send_cmp_queued pk m n a s r e sq ak :
  pool m = cmp_buffers pk n -> if_up m = true ->
  let pkt := rdp_framed (cmp_base pk) a s r e sq ak in
  let room := (List.length (items (tx_queue (rdp (conn m))))
               <? capacity (tx_queue (rdp (conn m))))%nat in
  exists m',
    csp_rdp_send_cmp pk a s r e sq ak true m = Some (1, m') /\
    trace m' = trace m ++ (if room then [] else [Freed (set_timestamp (clock m) pkt)])
                       ++ [Sent pkt] /\
    items (tx_queue (rdp (conn m')))
    = items (tx_queue (rdp (conn m))) ++ (if room then [set_timestamp (clock m) pkt] else []) /\
    capacity (tx_queue (rdp (conn m'))) = capacity (tx_queue (rdp (conn m))) /\
    rdp_core (rdp (conn m')) = rdp_core (rdp (conn m)) /\
    rx_queue (rdp (conn m')) = rx_queue (rdp (conn m)) /\
    tx_wait (rdp (conn m')) = tx_wait (rdp (conn m)) /\
    surroundings m' = surroundings m /\
    pool m' = (if room then n else S n).
Proof.
  intros Hpool Hup pkt room.
  unfold csp_rdp_send_cmp, bind, csp_buffer_get, tx_queue_enqueue, bind,
    csp_queue_enqueue, csp_send_direct.
  destruct pk as [p|]; cbn in Hpool |- *; rewrite Hpool; cbn; fold room;
    destruct room; cbn; rewrite ?queue_ok_eqb, ?queue_full_eqb; cbn; rewrite Hup; cbn;
    destruct (delay_acks m && a); cbn;
    (eexists; split; [reflexivity|]);
    cbn; rewrite <- ?app_assoc, ?app_nil_r; repeat split.
Qed.

Lemma run_csp_rdp_send_syn o m n :
  pool m = S (S n) -> if_up m = true ->
  let syn := syn_packet o (snd_iss (rdp (conn m))) in
  let room := (List.length (items (tx_queue (rdp (conn m))))
               <? capacity (tx_queue (rdp (conn m))))%nat in
  exists m',
    csp_rdp_send_syn o m = Some (1, m') /\
    trace m' = trace m ++ (if room then [] else [Freed (set_timestamp (clock m) syn)])
                       ++ [Sent syn] /\
    items (tx_queue (rdp (conn m')))
    = items (tx_queue (rdp (conn m))) ++ (if room then [set_timestamp (clock m) syn] else []) /\
    rdp_core (rdp (conn m')) = rdp_core (rdp (conn m)) /\
    rx_queue (rdp (conn m')) = rx_queue (rdp (conn m)) /\
    surroundings m' = surroundings m /\
    pool m' = (if room then n else S n).
Proof.
  intros Hp Hup syn room.
  unfold csp_rdp_send_syn. unfold bind at 1. unfold csp_buffer_get at 1. rewrite Hp.
  rewrite send_syn_payload. unfold bind at 1. cbn [rdp_get].
  destruct (run_send_cmp_queued (Some (syn_payload o)) (set_pool (S n) m) n
              false true false false (snd_iss (rdp (conn m))) 0 eq_refl Hup)
    as (m' & Hrun & Htr & Hq & _ & Hcore & Hrx & _ & Hsur & Hpool).
  exists m'. split; [exact Hrun|]. repeat split; assumption.
Qed.

Lemma rdp_core_fields r' r :
  rdp_core r' = rdp_core r ->
  state r' = state r /\ snd_nxt r' = snd_nxt r /\ snd_una r' = snd_una r /\
  snd_iss r' = snd_iss r /\ rcv_cur r' = rcv_cur r /\ rcv_irs r' = rcv_irs r /\
  session_params r' = session_params r.
Proof.
  unfold rdp_core. intros H.
  assert (H1 := f_equal (fun c => fst (fst c)) H).
  assert (H2 := f_equal (fun c => snd (fst c)) H).
  assert (H3 := f_equal snd H).
  cbn in H1, H2, H3. injection H2 as ? ? ? ? ?. repeat split; assumption.
Qed.

Lemma rdp_core_value r st a b c d e p :
  rdp_core r = (st, [a; b; c; d; e], p) ->
  state r = st /\ snd_nxt r = a /\ snd_una r = b /\ snd_iss r = c /\
  rcv_cur r = d /\ rcv_irs r = e /\ session_params r = p.
Proof.
  unfold rdp_core. intros H.
  assert (H1 := f_equal (fun c => fst (fst c)) H).
  assert (H2 := f_equal (fun c => snd (fst c)) H).
  assert (H3 := f_equal snd H).
  cbn in H1, H2, H3. injection H2 as ? ? ? ? ?. repeat split; assumption.
Qed.

Lemma listen_init_state r :
  state r = RDP_CLOSED \/ state r = RDP_LISTEN -> state (listen_init r) = RDP_LISTEN.
Proof. unfold listen_init. intros [E|E]; rewrite E; cbn; [reflexivity | exact E]. Qed.

(** X9: the SYN of an active open, end to end.  [csp_rdp_send_syn] sends
    one SYN carrying the six configured parameters; a CLOSED or listening
    connection that receives it adopts exactly these parameters, takes the
    sender's initial sequence number as [rcv_cur] and [rcv_irs], moves to
    SYN_RCVD and answers with a SYN|ACK that acknowledges that number. *)
Theorem syn_round_trip (o : rdp_options) (a b : machine) (n k : nat) :
  let ra := rdp (conn a) in
  let rb := rdp (conn b) in
  Forall (fun v => 0 <= v < 4294967296) (option_params o) ->
  pool a = S (S n) -> if_up a = true -> 0 <= snd_iss ra < 65536 ->
  rdp_lock b = false -> state rb = RDP_CLOSED \/ state rb = RDP_LISTEN ->
  pool b = S (S k) -> if_up b = true ->
  exists a' b',
    csp_rdp_send_syn o a = Some (1, a') /\
    In (Sent (syn_packet o (snd_iss ra))) (trace a') /\
    rdp_core (rdp (conn a')) = rdp_core ra /\
    csp_rdp_new_packet (syn_packet o (snd_iss ra)) b = Some (tt, b') /\
    state (rdp (conn b')) = RDP_SYN_RCVD /\
    session_params (rdp (conn b')) = option_params o /\
    rcv_cur (rdp (conn b')) = snd_iss ra /\ rcv_irs (rdp (conn b')) = snd_iss ra /\
    snd_iss (rdp (conn b')) = snd_iss (listen_init rb) /\
    rdp_lock b' = false /\
    In (Sent (control_packet true true false false (snd_iss (listen_init rb)) (snd_iss ra)))
       (trace b').
Proof.
  intros ra rb Hopt Hpa Hupa Hiss Hlb Hstb Hpb Hupb.
  destruct (run_csp_rdp_send_syn o a n Hpa Hupa) as (a' & Hsend & Htr & _ & Hcore & _).
  fold ra in Htr, Hcore.
  set (sp := syn_packet o (snd_iss ra)) in *.
  assert (Hseq : seq_nr (header (rx_host_order sp)) = snd_iss ra).
  { cbn. rewrite ntohs_htons; rewrite u16_small by exact Hiss; [reflexivity | exact Hiss]. }
  pose proof (syn_payload_params o Hopt) as Hpar.
  cbn [seq map] in Hpar.
  change (data32_get (syn_payload o)) with (data32_get (rx_host_order sp)) in Hpar.
  assert (Hwords : Forall (fun w => 0 <= w < 65536) (data16 (rx_host_order sp)))
    by (repeat constructor; apply Z.mod_pos_bound; lia).
  rewrite <- !(rx_data32_payload (rx_host_order sp)) in Hpar
    by (try exact Hwords; apply Z.leb_le; reflexivity).
  unfold option_params in Hpar.
  injection Hpar as H0 H1 H2 H3 H4 H5.
  set (b1 := set_conn (set_rdp (listen_init rb) (conn b)) (set_rdp_lock true b)).
  set (r2 := rdp_set_ack_delay_count (csp_rdp_ack_delay_count o)
            (rdp_set_ack_timeout (csp_rdp_ack_timeout o)
            (rdp_set_delayed_acks (csp_rdp_delayed_acks o)
            (rdp_set_packet_timeout (csp_rdp_packet_timeout o)
            (rdp_set_conn_timeout (csp_rdp_conn_timeout o)
            (rdp_set_window_size (csp_rdp_window_size o)
            (rdp_set_state RDP_SYN_RCVD
            ((if delay_acks b then rdp_set_rcv_lsa (snd_iss ra) else fun r => r)
            (rdp_set_rcv_irs (snd_iss ra)
            (rdp_set_rcv_cur (snd_iss ra) (listen_init rb))))))))))).
  set (b2 := set_conn (set_rdp r2 (conn b1)) b1).
  assert (Hsi : snd_iss r2 = snd_iss (listen_init rb))
    by (unfold r2; destruct (delay_acks b); reflexivity).
  assert (Hri : rcv_irs r2 = snd_iss ra)
    by (unfold r2; destruct (delay_acks b); reflexivity).
  destruct (run_send_cmp_queued None b2 k true true false false
              (snd_iss (listen_init rb)) (snd_iss ra) Hpb Hupb)
    as (b3 & Hrun3 & Htr3 & _ & _ & Hcore3 & _ & _ & Hsur3 & _).
  assert (Hrun : csp_rdp_new_packet sp b
                 = discard_open (rx_host_order sp) b3).
  { rewrite (new_packet_entry b sp Hlb). cbv zeta. fold rb b1.
    change (rst (header (rx_host_order sp))) with false. cbv iota.
    unfold bind at 1. cbn [rdp_get].
    change (state (rdp (conn b1))) with (state (listen_init rb)).
    rewrite (listen_init_state rb Hstb).
    unfold rdp_listen, csp_rdp_header_ref. unfold bind at 1. cbn [rdp_get].
    change (ack (header (rx_host_order sp))) with false.
    change (syn (header (rx_host_order sp))) with true. cbv iota.
    unfold bind at 1. unfold cfg_delay_acks at 1. unfold bind at 1. unfold rdp_upd at 1.
    rewrite H0, H1, H2, H3, H4, H5, Hseq.
    change (delay_acks b1) with (delay_acks b). change (rdp (conn b1)) with (listen_init rb).
    fold r2. fold b2. unfold bind at 1. cbn [rdp_get].
    change (rdp (conn b2)) with r2. rewrite Hsi, Hri.
    unfold bind at 1. rewrite Hrun3. reflexivity. }
  exists a', (set_rdp_lock false
                (set_trace (trace b3 ++ [Freed (rx_host_order sp)])
                   (set_pool (S (pool b3)) b3))).
  split; [exact Hsend|].
  split; [rewrite Htr; apply in_or_app; right; apply in_or_app; right; left; reflexivity|].
  split; [exact Hcore|].
  split; [rewrite Hrun; apply run_discard_open|].
  cbn [conn set_rdp_lock set_trace set_pool rdp_lock trace].
  change (rdp (conn b2)) with r2 in Hcore3.
  apply rdp_core_fields in Hcore3.
  destruct Hcore3 as (Hst3 & Hn3 & Hu3 & Hi3 & Hc3 & Hirs3 & Hpar3).
  split; [rewrite Hst3; unfold r2; reflexivity|].
  split; [rewrite Hpar3; unfold r2; reflexivity|].
  split; [rewrite Hc3; unfold r2; destruct (delay_acks b); reflexivity|].
  split; [rewrite Hirs3; exact Hri|].
  split; [rewrite Hi3; exact Hsi|].
  split; [reflexivity|].
  rewrite Htr3. apply in_or_app. left. apply in_or_app. right.
  apply in_or_app. right. left. reflexivity.
Qed.

(** X10: the last step of a passive open.  In SYN_RCVD an acknowledgement
    without payload whose numbers are inside the windows opens the
    connection exactly when it acknowledges the initial sequence number
    [snd_iss]; otherwise the state stays SYN_RCVD, the sequence variables
    are unchanged and the packet is discarded on the close path.  Either
    way the packet is freed, nothing is sent and the lock is released. *)
Theorem syn_rcvd_opens_on_ack (m : machine) (packet : csp_packet_t) :
  let r := rdp (conn m) in
  let h := header (rx_host_order packet) in
  rdp_lock m = false -> state r = RDP_SYN_RCVD ->
  rst (header packet) = false -> syn (header packet) = false ->
  ack (header packet) = true -> eak (header packet) = false ->
  length packet <= sizeof_rdp_header_t ->
  rcv_cur r < seq_nr h <= rcv_cur r + 2 * window_size r ->
  rcv_cur r + 2 * window_size r < 4294967296 -> 0 <= rcv_cur r ->
  ack_nr h < snd_nxt r ->
  (snd_una r - 1 - 2 * window_size r) mod 4294967296 <= ack_nr h ->
  exists m',
    csp_rdp_new_packet packet m = Some (tt, m') /\
    rdp_lock m' = false /\
    trace m' = trace m ++ [Freed (rx_host_order packet)] /\
    (ack_nr h = snd_iss r ->
     state (rdp (conn m')) = RDP_OPEN /\
     snd_una (rdp (conn m')) = u16 (snd_iss r + 1) /\
     conn_rx_queue (conn m') = conn_rx_queue (conn m)) /\
    (ack_nr h <> snd_iss r ->
     rdp (conn m') = r /\ conn m' = close_notified (conn m)).
Proof.
  intros r h Hl Hst Hrst Hsyn Hack Heak Hlen Hseq Hcur Hcur0 Hhi Hlo.
  pose proof (ntohs_range (seq_nr (header packet))) as Hsr.
  pose proof (ntohs_range (ack_nr (header packet))) as Har.
  rewrite (open_entry m packet Hl (or_introl Hst) Hrst Hsyn Hack). fold r h.
  assert (Eseq : seq_nr_unacceptable r h = false).
  { apply seq_nr_unacceptable_spec; [exact Hsr|]. rewrite Z.mod_small by lia. exact Hseq. }
  rewrite Eseq.
  assert (Ehi : ack_nr_too_high r h = false) by (apply ack_nr_too_high_false; exact Hhi).
  assert (Elo : ack_nr_too_low r h = false)
    by (apply ack_nr_too_low_false; [exact Har | exact Hlo]).
  unfold rdp_open_ack. unfold bind at 1. cbn [rdp_get conn set_rdp_lock].
  unfold csp_rdp_header_ref. fold r h. rewrite Ehi, Elo, Hst.
  cbn [state_eqb andb].
  destruct (ack_nr h =? snd_iss r) eqn:E; cbn [negb].
  - apply Z.eqb_eq in E.
    unfold bind at 1. cbn [rdp_upd]. unfold bind at 1. cbn [rdp_upd].
    unfold rdp_open_data, csp_rdp_header_ref.
    change (eak (header (rx_host_order packet))) with (eak (header packet)). rewrite Heak.
    change (length (rx_host_order packet)) with (length packet).
    assert (El : (length packet <=? sizeof_rdp_header_t) = true) by (apply Z.leb_le; exact Hlen).
    rewrite El, run_discard_open.
    eexists. split; [reflexivity|]. cbn.
    split; [reflexivity|]. split; [reflexivity|].
    split; [intros _; unfold h in E; cbn in E; rewrite E; repeat split
           | intros Hne; contradiction].
  - apply Z.eqb_neq in E.
    rewrite run_discard_close.
    eexists. split; [reflexivity|]. cbn.
    split; [reflexivity|]. split; [reflexivity|].
    split; [intros Heq; contradiction|].
    intros _. split; [apply close_notified_rdp | reflexivity].
Qed.

Lemma run_syn_sent_synack m packet n :
  let r := rdp (conn m) in
  let h := header (rx_host_order packet) in
  rdp_lock m = false -> state r = RDP_SYN_SENT -> pool m = S n ->
  rst (header packet) = false -> syn (header packet) = true -> ack (header packet) = true ->
  exists m',
    csp_rdp_new_packet packet m = Some (tt, m') /\
    rdp_core (rdp (conn m'))
    = (RDP_OPEN, [snd_nxt r; u16 (ack_nr h + 1); snd_iss r; seq_nr h; seq_nr h],
       session_params r) /\
    tx_wait (rdp (conn m')) = true /\ rdp_lock m' = false /\
    tx_queue (rdp (conn m')) = tx_queue r /\ rx_queue (rdp (conn m')) = rx_queue r /\
    conn_rx_queue (conn m') = conn_rx_queue (conn m) /\
    trace m' = trace m
               ++ (if delay_acks m then []
                   else [handed_to_if m (control_packet true false false false
                                           (snd_nxt r) (seq_nr h))])
               ++ [Freed (rx_host_order packet)].
Proof.
  intros r h Hl Hst Hp Hrst Hsyn Hack.
  rewrite (new_packet_entry m packet Hl). cbv zeta.
  rewrite listen_init_other by (fold r; rewrite Hst; discriminate).
  change (rst (header (rx_host_order packet))) with (rst (header packet)). rewrite Hrst.
  unfold bind at 1. cbn [rdp_get conn set_conn rdp set_rdp]. fold r. rewrite Hst.
  unfold rdp_syn_sent, csp_rdp_header_ref.
  change (syn (header (rx_host_order packet))) with (syn (header packet)).
  change (ack (header (rx_host_order packet))) with (ack (header packet)).
  rewrite Hsyn, Hack. cbn [andb]. fold h.
  unfold bind at 1. cbn [rdp_upd]. unfold bind at 1. unfold cfg_delay_acks at 1.
  cbn [delay_acks set_conn set_rdp_lock].
  destruct (delay_acks m) eqn:Hda.
  - unfold bind at 1. cbn [rdp_upd]. unfold bind at 1. unfold tx_wait_post. cbn [rdp_upd].
    rewrite run_discard_open. eexists. split; [reflexivity|].
    unfold r, h. cbn. rewrite ?app_nil_r. repeat split.
  - unfold bind at 1. unfold bind at 1. cbn [rdp_get]. unfold bind at 1.
    match goal with |- context [csp_rdp_send_cmp None ?a ?s ?rs ?e ?sq ?ak false ?m0] =>
      destruct (run_send_cmp_acked m0 n a s rs e sq ak) as (res & lsa & ts & p & Hrun);
        [exact Hp | rewrite Hrun]
    end.
    cbn [ret]. unfold bind at 1. unfold tx_wait_post. cbn [rdp_upd].
    rewrite run_discard_open. eexists. split; [reflexivity|].
    unfold r, h, handed_to_if. cbn. rewrite <- ?app_assoc. repeat split.
Qed.

Lemma connect_active_entry o others1 others2 timeout m :
  rdp_lock m = false -> state (rdp (conn m)) <> RDP_OPEN ->
  csp_rdp_connect_active o others1 others2 timeout m
  = (sent <- csp_rdp_send_syn o ;;
     if sent =? 0 then connect_error else
     csp_rdp_release ;; tx_wait_poll ;;
     result <- tx_wait_sleep others1 ;;
     ok <- csp_rdp_wait ;;
     if negb ok then ret 0 else
     if result then
       r <- rdp_get ;;
       if state_eqb (state r) RDP_OPEN then csp_rdp_release ;; ret 1
       else if state_eqb (state r) RDP_SYN_SENT
            then csp_rdp_flush_all ;; connect_try o others2 connect_error
       else connect_error
     else connect_error) (connecting o m).
Proof.
  intros Hl Hst.
  assert (E : state_eqb (state (rdp (conn m))) RDP_OPEN = false)
    by (destruct (state (rdp (conn m))); try reflexivity; contradiction).
  unfold csp_rdp_connect_active. unfold bind at 1. unfold csp_rdp_wait at 1. rewrite Hl.
  cbn [negb]. unfold bind at 1. unfold csp_get_ms at 1. unfold bind at 1. cbn [rdp_upd].
  unfold connect_try at 1. unfold bind at 1. cbn [rdp_get conn set_conn rdp set_rdp].
  cbn [state rdp_set_ack_timestamp rdp_set_ack_delay_count rdp_set_ack_timeout
       rdp_set_delayed_acks rdp_set_packet_timeout rdp_set_conn_timeout rdp_set_window_size].
  change (state (rdp (conn (set_rdp_lock true m)))) with (state (rdp (conn m))).
  rewrite E. unfold bind at 1. cbn [rdp_upd]. unfold bind at 1. cbn [rdp_upd].
  reflexivity.
Qed.

(** X11: an active open that is answered.  [csp_rdp_connect_active] on a
    connection that is not OPEN sends a SYN with initial sequence number
    1000 and sleeps; when the peer's SYN|ACK is handed to
    [csp_rdp_new_packet] meanwhile, the call returns 1 with the
    connection OPEN, the configured parameters in force, [snd_nxt = 1001],
    [snd_una] one past the acknowledged number, the peer's sequence number
    as [rcv_cur] and [rcv_irs], and the lock released. *)
Theorem active_open_answered (o : rdp_options) (others2 : machine -> machine)
    (timeout : Z) (m : machine) (n : nat) (reply : csp_packet_t) :
  let h := header (rx_host_order reply) in
  rdp_lock m = false -> state (rdp (conn m)) <> RDP_OPEN ->
  pool m = S (S (S n)) -> if_up m = true ->
  rst (header reply) = false -> syn (header reply) = true -> ack (header reply) = true ->
  exists m',
    csp_rdp_connect_active o (delivers reply) others2 timeout m = Some (1, m') /\
    rdp_core (rdp (conn m'))
    = (RDP_OPEN, [1001; u16 (ack_nr h + 1); 1000; seq_nr h; seq_nr h], option_params o) /\
    rdp_lock m' = false /\
    In (Sent (syn_packet o 1000)) (trace m').
Proof.
  intros h Hl Hst Hp Hup Hrst Hsyn Hack.
  rewrite (connect_active_entry o _ _ _ m Hl Hst).
  destruct (run_csp_rdp_send_syn o (connecting o m) (S n) Hp Hup)
    as (ms & Hsend & Htr & _ & Hcore & _ & Hsur & Hpool).
  cbv zeta in Htr. change (snd_iss (rdp (conn (connecting o m)))) with 1000 in Htr.
  unfold bind at 1. rewrite Hsend. change (1 =? 0) with false. cbv iota.
  unfold bind at 1. unfold csp_rdp_release at 1. unfold bind at 1.
  unfold tx_wait_poll at 1. cbn [rdp_upd]. unfold bind at 1. unfold tx_wait_sleep at 1.
  set (m1 := set_conn (set_rdp (rdp_set_tx_wait false (rdp (conn (set_rdp_lock false ms))))
                               (conn (set_rdp_lock false ms))) (set_rdp_lock false ms)).
  apply rdp_core_fields in Hcore.
  destruct Hcore as (Hcst & Hcn & Hcu & Hci & Hcc & Hcr & Hcp).
  assert (Hp1 : exists k, pool m1 = S k).
  { change (pool m1) with (pool ms). rewrite Hpool. destruct (_ <? _)%nat; eauto. }
  destruct Hp1 as (k & Hp1).
  assert (Hs1 : state (rdp (conn m1)) = RDP_SYN_SENT).
  { change (state (rdp (conn m1))) with (state (rdp (conn ms))). rewrite Hcst. reflexivity. }
  assert (Hl1 : rdp_lock m1 = false) by reflexivity.
  destruct (run_syn_sent_synack m1 reply k Hl1 Hs1 Hp1 Hrst Hsyn Hack)
    as (m2 & Hrun & Hcore2 & Hw2 & Hl2 & _ & _ & _ & Htr2).
  unfold delivers. rewrite Hrun. cbv zeta. rewrite Hw2.
  unfold bind at 1. unfold csp_rdp_wait at 1.
  change (rdp_lock (set_conn (set_rdp (rdp_set_tx_wait false (rdp (conn m2))) (conn m2)) m2))
    with (rdp_lock m2).
  rewrite Hl2. cbn [negb]. unfold bind at 1. cbn [rdp_get conn set_conn set_rdp_lock rdp set_rdp].
  apply rdp_core_value in Hcore2.
  destruct Hcore2 as (Hst2 & Hn2 & Hu2 & Hi2 & Hc2 & Hr2 & Hp2).
  change (state (rdp_set_tx_wait false (rdp (conn m2)))) with (state (rdp (conn m2))).
  rewrite Hst2. cbn [state_eqb]. unfold bind at 1. unfold csp_rdp_release at 1. unfold ret.
  eexists. split; [reflexivity|].
  cbn [conn set_conn set_rdp_lock rdp set_rdp rdp_lock trace].
  split.
  { unfold rdp_core.
    change (state (rdp_set_tx_wait false (rdp (conn m2)))) with (state (rdp (conn m2))).
    change (snd_nxt (rdp_set_tx_wait false (rdp (conn m2)))) with (snd_nxt (rdp (conn m2))).
    change (snd_una (rdp_set_tx_wait false (rdp (conn m2)))) with (snd_una (rdp (conn m2))).
    change (snd_iss (rdp_set_tx_wait false (rdp (conn m2)))) with (snd_iss (rdp (conn m2))).
    change (rcv_cur (rdp_set_tx_wait false (rdp (conn m2)))) with (rcv_cur (rdp (conn m2))).
    change (rcv_irs (rdp_set_tx_wait false (rdp (conn m2)))) with (rcv_irs (rdp (conn m2))).
    change (session_params (rdp_set_tx_wait false (rdp (conn m2))))
      with (session_params (rdp (conn m2))).
    rewrite Hst2, Hn2, Hu2, Hi2, Hc2, Hr2, Hp2.
    change (snd_nxt (rdp (conn m1))) with (snd_nxt (rdp (conn ms))).
    change (snd_iss (rdp (conn m1))) with (snd_iss (rdp (conn ms))).
    change (session_params (rdp (conn m1))) with (session_params (rdp (conn ms))).
    rewrite Hcn, Hci, Hcp. reflexivity. }
  split; [reflexivity|].
  rewrite Htr2. change (trace m1) with (trace ms). rewrite Htr.
  apply in_or_app. left.
  apply in_or_app. right. apply in_or_app. right. left. reflexivity.
Qed.

Lemma run_csp_rdp_send_syn_short o m :
  (pool m < 2)%nat ->
  csp_rdp_send_syn o m = Some (0, set_pool 0 m).
Proof.
  intros Hp. unfold csp_rdp_send_syn. unfold bind at 1. unfold csp_buffer_get at 1.
  destruct (pool m) as [|[|p]] eqn:E; [| |lia].
  - unfold ret. f_equal. f_equal. apply machine_eq; cbn; auto.
  - rewrite send_syn_payload. unfold bind at 1. cbn [rdp_get].
    unfold csp_rdp_send_cmp, bind, csp_buffer_get. cbn. reflexivity.
Qed.

(** X12: an active open that fails.  When fewer than two buffers are free
    no SYN is sent, and when the SYN is sent but nothing arrives for the
    connection before the wait ends, [csp_rdp_connect_active] returns 0
    and leaves the connection in CLOSE_WAIT with the lock released.  With
    exactly one free buffer that buffer is taken for the SYN and neither
    sent nor given back. *)
Theorem active_open_fails (o : rdp_options) (others1 others2 : machine -> machine)
    (timeout : Z) (m : machine) :
  let r := rdp (conn m) in
  let room := (List.length (items (tx_queue r)) <? capacity (tx_queue r))%nat in
  rdp_lock m = false -> state r <> RDP_OPEN ->
  (pool m < 2)%nat \/ ((2 <= pool m)%nat /\ if_up m = true /\ quiet others1) ->
  exists m',
    csp_rdp_connect_active o others1 others2 timeout m = Some (0, m') /\
    rdp_core (rdp (conn m'))
    = (RDP_CLOSE_WAIT, [1001; 1000; 1000; rcv_cur r; rcv_irs r], option_params o) /\
    rdp_lock m' = false /\
    ((pool m < 2)%nat -> trace m' = trace m /\ pool m' = 0%nat) /\
    ((2 <= pool m)%nat ->
     trace m' = trace m ++ (if room then []
                            else [Freed (set_timestamp (clock m) (syn_packet o 1000))])
                        ++ [Sent (syn_packet o 1000)]).
Proof.
  intros r room Hl Hst Hcase.
  rewrite (connect_active_entry o _ _ _ m Hl Hst).
  destruct Hcase as [Hshort|(Hp & Hup & Hq)].
  - unfold bind at 1. rewrite run_csp_rdp_send_syn_short by exact Hshort.
    change (0 =? 0) with true. cbv iota.
    eexists. split; [reflexivity|]. cbn.
    split; [reflexivity|]. split; [reflexivity|].
    split; [intros _; split; reflexivity | intros H; lia].
  - destruct (pool m) as [|[|n]] eqn:Ep; [lia | lia |].
    destruct (run_csp_rdp_send_syn o (connecting o m) n Ep Hup)
      as (ms & Hsend & Htr & _ & Hcore & _ & Hsur & Hpool).
    cbv zeta in Htr. change (snd_iss (rdp (conn (connecting o m)))) with 1000 in Htr.
    unfold bind at 1. rewrite Hsend. change (1 =? 0) with false. cbv iota.
    unfold bind at 1. unfold csp_rdp_release at 1. unfold bind at 1.
    unfold tx_wait_poll at 1. cbn [rdp_upd]. unfold bind at 1. unfold tx_wait_sleep at 1.
    set (m1 := set_conn (set_rdp (rdp_set_tx_wait false (rdp (conn (set_rdp_lock false ms))))
                                 (conn (set_rdp_lock false ms))) (set_rdp_lock false ms)).
    destruct (Hq m1) as (Hc1 & Hl1 & Ht1).
    cbv zeta. rewrite Hc1. change (tx_wait (rdp (conn m1))) with false. cbv iota.
    unfold bind at 1. unfold csp_rdp_wait at 1. rewrite Hl1.
    change (rdp_lock m1) with false. cbv iota. cbn [negb].
    unfold connect_error, rdp_upd, csp_rdp_release, bind, ret.
    eexists. split; [reflexivity|].
    cbn [conn set_conn set_rdp_lock rdp set_rdp rdp_lock trace].
    apply rdp_core_fields in Hcore.
    destruct Hcore as (Hcst & Hcn & Hcu & Hci & Hcc & Hcr & Hcp).
    split.
    { rewrite Hc1. unfold rdp_core.
      change (rdp (conn m1)) with (rdp_set_tx_wait false (rdp (conn ms))).
      cbn [state snd_nxt snd_una snd_iss rcv_cur rcv_irs rdp_set_state rdp_set_tx_wait].
      change (session_params (rdp_set_state RDP_CLOSE_WAIT (rdp_set_tx_wait false (rdp (conn ms)))))
        with (session_params (rdp (conn ms))).
      rewrite Hcn, Hcu, Hci, Hcc, Hcr, Hcp. reflexivity. }
    split; [reflexivity|].
    split; [intros H; lia|].
    intros _. rewrite Ht1. change (trace m1) with (trace ms). rewrite Htr. reflexivity.
Qed.

(** ** Sending data *)




(** ** What a packet can do to the connection state *)

Lemma core_tx_queue_enqueue p : rkeeps rdp_core (tx_queue_enqueue p).
Proof. unfold tx_queue_enqueue. rkeeps_auto. Qed.
Lemma core_tx_queue_dequeue : rkeeps rdp_core tx_queue_dequeue.
Proof. unfold tx_queue_dequeue. rkeeps_auto. Qed.
Lemma core_rx_queue_enqueue p : rkeeps rdp_core (rx_queue_enqueue p).
Proof. unfold rx_queue_enqueue. rkeeps_auto. Qed.
Lemma core_rx_queue_dequeue : rkeeps rdp_core rx_queue_dequeue.
Proof. unfold rx_queue_dequeue. rkeeps_auto. Qed.
Lemma core_conn_rx_enqueue x : rkeeps rdp_core (conn_rx_enqueue x).
Proof. unfold conn_rx_enqueue. rkeeps_auto. Qed.
Lemma core_tx_wait_post : rkeeps rdp_core tx_wait_post.
Proof. unfold tx_wait_post. rkeeps_auto. Qed.
#[local] Hint Resolve core_tx_queue_enqueue core_tx_queue_dequeue
  core_rx_queue_enqueue core_rx_queue_dequeue core_conn_rx_enqueue
  core_tx_wait_post : rkeeps.

Lemma core_csp_rdp_send_cmp p a s r e sq ak c :
  rkeeps rdp_core (csp_rdp_send_cmp p a s r e sq ak c).
Proof. unfold csp_rdp_send_cmp. rkeeps_auto. Qed.
#[local] Hint Resolve core_csp_rdp_send_cmp : rkeeps.

Lemma core_send_eack_loop n : forall p, rkeeps rdp_core (send_eack_loop n p).
Proof. induction n; intros p; cbn [send_eack_loop]; rkeeps_auto. Qed.
#[local] Hint Resolve core_send_eack_loop : rkeeps.

Lemma core_csp_rdp_send_eack : rkeeps rdp_core csp_rdp_send_eack.
Proof. unfold csp_rdp_send_eack. rkeeps_auto. Qed.
#[local] Hint Resolve core_csp_rdp_send_eack : rkeeps.

Lemma core_csp_rdp_receive_data p : rkeeps rdp_core (csp_rdp_receive_data p).
Proof. unfold csp_rdp_receive_data. rkeeps_auto. Qed.
#[local] Hint Resolve core_csp_rdp_receive_data : rkeeps.

Lemma core_rx_queue_exists_loop n s : rkeeps rdp_core (rx_queue_exists_loop n s).
Proof. induction n; cbn [rx_queue_exists_loop]; rkeeps_auto. Qed.
#[local] Hint Resolve core_rx_queue_exists_loop : rkeeps.

Lemma core_csp_rdp_rx_queue_add p s : rkeeps rdp_core (csp_rdp_rx_queue_add p s).
Proof. unfold csp_rdp_rx_queue_add, csp_rdp_rx_queue_exists. rkeeps_auto. Qed.
#[local] Hint Resolve core_csp_rdp_rx_queue_add : rkeeps.

Lemma core_flush_eack_loop n p : rkeeps rdp_core (flush_eack_loop n p).
Proof. induction n; cbn [flush_eack_loop]; rkeeps_auto. Qed.
#[local] Hint Resolve core_flush_eack_loop : rkeeps.

Lemma core_csp_rdp_flush_eack p : rkeeps rdp_core (csp_rdp_flush_eack p).
Proof. unfold csp_rdp_flush_eack. rkeeps_auto. Qed.
#[local] Hint Resolve core_csp_rdp_flush_eack : rkeeps.

Lemma core_tx_queue_sweep n t : rkeeps rdp_core (tx_queue_sweep n t).
Proof. induction n; cbn [tx_queue_sweep]; rkeeps_auto. Qed.
#[local] Hint Resolve core_tx_queue_sweep : rkeeps.

Lemma core_discard_open p : rkeeps rdp_core (discard_open p).
Proof. unfold discard_open, accepted_open. rkeeps_auto. Qed.
#[local] Hint Resolve core_discard_open : rkeeps.

Lemma core_discard_close p : rkeeps rdp_core (discard_close p).
Proof. unfold discard_close. rkeeps_auto. Qed.
#[local] Hint Resolve core_discard_close : rkeeps.

Lemma rkeeps_state_of_core {A} (c : M A) : rkeeps rdp_core c -> rkeeps state c.
Proof.
  intros K m a m' H. apply K in H. apply rdp_core_fields in H. tauto.
Qed.
#[local] Hint Resolve rkeeps_state_of_core : rkeeps.

Lemma state_rx_queue_flush_pass n : rkeeps state (rx_queue_flush_pass n).
Proof. induction n; cbn [rx_queue_flush_pass]; rkeeps_auto. Qed.
#[local] Hint Resolve state_rx_queue_flush_pass : rkeeps.

Lemma state_rx_queue_flush_from n : rkeeps state (rx_queue_flush_from n).
Proof. induction n; cbn [rx_queue_flush_from]; rkeeps_auto. Qed.
#[local] Hint Resolve state_rx_queue_flush_from : rkeeps.

Lemma state_csp_rdp_rx_queue_flush : rkeeps state csp_rdp_rx_queue_flush.
Proof. unfold csp_rdp_rx_queue_flush. rkeeps_auto. Qed.
#[local] Hint Resolve state_csp_rdp_rx_queue_flush : rkeeps.

Lemma state_rdp_open_data p : rkeeps state (rdp_open_data p).
Proof. unfold rdp_open_data, accepted_open. rkeeps_auto. Qed.
#[local] Hint Resolve state_rdp_open_data : rkeeps.

Ltac state_rest H :=
  match type of H with
  | ?c ?m1 = Some _ =>
      let K := fresh "K" in
      assert (K : rkeeps state c) by (rkeeps_auto);
      apply K in H
  end.

Lemma csp_close_from_close_wait m a m' :
  rdp_lock m = false -> state (rdp (conn m)) = RDP_CLOSE_WAIT ->
  csp_close m = Some (a, m') -> state (rdp (conn m')) = RDP_CLOSED.
Proof.
  intros Hl Hst. unfold csp_close, csp_rdp_close, bind, csp_rdp_wait.
  rewrite Hl. cbn. rewrite Hst. cbn. intros H. inversion H. reflexivity.
Qed.

Lemma rdp_reset_received_state p m m' :
  rdp_reset_received p m = Some (tt, m') ->
  let s := state (rdp (conn m)) in
  let s' := state (rdp (conn m')) in
  (s = RDP_CLOSE_WAIT -> s' = RDP_CLOSED) /\
  (s <> RDP_CLOSE_WAIT -> s' = RDP_CLOSE_WAIT \/ s' = s).
Proof.
  unfold rdp_reset_received. cbn zeta. intros H.
  apply bind_inv in H. destruct H as (x1 & m1 & H1 & H).
  assert (Hs1 : state (rdp (conn m1)) = state (rdp (conn m)))
    by (destruct (ack _); inversion H1; reflexivity).
  assert (Hl1 : rdp_lock m1 = rdp_lock m)
    by (destruct (ack _); inversion H1; reflexivity).
  unfold bind at 1 in H. cbn [rdp_get] in H.
  rewrite <- Hs1.
  destruct (state (rdp (conn m1))) eqn:Est; cbn [state_eqb] in H.
  6: { split; [intros _|intros Hne; contradiction].
       apply bind_inv in H. destruct H as (x2 & m2 & H2 & H).
       apply bind_inv in H. destruct H as (x3 & m3 & H3 & H).
       inversion H2; subst m2. inversion H3; subst m3.
       apply csp_close_from_close_wait in H; [exact H | reflexivity | exact Est]. }
  all: split; [discriminate|intros _].
  all: destruct (_ =? _);
    [ apply bind_inv in H; destruct H as (x2 & m2 & H2 & H);
      apply bind_inv in H; destruct H as (x3 & m3 & H3 & H);
      state_rest H; left; rewrite H; inversion H3; reflexivity
    | state_rest H; right; rewrite H; exact Est ].
Qed.

Lemma rdp_listen_state p m m' :
  rdp_listen p m = Some (tt, m') ->
  let s := state (rdp (conn m)) in
  let s' := state (rdp (conn m')) in
  s' = s \/ (s' = RDP_SYN_RCVD /\ syn (header p) = true /\ ack (header p) = false).
Proof.
  unfold rdp_listen, csp_rdp_header_ref. cbn zeta. intros H.
  unfold bind at 1 in H. cbn [rdp_get] in H.
  destruct (ack (header p)) eqn:Ea; [left; state_rest H; exact H|].
  destruct (syn (header p)) eqn:Es; [|left; state_rest H; exact H].
  right. split; [|split; reflexivity].
  apply bind_inv in H. destruct H as (da & m1 & Hb1 & H).
  unfold cfg_delay_acks in Hb1. injection Hb1 as Hda Hm1. subst m1 da.
  apply bind_inv in H. destruct H as (x2 & m2 & Hb2 & H).
  unfold rdp_upd in Hb2. injection Hb2 as Hm2. subst m2.
  apply bind_inv in H. destruct H as (r2 & m3 & Hb3 & H).
  unfold rdp_get in Hb3. injection Hb3 as Hr2 Hm3. subst m3 r2.
  state_rest H. rewrite H. cbn. destruct (delay_acks m); reflexivity.
Qed.

Lemma rdp_syn_sent_state p m m' :
  rdp_syn_sent p m = Some (tt, m') ->
  let s := state (rdp (conn m)) in
  let s' := state (rdp (conn m')) in
  s' = s \/ (s' = RDP_OPEN /\ syn (header p) = true /\ ack (header p) = true).
Proof.
  unfold rdp_syn_sent, csp_rdp_header_ref. cbn zeta. intros H.
  destruct (syn (header p)) eqn:Es; destruct (ack (header p)) eqn:Ea; cbn [andb] in H.
  - right. split; [|split; reflexivity].
    apply bind_inv in H. destruct H as (x1 & m1 & H1 & H). inversion H1; subst m1.
    state_rest H. rewrite H. reflexivity.
  - left. state_rest H. exact H.
  - left. state_rest H. exact H.
  - left. state_rest H. exact H.
Qed.

Lemma rdp_open_state p m m' :
  rdp_open p m = Some (tt, m') ->
  let s := state (rdp (conn m)) in
  let s' := state (rdp (conn m')) in
  s' = s \/ (s = RDP_SYN_RCVD /\ s' = RDP_OPEN /\ ack (header p) = true).
Proof.
  unfold rdp_open, csp_rdp_header_ref. cbn zeta. intros H.
  destruct (syn (header p)); cbn [orb] in H; [left; state_rest H; exact H|].
  destruct (ack (header p)) eqn:Ea; cbn [negb] in H; [|left; state_rest H; exact H].
  unfold bind at 1 in H. cbn [rdp_get] in H.
  destruct (seq_nr_unacceptable _ _).
  - left. unfold rdp_open_seq_unacceptable in H. state_rest H. exact H.
  - unfold rdp_open_ack in H. unfold bind at 1 in H. cbn [rdp_get] in H.
    destruct (ack_nr_too_high _ _); [left; state_rest H; exact H|].
    destruct (ack_nr_too_low _ _); [left; state_rest H; exact H|].
    destruct (state_eqb _ _ && _); [left; state_rest H; exact H|].
    apply bind_inv in H. destruct H as (x1 & m1 & H1 & H).
    apply bind_inv in H. destruct H as (x2 & m2 & H2 & H). inversion H2; subst m2.
    state_rest H. rewrite H. cbn.
    destruct (state (rdp (conn m))) eqn:Est; cbn in H1; inversion H1; subst m1; cbn;
      try (left; exact Est).
    right. repeat split.
Qed.

Lemma rdp_close_wait_state p m m' :
  rdp_close_wait p m = Some (tt, m') ->
  state (rdp (conn m')) = state (rdp (conn m)).
Proof.
  unfold rdp_close_wait. intros H. state_rest H. exact H.
Qed.

Ltac transitions_done :=
  split; [reflexivity|];
  (split; [|split]); intros Hne Hs;
  try (exfalso; apply Hne; reflexivity);
  try discriminate Hs;
  try (destruct Hs as [Hs|Hs]; discriminate Hs);
  repeat split; try reflexivity; try assumption.

(** X14: the state machine of [csp_rdp_new_packet].  Whatever the packet,
    the state after the call is one that [may_follow] allows: OPEN is
    left only for CLOSE_WAIT, CLOSE_WAIT only for CLOSED, LISTEN is never
    followed by OPEN.  CLOSE_WAIT and CLOSED are entered only on a reset,
    OPEN only on an acknowledgement without reset, SYN_RCVD only on a SYN
    without acknowledgement. *)
Theorem new_packet_transitions (m : machine) (packet : csp_packet_t) (m' : machine) :
  let s := state (rdp (conn m)) in
  let s' := state (rdp (conn m')) in
  let h := header packet in
  csp_rdp_new_packet packet m = Some (tt, m') ->
  may_follow s s' = true /\
  (s' <> s -> s' = RDP_CLOSE_WAIT \/ s' = RDP_CLOSED -> rst h = true) /\
  (s' <> s -> s' = RDP_OPEN -> rst h = false /\ ack h = true) /\
  (s' <> s -> s' = RDP_SYN_RCVD -> rst h = false /\ syn h = true /\ ack h = false).
Proof.
  intros s s' h H. destruct (rdp_lock m) eqn:Hlock.
  - unfold csp_rdp_new_packet, bind, csp_rdp_wait in H.
    rewrite Hlock in H. cbn in H.
    assert (E : s' = s) by (unfold s, s'; injection H as H; rewrite <- H; reflexivity).
    rewrite E. split; [destruct s; reflexivity|].
    (split; [|split]); intros Hne; exfalso; apply Hne; reflexivity.
  - rewrite new_packet_entry in H by exact Hlock. cbn zeta in H.
    set (m0 := set_conn (set_rdp (listen_init (rdp (conn m))) (conn m))
                        (set_rdp_lock true m)) in H.
    assert (Hs0 : state (rdp (conn m0))
                  = if state_eqb s RDP_CLOSED then RDP_LISTEN else s).
    { unfold m0, listen_init. cbn. fold s. destruct (state_eqb s RDP_CLOSED); reflexivity. }
    change (rst (header (rx_host_order packet))) with (rst h) in H.
    destruct (rst h) eqn:Hrst.
    + apply rdp_reset_received_state in H. cbn zeta in H. fold s' in H.
      rewrite Hs0 in H. destruct H as (Hcw & Hother).
      destruct s eqn:Es; cbn [state_eqb] in Hcw, Hother.
      6: { rewrite (Hcw eq_refl). transitions_done. }
      all: destruct Hother as [E|E]; [discriminate | |]; rewrite E; transitions_done.
    + unfold bind at 1 in H. cbn [rdp_get] in H. rewrite Hs0 in H.
      destruct s eqn:Es; cbn [state_eqb] in H, Hs0.
      * apply rdp_listen_state in H. cbn zeta in H. fold s' in H. rewrite Hs0 in H.
        change (header (rx_host_order packet)) with
          (set_seq_nr (ntohs (seq_nr h)) (set_ack_nr (ntohs (ack_nr h)) h)) in H.
        cbn [syn ack set_seq_nr set_ack_nr] in H.
        destruct H as [E|(E & Hsy & Hak)]; rewrite E; transitions_done.
      * apply rdp_listen_state in H. cbn zeta in H. fold s' in H. rewrite Hs0 in H.
        change (header (rx_host_order packet)) with
          (set_seq_nr (ntohs (seq_nr h)) (set_ack_nr (ntohs (ack_nr h)) h)) in H.
        cbn [syn ack set_seq_nr set_ack_nr] in H.
        destruct H as [E|(E & Hsy & Hak)]; rewrite E; transitions_done.
      * apply rdp_syn_sent_state in H. cbn zeta in H. fold s' in H. rewrite Hs0 in H.
        change (header (rx_host_order packet)) with
          (set_seq_nr (ntohs (seq_nr h)) (set_ack_nr (ntohs (ack_nr h)) h)) in H.
        cbn [syn ack set_seq_nr set_ack_nr] in H.
        destruct H as [E|(E & Hsy & Hak)]; rewrite E; transitions_done.
      * apply rdp_open_state in H. cbn zeta in H. fold s' in H. rewrite Hs0 in H.
        change (header (rx_host_order packet)) with
          (set_seq_nr (ntohs (seq_nr h)) (set_ack_nr (ntohs (ack_nr h)) h)) in H.
        cbn [syn ack set_seq_nr set_ack_nr] in H.
        destruct H as [E|(_ & E & Hak)]; rewrite E; transitions_done.
      * apply rdp_open_state in H. cbn zeta in H. fold s' in H. rewrite Hs0 in H.
        destruct H as [E|(E0 & _)]; [rewrite E; transitions_done | discriminate E0].
      * apply rdp_close_wait_state in H. fold s' in H. rewrite Hs0 in H.
        rewrite H. transitions_done.
Qed.

(** ** The lock *)

Lemma unlocks_bind {A B} (c : M A) (k : A -> M B) :
  (forall a, unlocks (k a)) -> unlocks (bind c k).
Proof.
  intros Hk m b m' H. apply bind_inv in H. destruct H as (a & m1 & _ & H).
  exact (Hk a _ _ _ H).
Qed.

Lemma unlocks_fault {A} : unlocks (@fault A).
Proof. intros m a m' H. discriminate H. Qed.

Lemma unlocks_release : unlocks csp_rdp_release.
Proof. intros m a m' H. inversion H. reflexivity. Qed.

Lemma unlocks_release_ret {A} (a : A) : unlocks (csp_rdp_release ;; ret a).
Proof. intros m b m' H. inversion H. reflexivity. Qed.

Lemma unlocks_accepted_open : unlocks accepted_open.
Proof. exact unlocks_release. Qed.

Lemma unlocks_discard_open p : unlocks (discard_open p).
Proof. intros m a m' H. rewrite run_discard_open in H. inversion H. reflexivity. Qed.

Lemma unlocks_discard_close p : unlocks (discard_close p).
Proof. intros m a m' H. rewrite run_discard_close in H. inversion H. reflexivity. Qed.

Lemma csp_rdp_close_unlocked m a m' :
  rdp_lock m = false -> csp_rdp_close m = Some (a, m') -> rdp_lock m' = false.
Proof.
  intros Hl. unfold csp_rdp_close. unfold bind at 1. unfold csp_rdp_wait at 1.
  rewrite Hl. cbn [negb]. unfold bind at 1. cbn [rdp_get]. intros H.
  destruct (negb _).
  - apply bind_inv in H. destruct H as (x1 & m1 & _ & H).
    apply bind_inv in H. destruct H as (x2 & m2 & _ & H).
    exact (unlocks_release_ret 1 _ _ _ H).
  - apply bind_inv in H. destruct H as (x1 & m1 & _ & H).
    exact (unlocks_release_ret 0 _ _ _ H).
Qed.

Lemma csp_close_unlocked m a m' :
  rdp_lock m = false -> csp_close m = Some (a, m') -> rdp_lock m' = false.
Proof.
  intros Hl H. unfold csp_close in H. apply bind_inv in H.
  destruct H as (pending & m1 & H1 & H).
  apply (csp_rdp_close_unlocked _ _ _ Hl) in H1.
  destruct (pending =? 1); inversion H; subst; cbn; exact H1.
Qed.

Lemma unlocks_release_close : unlocks (csp_rdp_release ;; csp_close).
Proof.
  intros m a m' H. apply bind_inv in H. destruct H as (x & m1 & H1 & H).
  inversion H1; subst m1. apply csp_close_unlocked in H; [exact H | reflexivity].
Qed.

Create HintDb unlocks.
#[local] Hint Resolve unlocks_fault unlocks_release unlocks_release_ret
  unlocks_accepted_open unlocks_discard_open unlocks_discard_close
  unlocks_release_close : unlocks.

(** Follows a computation to its last statement. *)
Ltac unlocks_step :=
  first
    [ solve [auto with unlocks]
    | lazymatch goal with
      | |- unlocks (bind _ _) => apply unlocks_bind; intros ?
      | |- unlocks (if ?b then _ else _) => destruct b
      | |- unlocks (match ?x with _ => _ end) => destruct x
      end ].
Ltac unlocks_auto := repeat unlocks_step.

Lemma unlocks_rdp_reset_received p : unlocks (rdp_reset_received p).
Proof. unfold rdp_reset_received. unlocks_auto. Qed.

Lemma unlocks_rdp_listen p : unlocks (rdp_listen p).
Proof. unfold rdp_listen. unlocks_auto. Qed.

Lemma unlocks_rdp_syn_sent p : unlocks (rdp_syn_sent p).
Proof. unfold rdp_syn_sent. unlocks_auto. Qed.

Lemma unlocks_rdp_open p : unlocks (rdp_open p).
Proof.
  unfold rdp_open, rdp_open_seq_unacceptable, rdp_open_ack, rdp_open_data. unlocks_auto.
Qed.

Lemma unlocks_rdp_close_wait p : unlocks (rdp_close_wait p).
Proof. unfold rdp_close_wait. unlocks_auto. Qed.

(** X15: the lock is balanced.  [csp_rdp_new_packet],
    [csp_rdp_check_timeouts] and [csp_rdp_close] return with the RDP lock
    as they found it: released when they could take it, whatever path they
    took, and untouched when another task held it. *)
Theorem lock_balanced (m : machine) (packet : csp_packet_t) :
  (forall m', csp_rdp_new_packet packet m = Some (tt, m') -> rdp_lock m' = rdp_lock m) /\
  (forall m', csp_rdp_check_timeouts m = Some (tt, m') -> rdp_lock m' = rdp_lock m) /\
  (forall res m', csp_rdp_close m = Some (res, m') -> rdp_lock m' = rdp_lock m).
Proof.
  destruct (rdp_lock m) eqn:Hlock.
  - assert (Hclose : forall res m', csp_rdp_close m = Some (res, m') -> rdp_lock m' = true).
    { unfold csp_rdp_close, bind, csp_rdp_wait. rewrite Hlock. cbn.
      intros res m' H. inversion H; subst m'. exact Hlock. }
    assert (Hcl : forall a m', csp_close m = Some (a, m') -> rdp_lock m' = true).
    { intros a m' H. unfold csp_close in H. apply bind_inv in H.
      destruct H as (pending & m1 & H1 & H). apply Hclose in H1.
      destruct (pending =? 1); inversion H; subst; cbn; exact H1. }
    split; [|split].
    + unfold csp_rdp_new_packet, bind, csp_rdp_wait. rewrite Hlock. cbn.
      intros m' H. inversion H. cbn. exact Hlock.
    + unfold csp_rdp_check_timeouts. unfold bind at 1. unfold csp_get_ms at 1.
      unfold bind at 1. cbn [conn_get]. intros m' H.
      destruct (_ && _); [exact (Hcl _ _ H)|].
      destruct (_ && _); [exact (Hcl _ _ H)|].
      unfold bind at 1 in H. unfold csp_rdp_wait at 1 in H. rewrite Hlock in H.
      inversion H; subst m'. exact Hlock.
    + exact Hclose.
  - split; [|split].
    + intros m' H. rewrite new_packet_entry in H by exact Hlock. cbn zeta in H.
      destruct (rst _); [exact (unlocks_rdp_reset_received _ _ _ _ H)|].
      unfold bind at 1 in H. cbn [rdp_get] in H.
      destruct (state _).
      * exact (unlocks_discard_close _ _ _ _ H).
      * exact (unlocks_rdp_listen _ _ _ _ H).
      * exact (unlocks_rdp_syn_sent _ _ _ _ H).
      * exact (unlocks_rdp_open _ _ _ _ H).
      * exact (unlocks_rdp_open _ _ _ _ H).
      * exact (unlocks_rdp_close_wait _ _ _ _ H).
    + unfold csp_rdp_check_timeouts. unfold bind at 1. unfold csp_get_ms at 1.
      unfold bind at 1. cbn [conn_get]. intros m' H.
      destruct (_ && _); [exact (csp_close_unlocked _ _ _ Hlock H)|].
      destruct (_ && _); [exact (csp_close_unlocked _ _ _ Hlock H)|].
      unfold bind at 1 in H. unfold csp_rdp_wait at 1 in H. rewrite Hlock in H.
      cbn [negb] in H.
      assert (K : unlocks
                    (tx_queue_sweep (List.length (items (tx_queue (rdp (conn m))))) (clock m) ;;
                     da <- cfg_delay_acks ;;
                     (if da then
                        r <- rdp_get ;;
                        if rcv_lsa r <? rcv_cur r then
                          now <- csp_get_ms ;;
                          let diff := u32 (now - ack_timestamp r) in
                          if diff >? ack_timeout r then
                            csp_rdp_send_cmp None true false false false
                              (snd_nxt r) (rcv_cur r) false ;;
                            ret tt
                          else ret tt
                        else ret tt
                      else ret tt) ;;
                     r <- rdp_get ;;
                     (if state_eqb (state r) RDP_OPEN
                         && (u32 (csp_queue_size (tx_queue r)) <? u32 (window_size r - 1))
                         && (u32 (snd_nxt r) <? u32 (snd_una r + u32 (window_size r * 2)))
                      then tx_wait_post else ret tt) ;;
                     csp_rdp_release))
        by (do 5 (apply unlocks_bind; intros ?); exact unlocks_release).
      exact (K _ _ _ H).
    + intros res m' H. exact (csp_rdp_close_unlocked _ _ _ Hlock H).
Qed.

(** ** Running out of buffers *)

Lemma total_ret {A} (a : A) : total (ret a).
Proof. intros m. eexists. eexists. reflexivity. Qed.

Lemma total_bind {A B} (c : M A) (k : A -> M B) :
  total c -> (forall a, total (k a)) -> total (bind c k).
Proof.
  intros Hc Hk m. destruct (Hc m) as (a & m1 & H1). destruct (Hk a m1) as (b & m2 & H2).
  exists b, m2. unfold bind. rewrite H1. exact H2.
Qed.

Lemma total_rdp_get : total rdp_get.
Proof. intros m. eexists. eexists. reflexivity. Qed.
Lemma total_rdp_upd f : total (rdp_upd f).
Proof. intros m. eexists. eexists. reflexivity. Qed.
Lemma total_conn_get : total conn_get.
Proof. intros m. eexists. eexists. reflexivity. Qed.
Lemma total_conn_upd f : total (conn_upd f).
Proof. intros m. eexists. eexists. reflexivity. Qed.
Lemma total_emit e : total (emit e).
Proof. intros m. eexists. eexists. reflexivity. Qed.
Lemma total_csp_get_ms : total csp_get_ms.
Proof. intros m. eexists. eexists. reflexivity. Qed.
Lemma total_cfg_delay_acks : total cfg_delay_acks.
Proof. intros m. eexists. eexists. reflexivity. Qed.
Lemma total_csp_buffer_get n : total (csp_buffer_get n).
Proof. intros m. unfold csp_buffer_get. destruct (pool m); eexists; eexists; reflexivity. Qed.
Lemma total_csp_buffer_free p : total (csp_buffer_free p).
Proof. intros m. eexists. eexists. reflexivity. Qed.
Lemma total_csp_send_direct p : total (csp_send_direct p).
Proof. intros m. unfold csp_send_direct. destruct (if_up m); eexists; eexists; reflexivity. Qed.
Lemma total_csp_rdp_wait : total csp_rdp_wait.
Proof. intros m. unfold csp_rdp_wait. destruct (rdp_lock m); eexists; eexists; reflexivity. Qed.
Lemma total_csp_rdp_release : total csp_rdp_release.
Proof. intros m. eexists. eexists. reflexivity. Qed.

Create HintDb total.
#[local] Hint Resolve total_ret total_rdp_get total_rdp_upd total_conn_get total_conn_upd
  total_emit total_csp_get_ms total_cfg_delay_acks total_csp_buffer_get
  total_csp_buffer_free total_csp_send_direct total_csp_rdp_wait total_csp_rdp_release
  : total.

Ltac total_step :=
  lazymatch goal with
  | |- total (bind _ _) => apply total_bind; [ | intros ? ]
  | |- total (if ?b then _ else _) => destruct b
  | |- total (match ?x with _ => _ end) => destruct x
  end.
Ltac total_auto := repeat total_step; auto with total.

Lemma total_tx_queue_enqueue p : total (tx_queue_enqueue p).
Proof. unfold tx_queue_enqueue. total_auto. Qed.
Lemma total_tx_queue_dequeue : total tx_queue_dequeue.
Proof. unfold tx_queue_dequeue. total_auto. Qed.
Lemma total_rx_queue_enqueue p : total (rx_queue_enqueue p).
Proof. unfold rx_queue_enqueue. total_auto. Qed.
Lemma total_rx_queue_dequeue : total rx_queue_dequeue.
Proof. unfold rx_queue_dequeue. total_auto. Qed.
Lemma total_conn_rx_enqueue x : total (conn_rx_enqueue x).
Proof. unfold conn_rx_enqueue. total_auto. Qed.
Lemma total_tx_wait_post : total tx_wait_post.
Proof. unfold tx_wait_post. total_auto. Qed.
#[local] Hint Resolve total_tx_queue_enqueue total_tx_queue_dequeue total_rx_queue_enqueue
  total_rx_queue_dequeue total_conn_rx_enqueue total_tx_wait_post : total.

Lemma total_send_cmp_packet p a s r e sq ak c :
  total (csp_rdp_send_cmp (Some p) a s r e sq ak c).
Proof. unfold csp_rdp_send_cmp. total_auto. Qed.
#[local] Hint Resolve total_send_cmp_packet : total.

Lemma total_send_eack_loop n : forall p, total (send_eack_loop n p).
Proof. induction n; intros p; cbn [send_eack_loop]; total_auto. Qed.
#[local] Hint Resolve total_send_eack_loop : total.

Lemma total_csp_rdp_send_eack : total csp_rdp_send_eack.
Proof. unfold csp_rdp_send_eack. total_auto. Qed.
#[local] Hint Resolve total_csp_rdp_send_eack : total.

Lemma total_csp_rdp_receive_data p : total (csp_rdp_receive_data p).
Proof. unfold csp_rdp_receive_data. total_auto. Qed.
#[local] Hint Resolve total_csp_rdp_receive_data : total.

Lemma total_rx_queue_flush_pass n : total (rx_queue_flush_pass n).
Proof. induction n; cbn [rx_queue_flush_pass]; total_auto. Qed.
#[local] Hint Resolve total_rx_queue_flush_pass : total.

Lemma total_rx_queue_flush_from n : total (rx_queue_flush_from n).
Proof. induction n; cbn [rx_queue_flush_from]; total_auto. Qed.
#[local] Hint Resolve total_rx_queue_flush_from : total.

Lemma total_csp_rdp_rx_queue_flush : total csp_rdp_rx_queue_flush.
Proof. unfold csp_rdp_rx_queue_flush. total_auto. Qed.
#[local] Hint Resolve total_csp_rdp_rx_queue_flush : total.

Lemma total_rx_queue_exists_loop n s : total (rx_queue_exists_loop n s).
Proof. induction n; cbn [rx_queue_exists_loop]; total_auto. Qed.
#[local] Hint Resolve total_rx_queue_exists_loop : total.

Lemma total_csp_rdp_rx_queue_add p s : total (csp_rdp_rx_queue_add p s).
Proof. unfold csp_rdp_rx_queue_add, csp_rdp_rx_queue_exists. total_auto. Qed.
#[local] Hint Resolve total_csp_rdp_rx_queue_add : total.

Lemma total_flush_eack_loop n p : total (flush_eack_loop n p).
Proof. induction n; cbn [flush_eack_loop]; total_auto. Qed.
#[local] Hint Resolve total_flush_eack_loop : total.

Lemma total_csp_rdp_flush_eack p : total (csp_rdp_flush_eack p).
Proof. unfold csp_rdp_flush_eack. total_auto. Qed.
#[local] Hint Resolve total_csp_rdp_flush_eack : total.

Lemma total_accepted_open : total accepted_open.
Proof. unfold accepted_open. total_auto. Qed.
Lemma total_discard_open p : total (discard_open p).
Proof. unfold discard_open, accepted_open. total_auto. Qed.
#[local] Hint Resolve total_discard_open total_accepted_open : total.

Lemma total_discard_close p : total (discard_close p).
Proof. unfold discard_close. total_auto. Qed.
#[local] Hint Resolve total_discard_close : total.

Lemma pool_kept_ret {A} (a : A) : pool_kept (ret a).
Proof. intros m b m' H. inversion H. apply Nat.le_refl. Qed.

Lemma pool_kept_bind {A B} (c : M A) (k : A -> M B) :
  pool_kept c -> (forall a, pool_kept (k a)) -> pool_kept (bind c k).
Proof.
  intros Hc Hk m b m' H. apply bind_inv in H. destruct H as (a & m1 & H1 & H2).
  apply Hc in H1. apply Hk in H2. lia.
Qed.

Lemma pool_kept_rdp_get : pool_kept rdp_get.
Proof. intros m a m' H. inversion H. apply Nat.le_refl. Qed.
Lemma pool_kept_rdp_upd f : pool_kept (rdp_upd f).
Proof. intros m a m' H. inversion H. apply Nat.le_refl. Qed.
Lemma pool_kept_conn_get : pool_kept conn_get.
Proof. intros m a m' H. inversion H. apply Nat.le_refl. Qed.
Lemma pool_kept_conn_upd f : pool_kept (conn_upd f).
Proof. intros m a m' H. inversion H. apply Nat.le_refl. Qed.
Lemma pool_kept_cfg_delay_acks : pool_kept cfg_delay_acks.
Proof. intros m a m' H. inversion H. apply Nat.le_refl. Qed.
Lemma pool_kept_csp_buffer_free p : pool_kept (csp_buffer_free p).
Proof. intros m a m' H. inversion H. cbn. lia. Qed.
Lemma pool_kept_csp_rdp_release : pool_kept csp_rdp_release.
Proof. intros m a m' H. inversion H. apply Nat.le_refl. Qed.
Lemma pool_kept_csp_rdp_wait : pool_kept csp_rdp_wait.
Proof.
  intros m a m' H. unfold csp_rdp_wait in H.
  destruct (rdp_lock m); inversion H; apply Nat.le_refl.
Qed.

Create HintDb pool_kept.
#[local] Hint Resolve pool_kept_ret pool_kept_rdp_get pool_kept_rdp_upd pool_kept_conn_get
  pool_kept_conn_upd pool_kept_cfg_delay_acks pool_kept_csp_buffer_free
  pool_kept_csp_rdp_release pool_kept_csp_rdp_wait : pool_kept.

Ltac pool_step :=
  lazymatch goal with
  | |- pool_kept (bind _ _) => apply pool_kept_bind; [ | intros ? ]
  | |- pool_kept (if ?b then _ else _) => destruct b
  | |- pool_kept (match ?x with _ => _ end) => destruct x
  end.
Ltac pool_auto := repeat pool_step; auto with pool_kept.

Lemma pool_kept_conn_rx_enqueue x : pool_kept (conn_rx_enqueue x).
Proof. unfold conn_rx_enqueue. pool_auto. Qed.
#[local] Hint Resolve pool_kept_conn_rx_enqueue : pool_kept.

Lemma pool_kept_csp_rdp_receive_data p : pool_kept (csp_rdp_receive_data p).
Proof. unfold csp_rdp_receive_data. pool_auto. Qed.
#[local] Hint Resolve pool_kept_csp_rdp_receive_data : pool_kept.

Lemma safe_of_total {A} (c : M A) : total c -> safe c.
Proof. intros H m _. apply H. Qed.

Lemma safe_bind_keep {A B} (c : M A) (k : A -> M B) :
  total c -> pool_kept c -> (forall a, safe (k a)) -> safe (bind c k).
Proof.
  intros Hc Hp Hk m Hm. destruct (Hc m) as (a & m1 & H1).
  destruct (Hk a m1) as (b & m2 & H2).
  - apply Hp in H1. lia.
  - exists b, m2. unfold bind. rewrite H1. exact H2.
Qed.

Lemma safe_bind_total {A B} (c : M A) (k : A -> M B) :
  safe c -> (forall a, total (k a)) -> safe (bind c k).
Proof.
  intros Hc Hk m Hm. destruct (Hc m Hm) as (a & m1 & H1).
  destruct (Hk a m1) as (b & m2 & H2).
  exists b, m2. unfold bind. rewrite H1. exact H2.
Qed.

Lemma safe_send_cmp_control a s r e sq ak c :
  safe (csp_rdp_send_cmp None a s r e sq ak c).
Proof.
  intros m Hm. destruct (pool m) as [|n] eqn:Hp; [lia|].
  assert (E : csp_rdp_send_cmp None a s r e sq ak c m
              = csp_rdp_send_cmp (Some (set_length 0 blank_packet)) a s r e sq ak c
                  (set_pool n m)).
  { unfold csp_rdp_send_cmp, bind, csp_buffer_get. rewrite Hp. reflexivity. }
  rewrite E. apply total_send_cmp_packet.
Qed.

Create HintDb safe.
#[local] Hint Resolve safe_send_cmp_control : safe.

(** Follows the computation up to the first statement that needs a
    buffer; what comes after it must return in any case. *)
Ltac safe_auto :=
  lazymatch goal with
  | |- safe (bind _ _) =>
      first [ apply safe_bind_keep;
                [ solve [total_auto] | solve [pool_auto] | intros ?; safe_auto ]
            | apply safe_bind_total;
                [ safe_auto | intros ?; solve [total_auto] ] ]
  | |- safe (if ?b then _ else _) => destruct b; safe_auto
  | |- safe (match ?x with _ => _ end) => destruct x; safe_auto
  | |- _ => first [ solve [auto with safe] | apply safe_of_total; solve [total_auto] ]
  end.

Lemma safe_csp_close : safe csp_close.
Proof. unfold csp_close, csp_rdp_close. safe_auto. Qed.
#[local] Hint Resolve safe_csp_close : safe.

Lemma safe_rdp_reset_received p : safe (rdp_reset_received p).
Proof. unfold rdp_reset_received. safe_auto. Qed.

Lemma safe_rdp_listen p : safe (rdp_listen p).
Proof. unfold rdp_listen. safe_auto. Qed.

Lemma safe_rdp_syn_sent p : safe (rdp_syn_sent p).
Proof. unfold rdp_syn_sent. safe_auto. Qed.

Lemma safe_rdp_open p : safe (rdp_open p).
Proof.
  unfold rdp_open, rdp_open_seq_unacceptable, rdp_open_ack, rdp_open_data. safe_auto.
Qed.

Lemma safe_rdp_close_wait p : safe (rdp_close_wait p).
Proof. unfold rdp_close_wait. safe_auto. Qed.
#[local] Hint Resolve safe_rdp_reset_received safe_rdp_listen safe_rdp_syn_sent
  safe_rdp_open safe_rdp_close_wait : safe.

Lemma safe_csp_rdp_new_packet p : safe (csp_rdp_new_packet p).
Proof. unfold csp_rdp_new_packet. safe_auto. Qed.

(** X16: [csp_rdp_send_cmp] writes to the buffer it asks for without
    testing it, so a reply needs a free buffer.  With at least one buffer
    in the pool [csp_rdp_new_packet] and [csp_rdp_close] return, whatever
    the packet and the state; with an empty pool a packet that draws a
    reply (here: an acknowledgement reaching a CLOSED or listening
    connection) and the first [csp_rdp_close] run into the NULL
    pointer. *)
Theorem reply_needs_buffer (m : machine) (packet : csp_packet_t) :
  ((1 <= pool m)%nat ->
   (exists m', csp_rdp_new_packet packet m = Some (tt, m')) /\
   (exists res m', csp_rdp_close m = Some (res, m'))) /\
  (pool m = 0%nat -> rdp_lock m = false ->
   (rst (header packet) = false -> ack (header packet) = true ->
    state (rdp (conn m)) = RDP_CLOSED \/ state (rdp (conn m)) = RDP_LISTEN ->
    csp_rdp_new_packet packet m = None) /\
   (state (rdp (conn m)) <> RDP_CLOSE_WAIT -> csp_rdp_close m = None)).
Proof.
  split.
  - intros Hp. split.
    + destruct (safe_csp_rdp_new_packet packet m Hp) as ([] & m' & H). exists m'. exact H.
    + assert (K : safe csp_rdp_close) by (unfold csp_rdp_close; safe_auto).
      exact (K m Hp).
  - intros Hp Hl. split.
    + intros Hrst Hack Hst.
      rewrite new_packet_entry by exact Hl. cbv zeta.
      change (rst (header (rx_host_order packet))) with (rst (header packet)).
      rewrite Hrst. unfold bind at 1. cbn [rdp_get conn set_conn rdp set_rdp].
      rewrite (listen_init_state _ Hst).
      unfold rdp_listen, csp_rdp_header_ref. unfold bind at 1.
      change (ack (header (rx_host_order packet))) with (ack (header packet)).
      rewrite Hack. unfold bind at 1.
      unfold csp_rdp_send_cmp, bind, csp_buffer_get. cbn. rewrite Hp. reflexivity.
    + intros Hst.
      assert (E : state_eqb (state (rdp (conn m))) RDP_CLOSE_WAIT = false)
        by (destruct (state (rdp (conn m))); try reflexivity; contradiction).
      unfold csp_rdp_close. unfold bind at 1. unfold csp_rdp_wait at 1. rewrite Hl.
      cbn [negb]. unfold bind at 1. cbn [rdp_get conn set_rdp_lock]. rewrite E. cbn [negb].
      unfold bind at 1. unfold csp_rdp_send_cmp, bind, csp_buffer_get. cbn. rewrite Hp.
      reflexivity.
Qed.

(** ** The timeout engine: acknowledgements and wake-ups *)


(** X18: a connection that has timed out inside the stack is torn down in
    two steps.  When [open_timestamp + conn_timeout] has passed on a
    connection still waiting on its socket, [csp_rdp_check_timeouts] does
    nothing but close it: the first call sends a RST|ACK and moves to
    CLOSE_WAIT, without sweeping the retransmission queue; the next call
    moves to CLOSED and releases the connection, again without a
    sweep. *)
Theorem conn_timeout_closes (m : machine) (n : nat) :
  let c := conn m in
  let r := rdp c in
  rdp_lock m = false -> pool m = S n -> if_up m = true ->
  is_listening (rx_socket c) = true ->
  state r <> RDP_CLOSE_WAIT ->
  u32 (open_timestamp c + conn_timeout r) < clock m ->
  exists m1 m2,
    csp_rdp_check_timeouts m = Some (tt, m1) /\
    state (rdp (conn m1)) = RDP_CLOSE_WAIT /\
    tx_queue (rdp (conn m1)) = tx_queue r /\
    trace m1 = trace m ++ [Sent (control_packet true false true false (snd_nxt r) (rcv_cur r))] /\
    csp_rdp_check_timeouts m1 = Some (tt, m2) /\
    state (rdp (conn m2)) = RDP_CLOSED /\
    tx_queue (rdp (conn m2)) = tx_queue r /\
    trace m2 = trace m1 ++ [Conn_closed] /\
    rdp_lock m2 = false.
Proof.
  intros c r Hl Hp Hup Hs Hst Hto.
  assert (E : state_eqb (state r) RDP_CLOSE_WAIT = false)
    by (destruct (state r); try reflexivity; exfalso; apply Hst; reflexivity).
  apply Z.ltb_lt in Hto.
  assert (H1 : csp_rdp_check_timeouts m = csp_close m).
  { unfold csp_rdp_check_timeouts. unfold bind at 1. unfold csp_get_ms at 1.
    unfold bind at 1. unfold conn_get at 1. fold c r. rewrite Hs, Hto. reflexivity. }
  rewrite H1. unfold csp_close at 1, csp_rdp_close at 1.
  unfold bind at 1. unfold bind at 1. unfold csp_rdp_wait at 1. rewrite Hl. cbn [negb].
  unfold bind at 1. cbn [rdp_get conn set_rdp_lock]. fold c r. rewrite E. cbn [negb].
  unfold bind at 1. rewrite (run_send_cmp_control _ n) by (cbn; assumption).
  unfold ack_noted. cbn [delay_acks set_trace set_pool set_rdp_lock andb].
  destruct (delay_acks m && true);
    unfold bind, rdp_upd, csp_rdp_release, ret; cbn [fst snd];
    change (1 =? 1) with true; cbv iota;
    (eexists; eexists; split; [reflexivity|]);
    (split; [reflexivity|]); (split; [reflexivity|]); (split; [reflexivity|]);
    (split;
     [ unfold csp_rdp_check_timeouts, bind, csp_get_ms, conn_get; cbn;
       fold c r; rewrite Hs, Hto; cbn;
       unfold csp_close, csp_rdp_close, bind, csp_rdp_wait, rdp_get, rdp_upd,
         csp_rdp_release, ret, emit; cbn;
       change (0 =? 1) with false; cbv iota; reflexivity
     | cbn; repeat split ]).
Qed.

(** ** The half-open retry of the active open *)

Lemma connect_try_entry o others half m :
  state (rdp (conn m)) <> RDP_OPEN ->
  connect_try o others half m
  = (sent <- csp_rdp_send_syn o ;;
     if sent =? 0 then connect_error else
     csp_rdp_release ;; tx_wait_poll ;;
     result <- tx_wait_sleep others ;;
     ok <- csp_rdp_wait ;;
     if negb ok then ret 0 else
     if result then
       r <- rdp_get ;;
       if state_eqb (state r) RDP_OPEN then csp_rdp_release ;; ret 1
       else if state_eqb (state r) RDP_SYN_SENT then half
       else connect_error
     else connect_error) (syn_ready m).
Proof.
  intros Hst.
  assert (E : state_eqb (state (rdp (conn m))) RDP_OPEN = false)
    by (destruct (state (rdp (conn m))); try reflexivity; contradiction).
  unfold connect_try at 1. unfold bind at 1. cbn [rdp_get]. rewrite E.
  unfold bind at 1. cbn [rdp_upd]. unfold bind at 1. cbn [rdp_upd].
  reflexivity.
Qed.

Lemma run_syn_sent_ack m packet n :
  let r := rdp (conn m) in
  rdp_lock m = false -> state r = RDP_SYN_SENT -> pool m = S n -> if_up m = true ->
  rst (header packet) = false -> syn (header packet) = false -> ack (header packet) = true ->
  exists m',
    csp_rdp_new_packet packet m = Some (tt, m') /\
    rdp_core (rdp (conn m')) = rdp_core r /\
    tx_wait (rdp (conn m')) = true /\ rdp_lock m' = false /\
    tx_queue (rdp (conn m')) = tx_queue r /\ rx_queue (rdp (conn m')) = rx_queue r /\
    if_up m' = true /\ pool m' = S n /\
    trace m' = trace m
               ++ [Sent (control_packet false false true false (snd_nxt r) (rcv_cur r));
                   Freed (rx_host_order packet)].
Proof.
  intros r Hl Hst Hp Hup Hrst Hsyn Hack.
  rewrite (new_packet_entry m packet Hl). cbv zeta.
  rewrite listen_init_other by (fold r; rewrite Hst; discriminate).
  change (rst (header (rx_host_order packet))) with (rst (header packet)). rewrite Hrst.
  unfold bind at 1. cbn [rdp_get conn set_conn rdp set_rdp]. fold r. rewrite Hst.
  unfold rdp_syn_sent, csp_rdp_header_ref.
  change (syn (header (rx_host_order packet))) with (syn (header packet)).
  change (ack (header (rx_host_order packet))) with (ack (header packet)).
  rewrite Hsyn, Hack. cbn [andb].
  unfold bind at 1. cbn [rdp_get conn set_conn rdp set_rdp]. fold r.
  unfold bind at 1. rewrite (run_send_cmp_control _ n) by (cbn; assumption).
  unfold ack_noted. cbn [andb]. rewrite andb_false_r.
  unfold bind at 1. unfold tx_wait_post. cbn [rdp_upd].
  rewrite run_discard_open. eexists. split; [reflexivity|].
  unfold r. cbn. rewrite <- app_assoc. repeat split; assumption.
Qed.

Lemma run_connect_try_answered o reply half x n :
  let h := header (rx_host_order reply) in
  state (rdp (conn x)) <> RDP_OPEN -> pool x = S (S (S n)) -> if_up x = true ->
  rst (header reply) = false -> syn (header reply) = true -> ack (header reply) = true ->
  exists m' t,
    connect_try o (delivers reply) half x = Some (1, m') /\
    rdp_core (rdp (conn m'))
    = (RDP_OPEN, [1001; u16 (ack_nr h + 1); 1000; seq_nr h; seq_nr h],
       session_params (rdp (conn x))) /\
    rdp_lock m' = false /\
    rx_queue (rdp (conn m')) = rx_queue (rdp (conn x)) /\
    trace m' = trace x ++ t /\ In (Sent (syn_packet o 1000)) t.
Proof.
  intros h Hst Hp Hup Hrst Hsyn Hack.
  rewrite (connect_try_entry o _ _ x Hst).
  destruct (run_csp_rdp_send_syn o (syn_ready x) (S n) Hp Hup)
    as (ms & Hsend & Htr & _ & Hcore & Hrxs & Hsur & Hpool).
  cbv zeta in Htr. change (snd_iss (rdp (conn (syn_ready x)))) with 1000 in Htr.
  unfold bind at 1. rewrite Hsend. change (1 =? 0) with false. cbv iota.
  unfold bind at 1. unfold csp_rdp_release at 1. unfold bind at 1.
  unfold tx_wait_poll at 1. cbn [rdp_upd]. unfold bind at 1. unfold tx_wait_sleep at 1.
  set (m1 := set_conn (set_rdp (rdp_set_tx_wait false (rdp (conn (set_rdp_lock false ms))))
                               (conn (set_rdp_lock false ms))) (set_rdp_lock false ms)).
  apply rdp_core_fields in Hcore.
  destruct Hcore as (Hcst & Hcn & Hcu & Hci & Hcc & Hcr & Hcp).
  assert (Hp1 : exists k, pool m1 = S k).
  { change (pool m1) with (pool ms). rewrite Hpool. destruct (_ <? _)%nat; eauto. }
  destruct Hp1 as (k & Hp1).
  assert (Hs1 : state (rdp (conn m1)) = RDP_SYN_SENT).
  { change (state (rdp (conn m1))) with (state (rdp (conn ms))). rewrite Hcst. reflexivity. }
  assert (Hl1 : rdp_lock m1 = false) by reflexivity.
  destruct (run_syn_sent_synack m1 reply k Hl1 Hs1 Hp1 Hrst Hsyn Hack)
    as (m2 & Hrun & Hcore2 & Hw2 & Hl2 & _ & Hrx2 & _ & Htr2).
  unfold delivers. rewrite Hrun. cbv zeta. rewrite Hw2.
  unfold bind at 1. unfold csp_rdp_wait at 1.
  change (rdp_lock (set_conn (set_rdp (rdp_set_tx_wait false (rdp (conn m2))) (conn m2)) m2))
    with (rdp_lock m2).
  rewrite Hl2. cbn [negb]. unfold bind at 1. cbn [rdp_get conn set_conn set_rdp_lock rdp set_rdp].
  apply rdp_core_value in Hcore2.
  destruct Hcore2 as (Hst2 & Hn2 & Hu2 & Hi2 & Hc2 & Hr2 & Hp2).
  change (state (rdp_set_tx_wait false (rdp (conn m2)))) with (state (rdp (conn m2))).
  rewrite Hst2. cbn [state_eqb]. unfold bind at 1. unfold csp_rdp_release at 1. unfold ret.
  eexists. eexists. split; [reflexivity|].
  cbn [conn set_conn set_rdp_lock rdp set_rdp rdp_lock trace].
  split.
  { unfold rdp_core.
    change (state (rdp_set_tx_wait false (rdp (conn m2)))) with (state (rdp (conn m2))).
    change (snd_nxt (rdp_set_tx_wait false (rdp (conn m2)))) with (snd_nxt (rdp (conn m2))).
    change (snd_una (rdp_set_tx_wait false (rdp (conn m2)))) with (snd_una (rdp (conn m2))).
    change (snd_iss (rdp_set_tx_wait false (rdp (conn m2)))) with (snd_iss (rdp (conn m2))).
    change (rcv_cur (rdp_set_tx_wait false (rdp (conn m2)))) with (rcv_cur (rdp (conn m2))).
    change (rcv_irs (rdp_set_tx_wait false (rdp (conn m2)))) with (rcv_irs (rdp (conn m2))).
    change (session_params (rdp_set_tx_wait false (rdp (conn m2))))
      with (session_params (rdp (conn m2))).
    rewrite Hst2, Hn2, Hu2, Hi2, Hc2, Hr2, Hp2.
    change (snd_nxt (rdp (conn m1))) with (snd_nxt (rdp (conn ms))).
    change (snd_iss (rdp (conn m1))) with (snd_iss (rdp (conn ms))).
    change (session_params (rdp (conn m1))) with (session_params (rdp (conn ms))).
    rewrite Hcn, Hci, Hcp. reflexivity. }
  split; [reflexivity|].
  split.
  { change (rx_queue (rdp_set_tx_wait false (rdp (conn m2)))) with (rx_queue (rdp (conn m2))).
    rewrite Hrx2. change (rx_queue (rdp (conn m1))) with (rx_queue (rdp (conn ms))).
    rewrite Hrxs. reflexivity. }
  split.
  { rewrite Htr2. change (trace m1) with (trace ms). rewrite Htr.
    change (trace (syn_ready x)) with (trace x). rewrite <- !app_assoc. reflexivity. }
  apply in_or_app. right. apply in_or_app. left. left. reflexivity.
Qed.

(** X19: the half-open retry.  When the answer to the first SYN of
    [csp_rdp_connect_active] is an acknowledgement without SYN, the
    connection sends a reset, empties both queues with
    [csp_rdp_flush_all], and sends the SYN once more; when that one is
    answered by a SYN|ACK the call returns 1 with the connection OPEN as
    after an open that succeeds at once.  Every packet that was queued
    before the call has been given back to the pool, and the trace shows
    the SYN, then the reset, then the SYN again. *)
Theorem active_open_retries (o : rdp_options) (timeout : Z) (m : machine) (n : nat)
    (stale reply : csp_packet_t) :
  let r := rdp (conn m) in
  let h := header (rx_host_order reply) in
  rdp_lock m = false -> state r <> RDP_OPEN ->
  pool m = S (S (S (S n))) -> if_up m = true ->
  rst (header stale) = false -> syn (header stale) = false -> ack (header stale) = true ->
  rst (header reply) = false -> syn (header reply) = true -> ack (header reply) = true ->
  exists m',
    csp_rdp_connect_active o (delivers stale) (delivers reply) timeout m = Some (1, m') /\
    rdp_core (rdp (conn m'))
    = (RDP_OPEN, [1001; u16 (ack_nr h + 1); 1000; seq_nr h; seq_nr h], option_params o) /\
    rdp_lock m' = false /\
    items (rx_queue (rdp (conn m'))) = [] /\
    In (Sent (control_packet false false true false 1001 (rcv_cur r))) (trace m') /\
    (forall e, In e (items (tx_queue r) ++ items (rx_queue r)) -> In (Freed e) (trace m')) /\
    (exists t1 t2 t3 t4,
       trace m' = trace m ++ t1
                  ++ Sent (syn_packet o 1000) :: t2
                  ++ Sent (control_packet false false true false 1001 (rcv_cur r)) :: t3
                  ++ Sent (syn_packet o 1000) :: t4).
Proof.
  intros r h Hl Hst Hp Hup Hrs Hss Has Hrr Hsr Har.
  rewrite (connect_active_entry o _ _ _ m Hl Hst).
  destruct (run_csp_rdp_send_syn o (connecting o m) (S (S n)) Hp Hup)
    as (ms & Hsend & Htr & Htx & Hcore & Hrxs & Hsur & Hpool).
  cbv zeta in Htr, Htx, Hpool.
  change (snd_iss (rdp (conn (connecting o m)))) with 1000 in Htr, Htx.
  change (tx_queue (rdp (conn (connecting o m)))) with (tx_queue r) in Htr, Htx, Hpool.
  change (rx_queue (rdp (conn (connecting o m)))) with (rx_queue r) in Hrxs.
  unfold bind at 1. rewrite Hsend. change (1 =? 0) with false. cbv iota.
  unfold bind at 1. unfold csp_rdp_release at 1. unfold bind at 1.
  unfold tx_wait_poll at 1. cbn [rdp_upd]. unfold bind at 1. unfold tx_wait_sleep at 1.
  set (m1 := set_conn (set_rdp (rdp_set_tx_wait false (rdp (conn (set_rdp_lock false ms))))
                               (conn (set_rdp_lock false ms))) (set_rdp_lock false ms)).
  apply rdp_core_fields in Hcore.
  destruct Hcore as (Hcst & Hcn & Hcu & Hci & Hcc & Hcr & Hcp).
  assert (Hup1 : if_up m1 = true).
  { change (if_up m1) with (if_up ms).
    assert (E := f_equal (fun x => snd (fst (fst (fst (fst x))))) Hsur). cbn in E.
    rewrite E. exact Hup. }
  assert (Hp1 : exists k, pool m1 = S k).
  { change (pool m1) with (pool ms). rewrite Hpool. destruct (_ <? _)%nat; eauto. }
  destruct Hp1 as (k & Hp1).
  assert (Hs1 : state (rdp (conn m1)) = RDP_SYN_SENT).
  { change (state (rdp (conn m1))) with (state (rdp (conn ms))). rewrite Hcst. reflexivity. }
  assert (Hl1 : rdp_lock m1 = false) by reflexivity.
  destruct (run_syn_sent_ack m1 stale k Hl1 Hs1 Hp1 Hup1 Hrs Hss Has)
    as (m2 & Hrun & Hcore2 & Hw2 & Hl2 & Htx2 & Hrx2 & Hup2 & Hp2 & Htr2).
  unfold delivers at 1 2 3 4. rewrite Hrun. cbv zeta. rewrite Hw2.
  unfold bind at 1. unfold csp_rdp_wait at 1.
  change (rdp_lock (set_conn (set_rdp (rdp_set_tx_wait false (rdp (conn m2))) (conn m2)) m2))
    with (rdp_lock m2).
  rewrite Hl2. cbn [negb]. unfold bind at 1. cbn [rdp_get conn set_conn set_rdp_lock rdp set_rdp].
  apply rdp_core_fields in Hcore2.
  destruct Hcore2 as (Hst2 & Hn2 & Hu2 & Hi2 & Hc2 & Hr2 & Hpa2).
  change (state (rdp_set_tx_wait false (rdp (conn m2)))) with (state (rdp (conn m2))).
  rewrite Hst2, Hs1. cbn [state_eqb].
  set (m3 := set_rdp_lock true
               (set_conn (set_rdp (rdp_set_tx_wait false (rdp (conn m2))) (conn m2)) m2)).
  unfold bind at 1. rewrite (run_csp_rdp_flush_all m3). cbv zeta.
  change (tx_queue (rdp (conn m3))) with (tx_queue (rdp (conn m2))).
  change (rx_queue (rdp (conn m3))) with (rx_queue (rdp (conn m2))).
  rewrite Htx2, Hrx2.
  change (tx_queue (rdp (conn m1))) with (tx_queue (rdp (conn ms))).
  change (rx_queue (rdp (conn m1))) with (rx_queue (rdp (conn ms))).
  rewrite Hrxs.
  set (old := items (tx_queue (rdp (conn ms))) ++ items (rx_queue r)).
  set (m4 := with_rx_items [] (with_tx_items [] (all_freed old m3))).
  assert (Hp4 : exists k', pool m4 = S (S (S k'))).
  { change (pool m4) with (pool m2 + List.length old)%nat.
    rewrite Hp2. rewrite <- Hp1. change (pool m1) with (pool ms). rewrite Hpool.
    unfold old. rewrite Htx, !length_app.
    destruct (_ <? _)%nat; cbn [List.length];
      exists (n + List.length (items (tx_queue r)) + List.length (items (rx_queue r)))%nat;
      lia. }
  destruct Hp4 as (k' & Hp4).
  destruct (run_connect_try_answered o reply connect_error m4 k') as
    (m' & t & Hrun4 & Hcore4 & Hl4 & Hrx4 & Htr4 & Hin4); try assumption.
  { change (state (rdp (conn m4))) with (state (rdp (conn m2))).
    rewrite Hst2, Hs1. discriminate. }
  exists m'. split; [exact Hrun4|].
  split.
  { rewrite Hcore4.
    change (session_params (rdp (conn m4))) with (session_params (rdp (conn m2))).
    rewrite Hpa2.
    change (session_params (rdp (conn m1))) with (session_params (rdp (conn ms))).
    rewrite Hcp. reflexivity. }
  split; [exact Hl4|].
  split; [rewrite Hrx4; reflexivity|].
  assert (Ht4 : trace m4 = trace m2 ++ map Freed old) by reflexivity.
  split.
  { rewrite Htr4, Ht4, Htr2. apply in_or_app. left. apply in_or_app. left.
    apply in_or_app. right. left.
    change (snd_nxt (rdp (conn m1))) with (snd_nxt (rdp (conn ms))).
    change (rcv_cur (rdp (conn m1))) with (rcv_cur (rdp (conn ms))).
    rewrite Hcn, Hcc. reflexivity. }
  split.
  { intros e He. rewrite Htr4, Ht4. apply in_or_app. left. apply in_or_app. right.
    apply in_map. unfold old. rewrite Htx.
    apply in_app_or in He. destruct He as [He|He].
    - apply in_or_app. left. apply in_or_app. left. exact He.
    - apply in_or_app. right. exact He. }
  apply in_split in Hin4. destruct Hin4 as (l1 & l2 & Hsplit).
  exists (if (List.length (items (tx_queue r)) <? capacity (tx_queue r))%nat
          then [] else [Freed (set_timestamp (clock (connecting o m)) (syn_packet o 1000))]),
         [], (Freed (rx_host_order stale) :: map Freed old ++ l1), l2.
  rewrite Htr4, Ht4, Htr2, Hsplit. change (trace m1) with (trace ms). rewrite Htr.
  change (trace (connecting o m)) with (trace m).
  change (snd_nxt (rdp (conn m1))) with (snd_nxt (rdp (conn ms))).
  change (rcv_cur (rdp (conn m1))) with (rcv_cur (rdp (conn ms))).
  rewrite Hcn, Hcc.
  change (snd_nxt (rdp (conn (connecting o m)))) with (1000 + 1).
  change (rcv_cur (rdp (conn (connecting o m)))) with (rcv_cur r).
  change (1000 + 1) with 1001.
  rewrite <- !app_assoc. cbn [app]. rewrite <- !app_assoc. reflexivity.
Qed.

(** ** Refusals *)

Lemma lock_round_trip m : rdp_lock m = false -> set_rdp_lock false (set_rdp_lock true m) = m.
Proof. intros H. apply machine_eq; cbn; auto. Qed.

(** X20: the ways [csp_rdp_send] refuses a packet before it has touched
    it.  When the lock is taken, and when the connection is not OPEN, it
    returns 0 and leaves everything as it was; when the send window is
    full and nobody posts [tx_wait] during the wait, it returns 0 with the
    lock released and the connection unchanged but for the cleared
    [tx_wait] signal.  In each case the caller's packet comes back without
    header, no sequence number is used and nothing is queued. *)
Theorem send_refused (others : machine -> machine) (packet : csp_packet_t)
    (timeout : Z) (m : machine) :
  let r := rdp (conn m) in
  let waiting := set_conn (set_rdp (rdp_set_tx_wait false r) (conn m)) m in
  (rdp_lock m = true \/ state r <> RDP_OPEN ->
   csp_rdp_send others packet timeout m = Some ((0, packet), m)) /\
  (rdp_lock m = false -> state r = RDP_OPEN ->
   window_size r <= u32 (snd_nxt r - snd_una r + 1) ->
   tx_wait (rdp (conn (others waiting))) = false ->
   csp_rdp_send others packet timeout m = Some ((0, packet), others waiting)).
Proof.
  intros r waiting. split.
  - intros Hcase. unfold csp_rdp_send. unfold bind at 1. unfold csp_rdp_wait at 1.
    destruct (rdp_lock m) eqn:Hl; [reflexivity|].
    destruct Hcase as [Hc|Hst]; [discriminate|].
    cbn [negb]. unfold bind at 1. cbn [rdp_get conn set_rdp_lock]. fold r.
    assert (E : state_eqb (state r) RDP_OPEN = false)
      by (destruct (state r); try reflexivity; exfalso; apply Hst; reflexivity).
    rewrite E. cbn [negb]. unfold bind, csp_rdp_release, ret.
    rewrite lock_round_trip by exact Hl. reflexivity.
  - intros Hl Hst Hfull Hquiet.
    unfold csp_rdp_send. unfold bind at 1. unfold csp_rdp_wait at 1. rewrite Hl.
    cbn [negb]. unfold bind at 1. cbn [rdp_get conn set_rdp_lock]. fold r. rewrite Hst.
    cbn [state_eqb negb].
    assert (Ew : (u32 (snd_nxt r - snd_una r + 1) >=? window_size r) = true)
      by (rewrite Z.geb_leb; apply Z.leb_le; exact Hfull).
    rewrite Ew. unfold bind at 1. unfold bind at 1. unfold csp_rdp_release at 1.
    unfold bind at 1. unfold tx_wait_poll at 1. cbn [rdp_upd].
    unfold bind at 1. unfold tx_wait_sleep at 1.
    rewrite lock_round_trip by exact Hl. fold r. fold waiting. cbv zeta.
    rewrite Hquiet. reflexivity.
Qed.

(** X21: a connection that is CLOSED or listening answers anything but a
    SYN or a reset by refusing it.  An acknowledgement draws a RST with
    the connection's [snd_nxt] and [rcv_cur]; a packet without SYN and
    acknowledgement draws nothing.  The packet is freed on the close path,
    the state is LISTEN afterwards and the lock is released. *)
Theorem listen_refuses (m : machine) (packet : csp_packet_t) (n : nat) :
  let r := listen_init (rdp (conn m)) in
  rdp_lock m = false -> pool m = S n ->
  state (rdp (conn m)) = RDP_CLOSED \/ state (rdp (conn m)) = RDP_LISTEN ->
  rst (header packet) = false ->
  ack (header packet) = true \/ syn (header packet) = false ->
  exists m',
    csp_rdp_new_packet packet m = Some (tt, m') /\
    rdp_core (rdp (conn m')) = rdp_core r /\
    state (rdp (conn m')) = RDP_LISTEN /\ rdp_lock m' = false /\
    trace m' = trace m
               ++ (if ack (header packet)
                   then [handed_to_if m (control_packet false false true false
                                           (snd_nxt r) (rcv_cur r))]
                   else [])
               ++ [Freed (rx_host_order packet)].
Proof.
  intros r Hl Hp Hst Hrst Hcase.
  rewrite (new_packet_entry m packet Hl). cbv zeta.
  change (rst (header (rx_host_order packet))) with (rst (header packet)). rewrite Hrst.
  unfold bind at 1. cbn [rdp_get conn set_conn rdp set_rdp]. fold r.
  pose proof (listen_init_state _ Hst) as Hs0. fold r in Hs0. rewrite Hs0.
  unfold rdp_listen, csp_rdp_header_ref. unfold bind at 1.
  cbn [rdp_get conn set_conn rdp set_rdp].
  change (ack (header (rx_host_order packet))) with (ack (header packet)).
  change (syn (header (rx_host_order packet))) with (syn (header packet)).
  destruct (ack (header packet)) eqn:Hack.
  - unfold bind at 1.
    match goal with |- context [csp_rdp_send_cmp None ?a ?s ?rs ?e ?sq ?ak false ?m0] =>
      destruct (run_send_cmp_acked m0 n a s rs e sq ak) as (res & lsa & ts & p & Hrun);
        [exact Hp | rewrite Hrun]
    end.
    rewrite run_discard_close. eexists. split; [reflexivity|].
    unfold handed_to_if. cbn. rewrite close_notified_rdp. cbn. rewrite <- app_assoc.
    repeat split. exact Hs0.
  - destruct Hcase as [Hc|Hsyn]; [discriminate|]. rewrite Hsyn.
    rewrite run_discard_close. eexists. split; [reflexivity|].
    cbn. rewrite close_notified_rdp. cbn. repeat split. exact Hs0.
Qed.

(** X22: in SYN_RCVD and OPEN a packet that carries a SYN, or no
    acknowledgement, is invalid: it is freed on the close path (user
    space, if it has the connection, finds a NULL on its queue), nothing
    is sent and the RDP block is left as it was. *)
Theorem open_refuses_syn_or_no_ack (m : machine) (packet : csp_packet_t) :
  rdp_lock m = false ->
  state (rdp (conn m)) = RDP_SYN_RCVD \/ state (rdp (conn m)) = RDP_OPEN ->
  rst (header packet) = false ->
  syn (header packet) = true \/ ack (header packet) = false ->
  exists m',
    csp_rdp_new_packet packet m = Some (tt, m') /\
    conn m' = close_notified (conn m) /\ rdp (conn m') = rdp (conn m) /\
    rdp_lock m' = false /\ pool m' = S (pool m) /\
    trace m' = trace m ++ [Freed (rx_host_order packet)].
Proof.
  intros Hl Hst Hrst Hcase.
  assert (E : rdp_open (rx_host_order packet) (set_rdp_lock true m)
              = discard_close (rx_host_order packet) (set_rdp_lock true m)).
  { unfold rdp_open, csp_rdp_header_ref.
    change (syn (header (rx_host_order packet))) with (syn (header packet)).
    change (ack (header (rx_host_order packet))) with (ack (header packet)).
    destruct Hcase as [H|H]; rewrite H; [reflexivity|].
    rewrite orb_true_r. reflexivity. }
  assert (Hrun : csp_rdp_new_packet packet m
                 = discard_close (rx_host_order packet) (set_rdp_lock true m)).
  { rewrite (new_packet_entry m packet Hl). cbv zeta.
    rewrite listen_init_other by (destruct Hst as [E'|E']; rewrite E'; discriminate).
    change (rst (header (rx_host_order packet))) with (rst (header packet)). rewrite Hrst.
    replace (set_conn (set_rdp (rdp (conn m)) (conn m)) (set_rdp_lock true m))
      with (set_rdp_lock true m)
      by (destruct m as [[r s q t] l p c u d tr]; reflexivity).
    unfold bind at 1. cbn [rdp_get conn set_rdp_lock].
    destruct Hst as [E'|E']; rewrite E'; exact E. }
  rewrite Hrun, run_discard_close.
  eexists. split; [reflexivity|]. cbn.
  split; [reflexivity|]. split; [apply close_notified_rdp|]. repeat split.
Qed.

Lemma open_refuses_syn_or_no_ack_witness :
  exists m',
    csp_rdp_new_packet (wire_packet true true false false 2011 1009 [])
                       (sample_machine RDP_OPEN) = Some (tt, m') /\
    items (conn_rx_queue (conn m')) = [None].
Proof.
  destruct (open_refuses_syn_or_no_ack (sample_machine RDP_OPEN)
              (wire_packet true true false false 2011 1009 []))
    as (m' & Hrun & Hc & _).
  - reflexivity.
  - right. reflexivity.
  - reflexivity.
  - left. reflexivity.
  - exists m'. split; [exact Hrun|]. rewrite Hc. reflexivity.
Defined.

(** ** The further properties at sample inputs *)


Lemma out_of_order_segment_held_witness :
  exists m',
    csp_rdp_new_packet (segment 2014) (holding [2013; 2012]) = Some (tt, m') /\
    map seq_of (items (rx_queue (rdp (conn m')))) = [2013; 2012; 2014] /\
    rcv_cur (rdp (conn m')) = 2010.
Proof.
  destruct (out_of_order_segment_held (holding [2013; 2012]) (segment 2014) 7)
    as (m' & Hrun & _ & _ & Hcur & _ & _ & Hnew & _).
  - reflexivity.
  - reflexivity.
  - reflexivity.
  - reflexivity.
  - reflexivity.
  - reflexivity.
  - reflexivity.
  - reflexivity.
  - reflexivity.
  - vm_compute. split; [reflexivity | discriminate].
  - reflexivity.
  - vm_compute. discriminate.
  - reflexivity.
  - vm_compute. discriminate.
  - cbn. lia.
  - cbn. lia.
  - destruct Hnew as (Hq & _).
    + vm_compute. intros [H|[H|H]]; [discriminate H | discriminate H | exact H].
    + cbn. lia.
    + exists m'. split; [exact Hrun|]. split; [rewrite Hq; reflexivity | exact Hcur].
Defined.

Lemma eack_round_trip_witness :
  exists eack receiver' sender',
    csp_rdp_send_eack (holding [1012; 1011]) = Some (1, receiver') /\
    trace receiver' = [Sent eack] /\
    csp_rdp_flush_eack (rx_host_order eack) unacked_machine = Some (tt, sender') /\
    map (fun e => ntohs (seq_nr (header e))) (items (tx_queue (rdp (conn sender')))) = [1010].
Proof.
  destruct (eack_round_trip (holding [1012; 1011]) unacked_machine 7)
    as (eack & receiver' & sender' & Hsend & Htr & _ & _ & Hflush & Hq & _).
  - reflexivity.
  - reflexivity.
  - cbn. lia.
  - vm_compute. repeat constructor; discriminate.
  - vm_compute. reflexivity.
  - cbn. lia.
  - exists eack, receiver', sender'.
    split; [exact Hsend|]. split; [exact Htr|]. split; [exact Hflush|].
    rewrite <- (map_map header (fun h => ntohs (seq_nr h))), Hq. vm_compute. reflexivity.
Defined.

Lemma syn_round_trip_witness :
  exists a' b',
    csp_rdp_send_syn sample_options (sample_machine RDP_SYN_SENT) = Some (1, a') /\
    csp_rdp_new_packet (syn_packet sample_options 1000) fresh_machine = Some (tt, b') /\
    state (rdp (conn b')) = RDP_SYN_RCVD /\
    session_params (rdp (conn b')) = [5; 2000; 500; 1; 250; 2].
Proof.
  destruct (syn_round_trip sample_options (sample_machine RDP_SYN_SENT) fresh_machine 6 6)
    as (a' & b' & Hsend & _ & _ & Hrun & Hst & Hpar & _).
  - repeat (constructor; [vm_compute; split; [discriminate | reflexivity]|]). constructor.
  - reflexivity.
  - reflexivity.
  - cbn. lia.
  - reflexivity.
  - left. reflexivity.
  - reflexivity.
  - reflexivity.
  - exists a', b'. repeat split; assumption.
Defined.

Lemma syn_rcvd_opens_on_ack_witness :
  exists m',
    csp_rdp_new_packet (wire_packet false true false false 2011 1000 [])
                       (sample_machine RDP_SYN_RCVD) = Some (tt, m') /\
    state (rdp (conn m')) = RDP_OPEN.
Proof.
  destruct (syn_rcvd_opens_on_ack (sample_machine RDP_SYN_RCVD)
              (wire_packet false true false false 2011 1000 []))
    as (m' & Hrun & _ & _ & Hopen & _).
  - reflexivity.
  - reflexivity.
  - reflexivity.
  - reflexivity.
  - reflexivity.
  - reflexivity.
  - vm_compute. discriminate.
  - vm_compute. split; [reflexivity | discriminate].
  - reflexivity.
  - vm_compute. discriminate.
  - reflexivity.
  - vm_compute. discriminate.
  - destruct Hopen as (Hst & _); [reflexivity|].
    exists m'. split; assumption.
Defined.

Lemma active_open_answered_witness :
  exists m',
    csp_rdp_connect_active sample_options
      (delivers (wire_packet true true false false 2000 1000 [])) (fun m => m) 0
      (sample_machine RDP_CLOSED) = Some (1, m') /\
    rdp_core (rdp (conn m'))
    = (RDP_OPEN, [1001; 1001; 1000; 2000; 2000], [5; 2000; 500; 1; 250; 2]).
Proof.
  destruct (active_open_answered sample_options (fun m => m) 0
              (sample_machine RDP_CLOSED) 5 (wire_packet true true false false 2000 1000 []))
    as (m' & Hrun & Hcore & _).
  - reflexivity.
  - cbn. discriminate.
  - reflexivity.
  - reflexivity.
  - reflexivity.
  - reflexivity.
  - reflexivity.
  - exists m'. split; [exact Hrun|]. rewrite Hcore. vm_compute. reflexivity.
Defined.

Lemma active_open_fails_witness :
  exists m',
    csp_rdp_connect_active sample_options (fun m => m) (fun m => m) 0
      (sample_machine RDP_CLOSED) = Some (0, m') /\
    state (rdp (conn m')) = RDP_CLOSE_WAIT.
Proof.
  destruct (active_open_fails sample_options (fun m => m) (fun m => m) 0
              (sample_machine RDP_CLOSED))
    as (m' & Hrun & Hcore & _).
  - reflexivity.
  - cbn. discriminate.
  - right. split; [cbn; lia|]. split; [reflexivity|]. intros x. repeat split.
  - exists m'. split; [exact Hrun|].
    apply (f_equal (fun c => fst (fst c))) in Hcore. exact Hcore.
Defined.


Lemma new_packet_transitions_witness :
  exists m',
    csp_rdp_new_packet (wire_packet false true false true 2011 1009 [])
                       (sample_machine RDP_OPEN) = Some (tt, m') /\
    may_follow RDP_OPEN (state (rdp (conn m'))) = true.
Proof.
  destruct (csp_rdp_new_packet (wire_packet false true false true 2011 1009 [])
                               (sample_machine RDP_OPEN)) as [[[] m']|] eqn:E.
  - exists m'. split; [reflexivity|].
    destruct (new_packet_transitions (sample_machine RDP_OPEN)
                (wire_packet false true false true 2011 1009 []) m' E) as (H & _).
    exact H.
  - vm_compute in E. discriminate E.
Defined.

Lemma lock_balanced_witness :
  exists m',
    csp_rdp_new_packet (segment 2011) (sample_machine RDP_OPEN) = Some (tt, m') /\
    rdp_lock m' = false.
Proof.
  destruct (csp_rdp_new_packet (segment 2011) (sample_machine RDP_OPEN))
    as [[[] m']|] eqn:E.
  - exists m'. split; [reflexivity|].
    destruct (lock_balanced (sample_machine RDP_OPEN) (segment 2011)) as (H & _).
    exact (H m' E).
  - vm_compute in E. discriminate E.
Defined.

Lemma reply_needs_buffer_witness :
  (exists m', csp_rdp_new_packet (segment 2011) (sample_machine RDP_OPEN) = Some (tt, m')) /\
  csp_rdp_close (set_pool 0 (sample_machine RDP_OPEN)) = None.
Proof.
  split.
  - destruct (reply_needs_buffer (sample_machine RDP_OPEN) (segment 2011)) as (H & _).
    destruct H as (H & _); [cbn; lia | exact H].
  - destruct (reply_needs_buffer (set_pool 0 (sample_machine RDP_OPEN)) (segment 2011))
      as (_ & H).
    destruct H as (_ & H); [reflexivity | reflexivity |].
    apply H. cbn. discriminate.
Defined.


Lemma conn_timeout_closes_witness :
  exists m1 m2,
    csp_rdp_check_timeouts lost_machine = Some (tt, m1) /\
    csp_rdp_check_timeouts m1 = Some (tt, m2) /\
    state (rdp (conn m2)) = RDP_CLOSED.
Proof.
  destruct (conn_timeout_closes lost_machine 7)
    as (m1 & m2 & H1 & _ & _ & _ & H2 & Hst & _).
  - reflexivity.
  - reflexivity.
  - reflexivity.
  - reflexivity.
  - cbn. discriminate.
  - vm_compute. reflexivity.
  - exists m1, m2. repeat split; assumption.
Defined.

Lemma active_open_retries_witness :
  exists m',
    csp_rdp_connect_active sample_options
      (delivers (wire_packet false true false false 2000 1000 []))
      (delivers (wire_packet true true false false 2000 1000 [])) 0
      (sample_machine RDP_CLOSED) = Some (1, m') /\
    state (rdp (conn m')) = RDP_OPEN.
Proof.
  destruct (active_open_retries sample_options 0 (sample_machine RDP_CLOSED) 4
              (wire_packet false true false false 2000 1000 [])
              (wire_packet true true false false 2000 1000 []))
    as (m' & Hrun & Hcore & _).
  - reflexivity.
  - cbn. discriminate.
  - reflexivity.
  - reflexivity.
  - reflexivity.
  - reflexivity.
  - reflexivity.
  - reflexivity.
  - reflexivity.
  - reflexivity.
  - exists m'. split; [exact Hrun|].
    apply (f_equal (fun c => fst (fst c))) in Hcore. exact Hcore.
Defined.

Lemma send_refused_witness :
  csp_rdp_send (fun m => m) user_packet 0 (sample_machine RDP_CLOSE_WAIT)
  = Some ((0, user_packet), sample_machine RDP_CLOSE_WAIT).
Proof.
  destruct (send_refused (fun m => m) user_packet 0 (sample_machine RDP_CLOSE_WAIT))
    as (H & _).
  apply H. right. cbn. discriminate.
Defined.

Lemma listen_refuses_witness :
  exists m',
    csp_rdp_new_packet (wire_packet false true false false 5 5 []) fresh_machine
    = Some (tt, m') /\
    state (rdp (conn m')) = RDP_LISTEN.
Proof.
  destruct (listen_refuses fresh_machine (wire_packet false true false false 5 5 []) 7)
    as (m' & Hrun & _ & Hst & _).
  - reflexivity.
  - reflexivity.
  - left. reflexivity.
  - reflexivity.
  - left. reflexivity.
  - exists m'. split; assumption.
Defined.

